(** * Price-comparison search gateway: a shallow embedding

    The development follows the TypeScript sources of the API:
    - [packages/utils/src/currency.ts]   ([EXCHANGE_RATES], [convertCurrency]);
    - [services/cache.service.ts]        ([CacheService]);
    - [services/search.service.ts]       ([SearchService]);
    - [services/mock-data.service.ts]    ([MockDataService]);
    - [routes/search/local.route.ts]     (the POST /local handler).

    Modelling conventions.
    - A JavaScript [number] read from a request or a stored document is a
      finite value and is modelled by a rational ([Q]).  The only operations
      of the modelled code that can leave the finite numbers are the
      divisions by a run-time value ([savings / localPrice],
      [totalResults / perPage]); their results live in [JS.number], which
      adds NaN and the infinities.
    - Numbers are IEEE-754 binary64 values.  Where the code hands out a
      product, a quotient, a sum or a difference as it is (the landed-cost
      estimate, the smart-deal figures, [getExchangeRate],
      [isSignificantPriceDifference]), every operation rounds its exact
      result to 53 significant bits, ties to even ([F64]).  Where the code
      rounds what it computed to cents or to an integer before handing it
      out ([convertCurrency], the cost calculations, the savings
      percentage), the value under [Math.round] is taken exactly.
    - A JavaScript string is a [string]; a character is one code unit in
      the range 0..255 (Latin-1).
    - [x?: T] is [option T]; truthiness tests ([if (x)], [x || y], [x && y])
      are written out with [JS.truthy].
    - Page numbers and page sizes are integers ([Z]); the route schema
      enforces it ([z.number().int()]). *)

From Stdlib Require Import ZArith QArith Qround Qabs Qpower Qreduction Lqa Lia.
From Stdlib Require Import List String Ascii Bool Permutation Sorted.
From Stdlib Require Import DecimalString HexadecimalString OrderedTypeEx.
Import ListNotations.

Local Open Scope string_scope.
Local Open Scope Z_scope.

(* ================================================================== *)
(** ** The JavaScript run-time operations the sources rely on *)
(* ================================================================== *)

Module JS.

(** Results of an arithmetic expression that contains a division. *)
Inductive number : Type :=
  | Fin (q : Q)
  | PosInf
  | NegInf
  | NaN.

(** [if (x)] on a finite number: zero is falsy. *)
Definition truthy (q : Q) : bool := negb (Qeq_bool q 0).

(** [x || d] where [x : number | undefined]. *)
Definition or_else (x : option Q) (d : Q) : Q :=
  match x with
  | Some q => if truthy q then q else d
  | None => d
  end.

(** [x || d] on integers. *)
Definition or_elseZ (x : option Z) (d : Z) : Z :=
  match x with
  | Some z => if Z.eqb z 0 then d else z
  | None => d
  end.

Definition Qltb (a b : Q) : bool := negb (Qle_bool b a).

(** [a / b] on finite operands, as an exact quotient: it is used where the
    operands are counts and the quotient goes to [Math.ceil], and under
    [Math.round]. *)
Definition div (a b : Q) : number :=
  if Qeq_bool b 0 then
    if Qeq_bool a 0 then NaN
    else if Qltb 0 a then PosInf else NegInf
  else Fin (a / b).

(** [x < c]: every comparison with NaN is false. *)
Definition ltb (x : number) (c : Q) : bool :=
  match x with
  | Fin q => Qltb q c
  | NegInf => true
  | PosInf | NaN => false
  end.

(** [c < x]. *)
Definition gtb (x : number) (c : Q) : bool :=
  match x with
  | Fin q => Qltb c q
  | PosInf => true
  | NegInf | NaN => false
  end.

(** [Math.round]: the nearest integer, ties towards +infinity. *)
Definition Math_round (q : Q) : Z := Qfloor (q + (1 # 2)).

(** [Math.ceil]. *)
Definition Math_ceil (x : number) : number :=
  match x with
  | Fin q => Fin (inject_Z (Qceiling q))
  | other => other
  end.

(** Decimal rendering of an integer. *)
Definition Z_toString (z : Z) : string :=
  DecimalString.NilZero.string_of_int (Z.to_int z).

(** [(n).toString(16)] for a non-negative integer. *)
Definition toString16 (z : Z) : string :=
  HexadecimalString.NilZero.string_of_uint (N.to_hex_uint (Z.to_N z)).

Definition bool_toString (b : bool) : string :=
  if b then "true" else "false".

(** [ToInt32]: wrap an integer to the signed 32-bit range. *)
Definition toInt32 (z : Z) : Z := (z + 2 ^ 31) mod 2 ^ 32 - 2 ^ 31.

(** [z >>> 0]: the unsigned 32-bit reading. *)
Definition toUint32 (z : Z) : Z := z mod 2 ^ 32.

Definition charCode (c : ascii) : Z := Z.of_N (N_of_ascii c).

(** [String.prototype.toLowerCase] on Latin-1 code units. *)
Definition lowerChar (c : ascii) : ascii :=
  let n := charCode c in
  if ((65 <=? n) && (n <=? 90))
     || ((192 <=? n) && (n <=? 222) && negb (n =? 215))
  then ascii_of_N (Z.to_N (n + 32)) else c.

Fixpoint toLowerCase (s : string) : string :=
  match s with
  | EmptyString => EmptyString
  | String c s' => String (lowerChar c) (toLowerCase s')
  end.

(** White space removed by [trim]: TAB, LF, VT, FF, CR, SP and NBSP. *)
Definition isSpace (c : ascii) : bool :=
  let n := charCode c in
  ((9 <=? n) && (n <=? 13)) || (n =? 32) || (n =? 160).

Fixpoint trimStart (s : string) : string :=
  match s with
  | EmptyString => EmptyString
  | String c s' => if isSpace c then trimStart s' else s
  end.

Fixpoint trimEnd (s : string) : string :=
  match s with
  | EmptyString => EmptyString
  | String c s' =>
      match trimEnd s' with
      | EmptyString => if isSpace c then EmptyString else String c EmptyString
      | rest => String c rest
      end
  end.

Definition trim (s : string) : string := trimEnd (trimStart s).

(** [s.includes(sub)]. *)
Fixpoint includes (s sub : string) : bool :=
  if String.prefix sub s then true
  else match s with
       | EmptyString => false
       | String _ s' => includes s' sub
       end.

(** [arr.includes(x)] on an array of strings. *)
Definition arrayIncludes (arr : list string) (x : string) : bool :=
  existsb (String.eqb x) arr.

(** [arr.join(sep)]. *)
Definition join (sep : string) (arr : list string) : string :=
  String.concat sep arr.

(** [arr.sort()] with the default comparison: ascending by code units.
    The order is total and antisymmetric on strings, so the sorted array
    does not depend on the algorithm; insertion is used here. *)
Fixpoint insert (x : string) (l : list string) : list string :=
  match l with
  | [] => [x]
  | y :: l' => if String.leb x y then x :: l else y :: insert x l'
  end.

Fixpoint sort (l : list string) : list string :=
  match l with
  | [] => []
  | x :: l' => insert x (sort l')
  end.

(** [arr.sort(cmp)] with a numeric comparator: stable, [a] stays before
    [b] unless [cmp a b > 0]. *)
Section SortBy.
Context {A : Type} (cmp : A -> A -> Q).

Fixpoint insertBy (x : A) (l : list A) : list A :=
    match l with
    | [] => [x]
    | y :: l' => if Qltb 0 (cmp x y) then y :: insertBy x l' else x :: l
    end.

Fixpoint sortBy (l : list A) : list A :=
    match l with
    | [] => []
    | x :: l' => insertBy x (sortBy l')
    end.
End SortBy.

(** [arr.slice(start, end)] with integer bounds: a negative bound counts
    from the end of the array. *)
Definition relIndex (len i : Z) : Z :=
  if i <? 0 then Z.max (len + i) 0 else Z.min i len.

Definition slice {A : Type} (arr : list A) (start stop : Z) : list A :=
  let len := Z.of_nat (List.length arr) in
  let k := relIndex len start in
  let final := relIndex len stop in
  firstn (Z.to_nat (Z.max (final - k) 0)) (skipn (Z.to_nat k) arr).

(** [String(x)] for a result that may be non-finite; the rendering of a
    finite number is the engine's [Number::toString], a parameter. *)
Definition number_toString (numberToString : Q -> string) (x : number) : string :=
  match x with
  | Fin q => numberToString q
  | PosInf => "Infinity"
  | NegInf => "-Infinity"
  | NaN => "NaN"
  end.

(** [x.toFixed(0)]: sign, then the nearest integer to the magnitude (the
    larger one on a tie) in decimal; magnitudes from 10^21 on and
    non-finite values are rendered as [String(x)]. *)
Definition toFixed0 (numberToString : Q -> string) (x : number) : string :=
  match x with
  | Fin q =>
      let s := if Qltb q 0 then "-" else "" in
      let x' := if Qltb q 0 then (- q)%Q else q in
      let m := if Qle_bool (inject_Z (10 ^ 21)) x' then numberToString x'
               else Z_toString (Qfloor (x' + (1 # 2))) in
      s ++ m
  | other => number_toString numberToString other
  end.

(** [arr.reduce(f)] without an initial value, on a non-empty array. *)
Definition reduce1 {A : Type} (f : A -> A -> A) (first : A) (rest : list A) : A :=
  fold_left f rest first.

End JS.

(* ================================================================== *)
(** ** Binary64 arithmetic *)
(* ================================================================== *)

Module F64.

(** The exact result of an operation is rounded to the nearest number
    [m * 2^e] with a significand [m] of 53 bits, the one with an even
    significand on a tie.  The exponent [e] is not bounded: a result is the
    machine's when its magnitude lies between 2^-1022 and 2^1024; overflow
    to an infinity and gradual underflow are not modelled. *)

(** The unit roundoff, 2^-53. *)
Definition u : Q := 1 # 9007199254740992.

(** [floor (log2 q)] for a positive rational. *)
Definition ilog2 (q : Q) : Z :=
  let k := Z.log2 (Qnum q) - Z.log2 (Zpos (Qden q)) in
  if Qle_bool (2 ^ k) q then k else k - 1.

(** The nearest integer, the even one on a tie. *)
Definition nearestEven (q : Q) : Z :=
  let f := Qfloor q in
  match (q - inject_Z f ?= 1 # 2)%Q with
  | Lt => f
  | Gt => f + 1
  | Eq => if Z.even f then f else f + 1
  end.

(** The nearest number [m * 2^e] with [2^52 <= m < 2^53] to a positive
    rational, the one with an even [m] on a tie. *)
Definition roundMagnitude (a : Q) : Q :=
  let e := ilog2 a - 52 in
  Qred (inject_Z (nearestEven (a / 2 ^ e)) * 2 ^ e).

(** Rounding of an exact result: sign and rounded magnitude. *)
Definition round (q : Q) : Q :=
  let q := Qred q in
  if Qeq_bool q 0 then 0%Q
  else if JS.Qltb q 0 then (- roundMagnitude (Qabs q))%Q
  else roundMagnitude (Qabs q).

(** A decimal literal of the source text. *)
Definition lit (q : Q) : Q := round q.

Definition add (a b : Q) : Q := round (a + b).

Definition sub (a b : Q) : Q := round (a - b).

Definition mul (a b : Q) : Q := round (a * b).

(** [a / b] where the divisor is known not to be zero. *)
Definition quotient (a b : Q) : Q := round (a / b).

(** [a / b]: a division by zero gives NaN or an infinity. *)
Definition div (a b : Q) : JS.number :=
  if Qeq_bool b 0 then
    if Qeq_bool a 0 then JS.NaN
    else if JS.Qltb 0 a then JS.PosInf else JS.NegInf
  else JS.Fin (quotient a b).

(** [x * c] for a result [x] that may be non-finite. *)
Definition mulN (x : JS.number) (c : Q) : JS.number :=
  match x with
  | JS.Fin q => JS.Fin (mul q c)
  | JS.NaN => JS.NaN
  | JS.PosInf =>
      if Qeq_bool c 0 then JS.NaN else if JS.Qltb 0 c then JS.PosInf else JS.NegInf
  | JS.NegInf =>
      if Qeq_bool c 0 then JS.NaN else if JS.Qltb 0 c then JS.NegInf else JS.PosInf
  end.

End F64.

(* ================================================================== *)
(** ** Shared types ([packages/types]) *)
(* ================================================================== *)

Inductive ShopType : Type := LOCAL | GLOBAL.

Inductive Currency : Type := ILS | USD | EUR | GBP.

Inductive Country : Type := IL | US | UK | DE | FR.

Inductive AvailabilityStatus : Type :=
  | IN_STOCK | OUT_OF_STOCK | LOW_STOCK | PRE_ORDER | UNKNOWN.

Inductive SortBy : Type :=
  | RELEVANCE | PRICE_ASC | PRICE_DESC | RATING | NEWEST.

Definition ShopType_eqb (a b : ShopType) : bool :=
  match a, b with
  | LOCAL, LOCAL | GLOBAL, GLOBAL => true
  | _, _ => false
  end.

Definition Currency_eqb (a b : Currency) : bool :=
  match a, b with
  | ILS, ILS | USD, USD | EUR, EUR | GBP, GBP => true
  | _, _ => false
  end.

Definition AvailabilityStatus_eqb (a b : AvailabilityStatus) : bool :=
  match a, b with
  | IN_STOCK, IN_STOCK | OUT_OF_STOCK, OUT_OF_STOCK | LOW_STOCK, LOW_STOCK
  | PRE_ORDER, PRE_ORDER | UNKNOWN, UNKNOWN => true
  | _, _ => false
  end.

(** The string value of each enum member. *)
Definition ShopType_value (t : ShopType) : string :=
  match t with LOCAL => "local" | GLOBAL => "global" end.

Definition Country_value (c : Country) : string :=
  match c with IL => "IL" | US => "US" | UK => "UK" | DE => "DE" | FR => "FR" end.

Definition SortBy_value (s : SortBy) : string :=
  match s with
  | RELEVANCE => "relevance"
  | PRICE_ASC => "price_asc"
  | PRICE_DESC => "price_desc"
  | RATING => "rating"
  | NEWEST => "newest"
  end.

Record ShopInfo : Type := {
  shop_name : string;
  shop_type : ShopType;
  shop_country : string;
  ships_to : list string;
  is_marketplace : bool;
  global_reach : bool
}.

Record BasePrice : Type := {
  amount : Q;
  currency : Currency;
  includes_tax : bool
}.

Record EstimatedDays : Type := {
  standard : Q;
  express : option Q
}.

Record ShippingCost : Type := {
  available : bool;
  cost : Q;
  express_cost : option Q;
  free_threshold : option Q;
  estimated_days : EstimatedDays
}.

Record ImportFees : Type := {
  import_duty : Q;
  vat : Q;
  handling : Q;
  customs_clearance : Q
}.

Record PurchaseRisks : Type := {
  customs_delay : bool;
  warranty_void : bool;
  return_difficult : bool
}.

Record InternationalPricing : Type := {
  shipping : ShippingCost;
  fees : ImportFees;
  total_landed_cost : Q;
  risks : PurchaseRisks
}.

Record Pricing : Type := {
  base : BasePrice;
  local_total : option Q;
  international : option InternationalPricing
}.

(** Of [Recommendation] only the score is read by the modelled code. *)
Record Recommendation : Type := {
  score : Q
}.

(** A listing.  The image, URL, SKU and timestamp fields of the interface
    are not read by any modelled function and are left out. *)
Record Product : Type := {
  _id : string;
  product_group_id : string;
  shop_info : ShopInfo;
  name : string;
  description : option string;
  brand : option string;
  category : option string;
  rating : option Q;
  review_count : option Z;
  availability : AvailabilityStatus;
  pricing : Pricing;
  recommendation : option Recommendation
}.

Record SearchFilters : Type := {
  min_price : option Q;
  max_price : option Q;
  in_stock : option bool;
  shops : option (list string);
  categories : option (list string);
  brands : option (list string);
  min_rating : option Q;
  filter_availability : option (list AvailabilityStatus);
  filter_country : option Country
}.

(** The literal [{}]. *)
Definition emptyFilters : SearchFilters :=
  {| min_price := None; max_price := None; in_stock := None;
     shops := None; categories := None; brands := None;
     min_rating := None; filter_availability := None;
     filter_country := None |}.

Record LocalSearchRequest : Type := {
  l_query : string;
  l_filters : option SearchFilters;
  l_sort_by : option SortBy;
  l_page : option Z;
  l_per_page : option Z;
  l_country : Country;
  l_check_international : option bool
}.

Record GlobalSearchRequest : Type := {
  g_query : string;
  g_filters : option SearchFilters;
  g_sort_by : option SortBy;
  g_page : option Z;
  g_per_page : option Z;
  g_user_country : Country;
  g_include_shipping : bool;
  g_include_all_fees : bool;
  g_min_seller_rating : option Q
}.

(** [LocalSearchRequest | GlobalSearchRequest]. *)
Inductive AnySearchRequest : Type :=
  | OfLocal (r : LocalSearchRequest)
  | OfGlobal (r : GlobalSearchRequest).

Record PaginationMeta : Type := {
  current_page : Z;
  total_pages : JS.number;
  per_page : Z;
  total_results : Z;
  has_next : bool;
  has_prev : bool
}.

Record SmartDealSummary : Type := {
  best_local : Q;
  best_international : Q;
  savings : Q;
  savings_percent : JS.number;
  delivery_difference : Q;
  deal_shop : string;
  deal_country : string
}.

Record SmartDeal : Type := {
  deal_available : bool;
  deal_message : option string;
  deal_summary : option SmartDealSummary;
  deal_product : option Product
}.

Record LocalSearchResponse : Type := {
  lr_results : list Product;
  lr_pagination : PaginationMeta;
  lr_smart_deal : option SmartDeal;
  lr_query : string;
  lr_filters : SearchFilters;
  lr_took_ms : Z
}.

Record GlobalSearchResponse : Type := {
  gr_results : list Product;
  gr_pagination : PaginationMeta;
  gr_query : string;
  gr_filters : SearchFilters;
  gr_took_ms : Z
}.

(* ================================================================== *)
(** ** Currency utilities ([packages/utils/src/currency.ts]) *)
(* ================================================================== *)

(** Exchange rates, base currency USD, as the decimals of the source
    text. *)
Definition EXCHANGE_RATES (c : Currency) : Q :=
  match c with
  | USD => 1%Q
  | ILS => (373 # 100)%Q
  | EUR => (92 # 100)%Q
  | GBP => (79 # 100)%Q
  end.

(** Every rate of the table is non-zero, so the division below is a
    division of finite numbers with a finite result. *)
Definition convertCurrency (amount : Q) (fromCurrency toCurrency : Currency) : Q :=
  if Currency_eqb fromCurrency toCurrency then amount
  else
    let amountInUSD := (amount / EXCHANGE_RATES fromCurrency)%Q in
    let convertedAmount := (amountInUSD * EXCHANGE_RATES toCurrency)%Q in
    (inject_Z (JS.Math_round (convertedAmount * 100)) / 100)%Q.

(** The quotient of two table entries, each the number the engine holds
    for the decimal of the source text. *)
Definition getExchangeRate (fromCurrency toCurrency : Currency) : Q :=
  if Currency_eqb fromCurrency toCurrency then 1%Q
  else F64.quotient (F64.lit (EXCHANGE_RATES toCurrency))
                    (F64.lit (EXCHANGE_RATES fromCurrency)).

(* ================================================================== *)
(** ** Cache service ([services/cache.service.ts]) *)
(* ================================================================== *)

Module CacheService.

Definition SEARCH_LOCAL : string := "search:local:".
Definition SEARCH_GLOBAL : string := "search:global:".

(** The [type] argument of [buildSearchCacheKey]. *)
Inductive CacheType : Type := local | global.

(** The loop of [simpleHash]: [hash = (hash * 33) ^ str.charCodeAt(i)].
    The product is exact and [^] wraps its left operand to 32 bits. *)
Fixpoint hashLoop (str : string) (hash : Z) : Z :=
  match str with
  | EmptyString => hash
  | String c rest =>
      hashLoop rest (Z.lxor (JS.toInt32 (hash * 33)) (JS.charCode c))
  end.

Definition simpleHash (str : string) : string :=
  JS.toString16 (JS.toUint32 (hashLoop str 5381)).

(** [arr?.length] is truthy. *)
Definition hasLength {A : Type} (arr : option (list A)) : bool :=
  match arr with
  | Some (_ :: _) => true
  | _ => false
  end.

Definition arrayOf {A : Type} (arr : option (list A)) : list A :=
  match arr with
  | Some l => l
  | None => []
  end.

(** [Array.prototype.sort] sorts in place: after the key is built the
    multi-value filters of the request object are sorted. *)
Definition sortedInPlace (arr : option (list string)) : option (list string) :=
  if hasLength arr then Some (JS.sort (arrayOf arr)) else arr.

Definition filtersAfterKey (f : SearchFilters) : SearchFilters :=
  {| min_price := min_price f;
     max_price := max_price f;
     in_stock := in_stock f;
     shops := sortedInPlace (shops f);
     categories := sortedInPlace (categories f);
     brands := sortedInPlace (brands f);
     min_rating := min_rating f;
     filter_availability := filter_availability f;
     filter_country := filter_country f |}.

Section KeyBuilder.
Variable numberToString : Q -> string.

Definition optionalPart {A : Type} (x : option A) (render : A -> string) : list string :=
  match x with
  | Some v => [render v]
  | None => []
  end.

Definition listPart (label : string) (arr : option (list string)) : list string :=
  if hasLength arr then [label ++ JS.join "," (JS.sort (arrayOf arr))] else [].

Definition filterParts (filters : option SearchFilters) : list string :=
  match filters with
  | None => []
  | Some f =>
      optionalPart (min_price f) (fun v => "min_price:" ++ numberToString v)
      ++ optionalPart (max_price f) (fun v => "max_price:" ++ numberToString v)
      ++ optionalPart (in_stock f) (fun v => "in_stock:" ++ JS.bool_toString v)
      ++ listPart "shops:" (shops f)
      ++ listPart "categories:" (categories f)
      ++ listPart "brands:" (brands f)
      ++ optionalPart (min_rating f) (fun v => "min_rating:" ++ numberToString v)
  end.

Definition req_query (request : AnySearchRequest) : string :=
  match request with OfLocal r => l_query r | OfGlobal r => g_query r end.

Definition req_page (request : AnySearchRequest) : option Z :=
  match request with OfLocal r => l_page r | OfGlobal r => g_page r end.

Definition req_per_page (request : AnySearchRequest) : option Z :=
  match request with OfLocal r => l_per_page r | OfGlobal r => g_per_page r end.

Definition req_sort_by (request : AnySearchRequest) : option SortBy :=
  match request with OfLocal r => l_sort_by r | OfGlobal r => g_sort_by r end.

Definition req_filters (request : AnySearchRequest) : option SearchFilters :=
  match request with OfLocal r => l_filters r | OfGlobal r => g_filters r end.

(** ["country" in request] holds of a local request, ["user_country" in
    request] of a global one. *)
Definition countryPart (request : AnySearchRequest) : list string :=
  match request with
  | OfLocal r => ["country:" ++ Country_value (l_country r)]
  | OfGlobal r => ["country:" ++ Country_value (g_user_country r)]
  end.

Definition keyParts (request : AnySearchRequest) : list string :=
  [ JS.trim (JS.toLowerCase (req_query request));
    "page:" ++ numberToString (inject_Z (JS.or_elseZ (req_page request) 1));
    "per_page:" ++ numberToString (inject_Z (JS.or_elseZ (req_per_page request) 20));
    "sort:" ++ SortBy_value (match req_sort_by request with
                             | Some s => s
                             | None => RELEVANCE
                             end) ]
  ++ countryPart request
  ++ filterParts (req_filters request).

Definition buildSearchCacheKey (type : CacheType) (request : AnySearchRequest) : string :=
  let prefix := match type with
                | local => SEARCH_LOCAL
                | global => SEARCH_GLOBAL
                end in
  let keyString := JS.join "|" (keyParts request) in
  let hash := simpleHash keyString in
  prefix ++ hash.

End KeyBuilder.

End CacheService.

(* ================================================================== *)
(** ** Mock data service ([services/mock-data.service.ts]) *)
(* ================================================================== *)

Module MockDataService.

(** [x?.toLowerCase().includes(q)], used as a condition. *)
Definition optIncludes (x : option string) (queryLower : string) : bool :=
  match x with
  | Some s => JS.includes (JS.toLowerCase s) queryLower
  | None => false
  end.

Definition matchesQuery (queryLower : string) (p : Product) : bool :=
  JS.includes (JS.toLowerCase (name p)) queryLower
  || optIncludes (brand p) queryLower
  || optIncludes (category p) queryLower
  || optIncludes (description p) queryLower.

(** [bound && test(bound)] for an optional numeric bound. *)
Definition boundAnd (bound : option Q) (test : Q -> bool) : bool :=
  match bound with
  | Some q => JS.truthy q && test q
  | None => false
  end.

(** [arr?.length && !arr.includes(x)]. *)
Definition listExcludes (arr : option (list string)) (x : string) : bool :=
  CacheService.hasLength arr
  && negb (JS.arrayIncludes (CacheService.arrayOf arr) x).

Definition orEmpty (x : option string) : string :=
  match x with
  | Some s => s
  | None => ""
  end.

(** The block [if (filters) { ... }] shared by both searches: [false] as
    soon as one of its tests rejects the listing. *)
Definition passesFilters (filters : option SearchFilters) (p : Product) : bool :=
  match filters with
  | None => true
  | Some f =>
      if boundAnd (min_price f) (fun m => JS.Qltb (amount (base (pricing p))) m) then false
      else if boundAnd (max_price f) (fun m => JS.Qltb m (amount (base (pricing p)))) then false
      else if match in_stock f with
              | Some true => negb (AvailabilityStatus_eqb (availability p) IN_STOCK)
              | _ => false
              end then false
      else if listExcludes (brands f) (orEmpty (brand p)) then false
      else if listExcludes (shops f) (shop_name (shop_info p)) then false
      else if boundAnd (min_rating f) (fun m => JS.Qltb (JS.or_else (rating p) 0) m) then false
      else true
  end.

(** [p.pricing.international?.total_landed_cost || p.pricing.base.amount]. *)
Definition landedOrBase (p : Product) : Q :=
  JS.or_else (option_map total_landed_cost (international (pricing p)))
             (amount (base (pricing p))).

Definition scoreOrZero (p : Product) : Q :=
  JS.or_else (option_map score (recommendation p)) 0.

Definition paginate (page perPage totalResults : Z) : PaginationMeta :=
  let totalPages :=
    JS.Math_ceil (JS.div (inject_Z totalResults) (inject_Z perPage)) in
  {| current_page := page;
     total_pages := totalPages;
     per_page := perPage;
     total_results := totalResults;
     has_next := JS.gtb totalPages (inject_Z page);
     has_prev := 1 <? page |}.

Section Service.
Variable numberToString : Q -> string.

(** [this.products]: the listings in insertion order
    ([getAllProducts] is [Array.from(this.products.values())]). *)
Variable products : list Product.

Definition getAllProducts : list Product := products.

Definition globalAlternativesOf (bestLocal : Product) : list Product :=
  filter (fun p =>
            ShopType_eqb (shop_type (shop_info p)) GLOBAL
            && String.eqb (product_group_id p) (product_group_id bestLocal)
            && AvailabilityStatus_eqb (availability p) IN_STOCK)
         getAllProducts.

(** The callback of [reduce]. *)
Definition cheaper (best current : Product) : Product :=
  let currentCost := landedOrBase current in
  let bestCost := landedOrBase best in
  if JS.Qltb currentCost bestCost then current else best.

Definition localPriceOf (bestLocal : Product) : Q :=
  JS.or_else (local_total (pricing bestLocal)) (amount (base (pricing bestLocal))).

Definition findSmartDeal (query : string) (bestLocal : option Product) : option SmartDeal :=
  match bestLocal with
  | None => None
  | Some bestLocal =>
      match globalAlternativesOf bestLocal with
      | [] => None
      | first :: rest =>
          let cheapestGlobal := JS.reduce1 cheaper first rest in
          let localPrice := localPriceOf bestLocal in
          let globalPrice := landedOrBase cheapestGlobal in
          let savings := F64.sub localPrice globalPrice in
          let savingsPercent := F64.mulN (F64.div savings localPrice) 100 in
          if JS.ltb savingsPercent 10 then None
          else
            Some {|
              deal_available := true;
              deal_message :=
                Some ("Save " ++ JS.toFixed0 numberToString savingsPercent
                      ++ "% by ordering from "
                      ++ shop_name (shop_info cheapestGlobal));
              deal_summary :=
                Some {|
                  best_local := localPrice;
                  best_international := globalPrice;
                  savings := savings;
                  savings_percent := savingsPercent;
                  delivery_difference :=
                    F64.sub
                      (JS.or_else
                         (option_map (fun i => standard (estimated_days (shipping i)))
                                     (international (pricing cheapestGlobal)))
                         14) 3;
                  deal_shop := shop_name (shop_info cheapestGlobal);
                  deal_country := shop_country (shop_info cheapestGlobal)
                |};
              deal_product := Some cheapestGlobal
            |}
      end
  end.

(** [took] stands for the reading [Date.now() - startTime]. *)
Definition searchLocal (query country : string) (filters : option SearchFilters)
    (page perPage : Z) (took : Z) : LocalSearchResponse :=
  let queryLower := JS.toLowerCase query in
  let results :=
    filter (fun p =>
              if negb (ShopType_eqb (shop_type (shop_info p)) LOCAL) then false
              else if negb (String.eqb (shop_country (shop_info p)) country) then false
              else if negb (matchesQuery queryLower p) then false
              else passesFilters filters p)
           getAllProducts in
  let results := JS.sortBy (fun a b => (scoreOrZero b - scoreOrZero a)%Q) results in
  let totalResults := Z.of_nat (List.length results) in
  let startIndex := (page - 1) * perPage in
  let results := JS.slice results startIndex (startIndex + perPage) in
  let smartDeal := findSmartDeal query (hd_error results) in
  {| lr_results := results;
     lr_pagination := paginate page perPage totalResults;
     lr_smart_deal := smartDeal;
     lr_query := query;
     lr_filters := match filters with Some f => f | None => emptyFilters end;
     lr_took_ms := took |}.

Definition searchGlobal (query userCountry : string) (filters : option SearchFilters)
    (page perPage : Z) (took : Z) : GlobalSearchResponse :=
  let queryLower := JS.toLowerCase query in
  let results :=
    filter (fun p =>
              if negb (ShopType_eqb (shop_type (shop_info p)) GLOBAL) then false
              else if negb (JS.arrayIncludes (ships_to (shop_info p)) userCountry) then false
              else if negb (matchesQuery queryLower p) then false
              else passesFilters filters p)
           getAllProducts in
  let results := JS.sortBy (fun a b => (landedOrBase a - landedOrBase b)%Q) results in
  let totalResults := Z.of_nat (List.length results) in
  let startIndex := (page - 1) * perPage in
  let results := JS.slice results startIndex (startIndex + perPage) in
  {| gr_results := results;
     gr_pagination := paginate page perPage totalResults;
     gr_query := query;
     gr_filters := match filters with Some f => f | None => emptyFilters end;
     gr_took_ms := took |}.

End Service.

End MockDataService.

(* ================================================================== *)
(** ** Search service ([services/search.service.ts]) *)
(* ================================================================== *)

Module SearchService.

Record SearchResult : Type := {
  products : list Product;
  pagination : PaginationMeta;
  smartDeal : option SmartDeal
}.

(** What [productIndex.search] resolves to. *)
Record IndexResponse : Type := {
  hits : list Product;
  estimatedTotalHits : option Z
}.

(** The search-index client: query, filter, sort, limit, offset.  [None]
    stands for a rejected promise (time-out, connection error, ...). *)
Definition IndexSearch : Type :=
  string -> list string -> list string -> Z -> Z -> option IndexResponse.

(** The fields of the service object set by its constructor. *)
Record Service : Type := {
  useMockData : bool;
  mockDataService : option (list Product);
  productIndex : IndexSearch
}.

(** The double-quote character of the filter expressions. *)
Definition dq : string := String (ascii_of_nat 34) EmptyString.

Definition quoted (s : string) : string := dq ++ s ++ dq.

Definition buildPagination (page perPage totalResults : Z) : PaginationMeta :=
  let totalPages :=
    JS.Math_ceil (JS.div (inject_Z totalResults) (inject_Z perPage)) in
  {| current_page := page;
     total_pages := totalPages;
     per_page := perPage;
     total_results := totalResults;
     has_next := JS.gtb totalPages (inject_Z page);
     has_prev := 1 <? page |}.

Definition buildSortOrder (sortBy : SortBy) : list string :=
  match sortBy with
  | PRICE_ASC => ["pricing.base.amount:asc"]
  | PRICE_DESC => ["pricing.base.amount:desc"]
  | RATING => ["rating:desc"]
  | NEWEST => ["created_at:desc"]
  | RELEVANCE => []
  end.

(** [if (arr && arr.length > 0) filterArray.push(`(${...join(" OR ")})`)]. *)
Definition anyOf (field : string) (arr : option (list string)) : list string :=
  match arr with
  | Some ((_ :: _) as l) =>
      ["(" ++ JS.join " OR " (map (fun s => field ++ " = " ++ quoted s) l) ++ ")"]
  | _ => []
  end.

Definition stockClause (f : SearchFilters) : list string :=
  match in_stock f with
  | Some true => ["availability = " ++ quoted "in_stock"]
  | _ => []
  end.

(** The estimate of a landed cost that does not read the destination. *)
Definition estimateInternational (basePrice : Q) (includeAllFees : bool) : InternationalPricing :=
  let estimatedShipping := F64.mul basePrice (F64.lit (1 # 10)) in
  let estimatedDuties :=
    if includeAllFees then F64.mul basePrice (F64.lit (17 # 100)) else 0%Q in
  {| shipping := {| available := true;
                    cost := estimatedShipping;
                    express_cost := None;
                    free_threshold := None;
                    estimated_days := {| standard := 14; express := None |} |};
     fees := {| import_duty := F64.mul estimatedDuties (F64.lit (3 # 10));
                vat := F64.mul estimatedDuties (F64.lit (7 # 10));
                handling := 0;
                customs_clearance := 0 |};
     total_landed_cost :=
       F64.add (F64.add basePrice estimatedShipping) estimatedDuties;
     risks := {| customs_delay := true;
                 warranty_void := true;
                 return_difficult := true |} |}.

(** [if (product.pricing.international?.total_landed_cost)]. *)
Definition hasLandedCost (product : Product) : bool :=
  match international (pricing product) with
  | Some i => JS.truthy (total_landed_cost i)
  | None => false
  end.

Definition calculateTotalCost (product : Product) (userCountry : Country)
    (includeAllFees : bool) : Product :=
  if hasLandedCost product then product
  else
    let basePrice := amount (base (pricing product)) in
    {| _id := _id product;
       product_group_id := product_group_id product;
       shop_info := shop_info product;
       name := name product;
       description := description product;
       brand := brand product;
       category := category product;
       rating := rating product;
       review_count := review_count product;
       availability := availability product;
       pricing := {| base := base (pricing product);
                     local_total := local_total (pricing product);
                     international :=
                       Some (estimateInternational basePrice includeAllFees) |};
       recommendation := recommendation product |}.

Definition sortByTotalCost (products : list Product) (descending : bool) : list Product :=
  JS.sortBy (fun a b =>
               let costA := MockDataService.landedOrBase a in
               let costB := MockDataService.landedOrBase b in
               if descending then (costB - costA)%Q else (costA - costB)%Q)
            products.

(** The body is a stub: whatever the arguments, no deal. *)
Definition checkSmartDeals (_query : string) (_localProduct : Product)
    (_userCountry : Country) : option SmartDeal :=
  Some {| deal_available := false;
          deal_message := None;
          deal_summary := None;
          deal_product := None |}.

Definition fallbackSearchLocal (request : LocalSearchRequest) : SearchResult :=
  {| products := [];
     pagination := buildPagination (JS.or_elseZ (l_page request) 1)
                                   (JS.or_elseZ (l_per_page request) 20) 0;
     smartDeal := None |}.

Definition fallbackSearchGlobal (request : GlobalSearchRequest) : SearchResult :=
  {| products := [];
     pagination := buildPagination (JS.or_elseZ (g_page request) 1)
                                   (JS.or_elseZ (g_per_page request) 20) 0;
     smartDeal := None |}.

(** A destructuring default applies to [undefined] only. *)
Definition orDefault {A : Type} (x : option A) (d : A) : A :=
  match x with
  | Some v => v
  | None => d
  end.

Section Runtime.
Variable numberToString : Q -> string.

Definition priceClauses (f : SearchFilters) : list string :=
  match min_price f with
  | Some m => ["pricing.base.amount >= " ++ numberToString m]
  | None => []
  end
  ++ match max_price f with
     | Some m => ["pricing.base.amount <= " ++ numberToString m]
     | None => []
     end.

Definition ratingClause (r : option Q) : list string :=
  match r with
  | Some m => ["rating >= " ++ numberToString m]
  | None => []
  end.

Definition buildLocalFilters (filters : SearchFilters) (country : Country) : list string :=
  ["shop_info.type = " ++ quoted (ShopType_value LOCAL)]
  ++ ["shop_info.country = " ++ quoted (Country_value country)]
  ++ priceClauses filters
  ++ stockClause filters
  ++ anyOf "shop_info.name" (shops filters)
  ++ anyOf "category" (categories filters)
  ++ anyOf "brand" (brands filters)
  ++ ratingClause (min_rating filters).

Definition buildGlobalFilters (filters : SearchFilters)
    (minSellerRating : option Q) : list string :=
  ["shop_info.type = " ++ quoted (ShopType_value GLOBAL)]
  ++ priceClauses filters
  ++ stockClause filters
  ++ anyOf "shop_info.name" (shops filters)
  ++ ratingClause (min_rating filters)
  ++ ratingClause minSellerRating.

(** The call [this.productIndex.search(query, {...})] of [searchLocal]. *)
Definition queryIndexLocal (this : Service) (request : LocalSearchRequest)
    : option IndexResponse :=
  let filters := orDefault (l_filters request) emptyFilters in
  let sort_by := orDefault (l_sort_by request) RELEVANCE in
  let page := orDefault (l_page request) 1 in
  let per_page := orDefault (l_per_page request) 20 in
  productIndex this (l_query request)
    (buildLocalFilters filters (l_country request))
    (buildSortOrder sort_by) per_page ((page - 1) * per_page).

(** The call [this.productIndex.search(query, {...})] of [searchGlobal]. *)
Definition queryIndexGlobal (this : Service) (request : GlobalSearchRequest)
    : option IndexResponse :=
  let filters := orDefault (g_filters request) emptyFilters in
  let sort_by := orDefault (g_sort_by request) PRICE_ASC in
  let page := orDefault (g_page request) 1 in
  let per_page := orDefault (g_per_page request) 20 in
  productIndex this (g_query request)
    (buildGlobalFilters filters (g_min_seller_rating request))
    (buildSortOrder sort_by) per_page ((page - 1) * per_page).

(** [took] is the clock reading handed to the mock provider. *)
Definition searchLocal (this : Service) (request : LocalSearchRequest) (took : Z)
    : SearchResult :=
  let query := l_query request in
  let filters := orDefault (l_filters request) emptyFilters in
  let sort_by := orDefault (l_sort_by request) RELEVANCE in
  let page := orDefault (l_page request) 1 in
  let per_page := orDefault (l_per_page request) 20 in
  let country := l_country request in
  let check_international := orDefault (l_check_international request) false in
  match useMockData this, mockDataService this with
  | true, Some mock =>
      let mockResult :=
        MockDataService.searchLocal numberToString mock query
          (Country_value country) (Some filters) page per_page took in
      {| products := lr_results mockResult;
         pagination := lr_pagination mockResult;
         smartDeal := lr_smart_deal mockResult |}
  | _, _ =>
      match queryIndexLocal this request with
      | Some searchResult =>
          let products := hits searchResult in
          let pagination :=
            buildPagination page per_page
              (JS.or_elseZ (estimatedTotalHits searchResult) 0) in
          let smartDeal :=
            match check_international, hd_error products with
            | true, Some firstProduct => checkSmartDeals query firstProduct country
            | _, _ => None
            end in
          {| products := products; pagination := pagination; smartDeal := smartDeal |}
      | None => fallbackSearchLocal request
      end
  end.

Definition searchGlobal (this : Service) (request : GlobalSearchRequest) (took : Z)
    : SearchResult :=
  let query := g_query request in
  let filters := orDefault (g_filters request) emptyFilters in
  let sort_by := orDefault (g_sort_by request) PRICE_ASC in
  let page := orDefault (g_page request) 1 in
  let per_page := orDefault (g_per_page request) 20 in
  let user_country := g_user_country request in
  let include_shipping := g_include_shipping request in
  let include_all_fees := g_include_all_fees request in
  match useMockData this, mockDataService this with
  | true, Some mock =>
      let mockResult :=
        MockDataService.searchGlobal mock query (Country_value user_country)
          (Some filters) page per_page took in
      {| products := gr_results mockResult;
         pagination := gr_pagination mockResult;
         smartDeal := None |}
  | _, _ =>
      match queryIndexGlobal this request with
      | Some searchResult =>
          let products := hits searchResult in
          let products :=
            if include_shipping || include_all_fees
            then map (fun product =>
                        calculateTotalCost product user_country include_all_fees)
                     products
            else products in
          let products :=
            match sort_by with
            | PRICE_ASC => sortByTotalCost products false
            | PRICE_DESC => sortByTotalCost products true
            | _ => products
            end in
          {| products := products;
             pagination := buildPagination page per_page
                             (JS.or_elseZ (estimatedTotalHits searchResult) 0);
             smartDeal := None |}
      | None => fallbackSearchGlobal request
      end
  end.

End Runtime.

End SearchService.

(* ================================================================== *)
(** ** The handler of POST /api/v1/search/local *)
(* ================================================================== *)

Module LocalRoute.

(** The output of [localSearchSchema.parse]: defaults are filled in. *)
Record LocalSearchBody : Type := {
  query : string;
  filters : option SearchFilters;
  sort_by : SortBy;
  page : Z;
  per_page : Z;
  country : Country;
  check_international : bool
}.

Definition optPositive (x : option Q) : bool :=
  match x with
  | Some q => JS.Qltb 0 q
  | None => true
  end.

Definition filtersSchema (f : SearchFilters) : bool :=
  optPositive (min_price f)
  && optPositive (max_price f)
  && match min_rating f with
     | Some r => Qle_bool 0 r && Qle_bool r 5
     | None => true
     end.

(** [localSearchSchema.parse(request.body)]; [None] is a [ZodError]. *)
Definition localSearchSchema_parse (body : LocalSearchRequest) : option LocalSearchBody :=
  let len := Z.of_nat (String.length (l_query body)) in
  let page := SearchService.orDefault (l_page body) 1 in
  let per_page := SearchService.orDefault (l_per_page body) 20 in
  if (1 <=? len) && (len <=? 200)
     && match l_filters body with Some f => filtersSchema f | None => true end
     && (0 <? page)
     && (0 <? per_page) && (per_page <=? 100)
  then Some {| query := l_query body;
               filters := l_filters body;
               sort_by := SearchService.orDefault (l_sort_by body) RELEVANCE;
               page := page;
               per_page := per_page;
               country := l_country body;
               check_international :=
                 SearchService.orDefault (l_check_international body) false |}
  else None.

(** Calls made on the cache service, in order. *)
Inductive CacheCall : Type :=
  | CacheGet (key : string)
  | CacheSet (key : string) (value : LocalSearchResponse) (ttlSeconds : Z).

(** [Status500] is the answer to a request whose handler throws anything
    but a [ZodError]. *)
Inductive Reply : Type :=
  | Send (response : LocalSearchResponse)
  | Status400
  | Status500.

Definition isNaN (x : JS.number) : bool :=
  match x with
  | JS.NaN => true
  | _ => false
  end.

(** [reply.send(response)] writes the response through the serializer of
    the route's 200 schema.  The schema types [pagination.total_pages] and
    [smart_deal.summary.savings_percent] as numbers, and the serializer
    throws on a NaN in such a place (an infinity is written as [null]); the
    listings, declared [additionalProperties: true], and the filters are
    written as they are.  The other numbers of a response are finite. *)
Definition serializable (response : LocalSearchResponse) : bool :=
  negb (isNaN (total_pages (lr_pagination response)))
  && match lr_smart_deal response with
     | Some deal =>
         match deal_summary deal with
         | Some summary => negb (isNaN (savings_percent summary))
         | None => true
         end
     | None => true
     end.

(** What the handler reads from its surroundings: the content of the cache
    ([cacheService.get] yields [null] on a miss and on any error), the
    configured TTL and the clock. *)
Record Env : Type := {
  cacheGet : string -> option LocalSearchResponse;
  cacheTTL_search : Z;
  elapsed : Z
}.

Definition isCacheSet (c : CacheCall) : bool :=
  match c with
  | CacheSet _ _ _ => true
  | CacheGet _ => false
  end.

Section Handler.
Variable numberToString : Q -> string.
Variable searchService : SearchService.Service.
Variable env : Env.

Definition searchRequestOf (validatedBody : LocalSearchBody) : LocalSearchRequest :=
  {| l_query := query validatedBody;
     l_filters := filters validatedBody;
     l_sort_by := Some (sort_by validatedBody);
     l_page := Some (page validatedBody);
     l_per_page := Some (per_page validatedBody);
     l_country := country validatedBody;
     l_check_international := Some (check_international validatedBody) |}.

(** The request object once [buildSearchCacheKey] has sorted its arrays;
    [validatedBody.filters] is the same object. *)
Definition afterKey (searchRequest : LocalSearchRequest) : LocalSearchRequest :=
  {| l_query := l_query searchRequest;
     l_filters := option_map CacheService.filtersAfterKey (l_filters searchRequest);
     l_sort_by := l_sort_by searchRequest;
     l_page := l_page searchRequest;
     l_per_page := l_per_page searchRequest;
     l_country := l_country searchRequest;
     l_check_international := l_check_international searchRequest |}.

Definition cacheKeyOf (validatedBody : LocalSearchBody) : string :=
  CacheService.buildSearchCacheKey numberToString CacheService.local
    (OfLocal (searchRequestOf validatedBody)).

Definition responseOf (validatedBody : LocalSearchBody)
    (searchResult : SearchService.SearchResult) : LocalSearchResponse :=
  {| lr_results := SearchService.products searchResult;
     lr_pagination := SearchService.pagination searchResult;
     lr_smart_deal := SearchService.smartDeal searchResult;
     lr_query := query validatedBody;
     lr_filters :=
       SearchService.orDefault
         (option_map CacheService.filtersAfterKey (filters validatedBody))
         emptyFilters;
     lr_took_ms := elapsed env |}.

Definition handler (body : LocalSearchRequest) : Reply * list CacheCall :=
  match localSearchSchema_parse body with
  | None => (Status400, [])
  | Some validatedBody =>
      let searchRequest := searchRequestOf validatedBody in
      let cacheKey := cacheKeyOf validatedBody in
      let searchRequest := afterKey searchRequest in
      match cacheGet env cacheKey with
      | Some cachedResult =>
          (* a cached value was parsed from JSON text and holds no NaN *)
          (Send {| lr_results := lr_results cachedResult;
                   lr_pagination := lr_pagination cachedResult;
                   lr_smart_deal := lr_smart_deal cachedResult;
                   lr_query := lr_query cachedResult;
                   lr_filters := lr_filters cachedResult;
                   lr_took_ms := elapsed env |},
           [CacheGet cacheKey])
      | None =>
          let searchResult :=
            SearchService.searchLocal numberToString searchService searchRequest
              (elapsed env) in
          let response := responseOf validatedBody searchResult in
          (if serializable response then Send response else Status500,
           [CacheGet cacheKey; CacheSet cacheKey response (cacheTTL_search env)])
      end
  end.

End Handler.

End LocalRoute.

(* ================================================================== *)
(** ** Further [Math] operations *)
(* ================================================================== *)

Module JSMath.

(** [Math.max(a, b)] and [Math.min(a, b)] on finite numbers. *)
Definition max (a b : Q) : Q := if Qle_bool a b then b else a.

Definition min (a b : Q) : Q := if Qle_bool a b then a else b.

(** [Math.min(...arr)]: [Infinity] when there is no argument. *)
Definition minOf (arr : list Q) : JS.number :=
  match arr with
  | [] => JS.PosInf
  | x :: rest => JS.Fin (fold_left min rest x)
  end.

(** [Math.round(x)] as a number. *)
Definition round (x : Q) : Q := inject_Z (JS.Math_round x).

(** [Math.round(x * 100) / 100]. *)
Definition round2 (x : Q) : Q := (inject_Z (JS.Math_round (x * 100)) / 100)%Q.

(** [Math.round(x * 100) / 100] on a result that may be non-finite. *)
Definition round2n (x : JS.number) : JS.number :=
  match x with
  | JS.Fin q => JS.Fin (round2 q)
  | other => other
  end.

End JSMath.

(* ================================================================== *)
(** ** Price utilities ([packages/utils/src/price.ts]) *)
(* ================================================================== *)

Module Price.

Definition calculateSavings (originalPrice discountedPrice : Q) : Q :=
  JSMath.max 0 (originalPrice - discountedPrice).

(** The guard makes the divisor positive. *)
Definition calculateSavingsPercentage (originalPrice discountedPrice : Q) : Q :=
  if Qle_bool originalPrice 0 then 0%Q
  else
    let savings := calculateSavings originalPrice discountedPrice in
    JSMath.round (savings / originalPrice * 100).

(** [null] is [None]; [Math.min()] of no positive price is [Infinity]. *)
Definition getBestPrice (prices : list Q) : option JS.number :=
  match prices with
  | [] => None
  | _ :: _ => Some (JSMath.minOf (filter (fun p => JS.Qltb 0 p) prices))
  end.

Definition calculatePriceDifference (price1 price2 : Q) : Q :=
  Qabs (F64.sub price1 price2).

(** [thresholdPercent = 5] is the default of an omitted argument. *)
Definition isSignificantPriceDifference (price1 price2 : Q)
    (thresholdPercent : option Q) : bool :=
  let thresholdPercent := SearchService.orDefault thresholdPercent 5%Q in
  let difference := calculatePriceDifference price1 price2 in
  let basePrice := JSMath.min price1 price2 in
  if Qeq_bool basePrice 0 then false
  else
    let percentDifference := F64.mul (F64.quotient difference basePrice) 100 in
    Qle_bool thresholdPercent percentDifference.

Definition calculatePricePerUnit (totalPrice quantity : Q) : Q :=
  if Qle_bool quantity 0 then totalPrice else (totalPrice / quantity)%Q.

Definition comparePricesAcrossCurrencies (price1 : Q) (currency1 : Currency)
    (price2 : Q) (currency2 : Currency) : Q :=
  let price1InUSD := convertCurrency price1 currency1 USD in
  let price2InUSD := convertCurrency price2 currency2 USD in
  (price1InUSD - price2InUSD)%Q.

(** [{ amount: number; currency: Currency }]. *)
Record Money : Type := {
  money_amount : Q;
  money_currency : Currency
}.

(** The callback of [reduce] in [getCheapestPrice]. *)
Definition cheapestOf (cheapest current : Money) : Money :=
  let comparison :=
    comparePricesAcrossCurrencies (money_amount current) (money_currency current)
                                  (money_amount cheapest) (money_currency cheapest) in
  if JS.Qltb comparison 0 then current else cheapest.

Definition getCheapestPrice (prices : list Money) : option Money :=
  match prices with
  | [] => None
  | first :: rest => Some (JS.reduce1 cheapestOf first rest)
  end.

End Price.

(* ================================================================== *)
(** ** Cost calculations ([packages/utils/src/calculations.ts]) *)
(* ================================================================== *)

Module Calculations.

Definition calculateVAT (basePrice vatRate : Q) : Q :=
  JSMath.round2 (basePrice * vatRate).

Definition calculatePriceWithVAT (basePrice vatRate : Q) : Q :=
  (basePrice + calculateVAT basePrice vatRate)%Q.

(** The divisor [1 + vatRate] is a run-time value. *)
Definition calculatePriceWithoutVAT (priceWithVAT vatRate : Q) : JS.number :=
  JSMath.round2n (JS.div priceWithVAT (1 + vatRate)).

Definition calculateImportDuty (basePrice dutyRate : Q) (dutyThreshold : option Q) : Q :=
  let dutyThreshold := SearchService.orDefault dutyThreshold 75%Q in
  if JS.Qltb basePrice dutyThreshold then 0%Q
  else JSMath.round2 (basePrice * dutyRate).

Definition calculateShippingCost (weightKg baseRate : Q) (fixedCost : option Q) : Q :=
  let fixedCost := SearchService.orDefault fixedCost 5%Q in
  JSMath.round2 (weightKg * baseRate + fixedCost).

Record LandedCostInput : Type := {
  in_basePrice : Q;
  in_baseCurrency : Currency;
  in_targetCurrency : Currency;
  in_shippingCost : Q;
  in_dutyRate : Q;
  in_dutyThreshold : option Q;
  in_vatRate : Q;
  in_handlingFee : option Q;
  in_customsClearanceFee : option Q
}.

Record LandedCostBreakdown : Type := {
  out_basePrice : Q;
  out_basePriceConverted : Q;
  out_shipping : Q;
  out_importDuty : Q;
  out_vat : Q;
  out_handlingFee : Q;
  out_customsClearanceFee : Q;
  out_totalCost : Q;
  out_currency : Currency
}.

Definition calculateLandedCost (input : LandedCostInput) : LandedCostBreakdown :=
  let basePrice := in_basePrice input in
  let baseCurrency := in_baseCurrency input in
  let targetCurrency := in_targetCurrency input in
  let shippingCost := in_shippingCost input in
  let dutyThreshold := SearchService.orDefault (in_dutyThreshold input) 75%Q in
  let handlingFee := SearchService.orDefault (in_handlingFee input) 0%Q in
  let customsClearanceFee :=
    SearchService.orDefault (in_customsClearanceFee input) 0%Q in
  let basePriceConverted := convertCurrency basePrice baseCurrency targetCurrency in
  let basePriceInUSD := convertCurrency basePrice baseCurrency USD in
  let importDutyUSD :=
    calculateImportDuty basePriceInUSD (in_dutyRate input) (Some dutyThreshold) in
  let importDuty := convertCurrency importDutyUSD USD targetCurrency in
  let subtotal :=
    (basePriceConverted + shippingCost + importDuty + handlingFee
     + customsClearanceFee)%Q in
  let vat := calculateVAT subtotal (in_vatRate input) in
  let totalCost := (subtotal + vat)%Q in
  {| out_basePrice := basePrice;
     out_basePriceConverted := JSMath.round2 basePriceConverted;
     out_shipping := JSMath.round2 shippingCost;
     out_importDuty := JSMath.round2 importDuty;
     out_vat := JSMath.round2 vat;
     out_handlingFee := JSMath.round2 handlingFee;
     out_customsClearanceFee := JSMath.round2 customsClearanceFee;
     out_totalCost := JSMath.round2 totalCost;
     out_currency := targetCurrency |}.

Definition calculateDiscountPercentage (originalPrice salePrice : Q) : Q :=
  if Qle_bool originalPrice 0 then 0%Q
  else
    let discount := ((originalPrice - salePrice) / originalPrice * 100)%Q in
    JSMath.max 0 (JSMath.round discount).

Definition applyDiscount (price discountPercent : Q) : Q :=
  let discount := (price * discountPercent / 100)%Q in
  JSMath.round2 (price - discount).

Record Weights : Type := {
  w_price : option Q;
  w_delivery : option Q;
  w_trust : option Q;
  w_hassle : option Q
}.

Record RecommendationScoreInput : Type := {
  priceAdvantage : Q;
  deliverySpeed : Q;
  sellerTrust : Q;
  hassleFactor : Q;
  weights : option Weights
}.

Definition defaultWeights : Weights :=
  {| w_price := Some (4 # 10)%Q; w_delivery := Some (2 # 10)%Q;
     w_trust := Some (2 # 10)%Q; w_hassle := Some (2 # 10)%Q |}.

Definition calculateRecommendationScore (input : RecommendationScoreInput) : Q :=
  let weights := SearchService.orDefault (weights input) defaultWeights in
  let invertedHassle := (100 - hassleFactor input)%Q in
  let score :=
    (priceAdvantage input * JS.or_else (w_price weights) (4 # 10)
     + deliverySpeed input * JS.or_else (w_delivery weights) (2 # 10)
     + sellerTrust input * JS.or_else (w_trust weights) (2 # 10)
     + invertedHassle * JS.or_else (w_hassle weights) (2 # 10))%Q in
  JSMath.round (JSMath.max 0 (JSMath.min 100 score)).

(** After both guards [0 < deliveryDays < maxDays], so the divisor is
    positive. *)
Definition calculateDeliveryScore (deliveryDays : Q) (maxDays : option Q) : Q :=
  let maxDays := SearchService.orDefault maxDays 30%Q in
  if Qle_bool deliveryDays 0 then 100%Q
  else if Qle_bool maxDays deliveryDays then 0%Q
  else
    let score := ((maxDays - deliveryDays) / maxDays * 100)%Q in
    JSMath.round score.

(** The guard makes the divisor positive. *)
Definition calculatePriceAdvantageScore (currentPrice competitorPrice : Q) : Q :=
  if Qle_bool currentPrice 0 || Qle_bool competitorPrice 0 then 0%Q
  else
    let savings := (competitorPrice - currentPrice)%Q in
    let savingsPercent := (savings / competitorPrice * 100)%Q in
    let score := JSMath.min (savingsPercent / 50 * 100) 100 in
    JSMath.round (JSMath.max 0 score).

End Calculations.

(* ================================================================== *)
(** ** The store of the mock data service *)
(* ================================================================== *)

Module MockStore.

(** [Map<string, Product>]: the entries in insertion order, one per key. *)
Definition Store : Type := list (string * Product).

Fixpoint get (m : Store) (key : string) : option Product :=
  match m with
  | [] => None
  | (k, v) :: m' => if String.eqb k key then Some v else get m' key
  end.

Definition has (m : Store) (key : string) : bool :=
  match get m key with
  | Some _ => true
  | None => false
  end.

(** [m.set(key, v)]: a key that is present keeps its position. *)
Fixpoint set (m : Store) (key : string) (v : Product) : Store :=
  match m with
  | [] => [(key, v)]
  | (k, x) :: m' =>
      if String.eqb k key then (k, v) :: m' else (k, x) :: set m' key v
  end.

(** [Array.from(m.values())]. *)
Definition values (m : Store) : list Product := map snd m.

Definition size (m : Store) : Z := Z.of_nat (List.length m).

Section Seed.

(** The array exported by [data/mock-products], which is not part of the
    modelled sources. *)
Variable allMockProducts : list Product.

Definition seedData (m : Store) : Store :=
  fold_left (fun acc product => set acc (_id product) product) allMockProducts m.

(** [this.products.clear(); this.seedData()]. *)
Definition reset (m : Store) : Store := seedData [].

End Seed.

(** The new store and the returned count. *)
Definition addProducts (m : Store) (products : list Product) : Store * Z :=
  fold_left
    (fun state product =>
       let '(acc, added) := state in
       if has acc (_id product) then (acc, added)
       else (set acc (_id product) product, added + 1))
    products (m, 0).

Definition getAllProducts (m : Store) : list Product := values m.

(** [this.products.get(id) || null]. *)
Definition findProductById (m : Store) (id : string) : option Product := get m id.

Record MockStats : Type := {
  totalProducts : Z;
  totalShops : Z;
  totalCategories : Z;
  totalBrands : Z
}.

(** [new Set(arr).size]. *)
Definition distinctCount (arr : list string) : Z :=
  Z.of_nat (List.length (nodup string_dec arr)).

(** [arr.filter(Boolean)] on optional strings: [undefined] and the empty
    string are dropped. *)
Definition truthyStrings (arr : list (option string)) : list string :=
  flat_map (fun x => match x with
                     | Some (String c s) => [String c s]
                     | _ => []
                     end) arr.

Definition getStats (m : Store) : MockStats :=
  let products := getAllProducts m in
  {| totalProducts := Z.of_nat (List.length products);
     totalShops := distinctCount (map (fun p => shop_name (shop_info p)) products);
     totalCategories := distinctCount (truthyStrings (map category products));
     totalBrands := distinctCount (truthyStrings (map brand products)) |}.


End MockStore.

(* ================================================================== *)
(** ** The handler of POST /api/v1/search/global *)
(* ================================================================== *)

Module GlobalRoute.

(** The request body before validation. *)
Record RawBody : Type := {
  raw_query : string;
  raw_filters : option SearchFilters;
  raw_sort_by : option SortBy;
  raw_page : option Z;
  raw_per_page : option Z;
  raw_user_country : Country;
  raw_include_shipping : option bool;
  raw_include_all_fees : option bool;
  raw_min_seller_rating : option Q
}.

(** The output of [globalSearchSchema.parse]. *)
Record GlobalSearchBody : Type := {
  query : string;
  filters : option SearchFilters;
  sort_by : SortBy;
  page : Z;
  per_page : Z;
  user_country : Country;
  include_shipping : bool;
  include_all_fees : bool;
  min_seller_rating : option Q
}.

Definition ratingSchema (x : option Q) : bool :=
  match x with
  | Some r => Qle_bool 0 r && Qle_bool r 5
  | None => true
  end.

(** [globalSearchSchema.parse(request.body)]; [None] is a [ZodError]. *)
Definition globalSearchSchema_parse (body : RawBody) : option GlobalSearchBody :=
  let len := Z.of_nat (String.length (raw_query body)) in
  let page := SearchService.orDefault (raw_page body) 1 in
  let per_page := SearchService.orDefault (raw_per_page body) 20 in
  if (1 <=? len) && (len <=? 200)
     && match raw_filters body with
        | Some f => LocalRoute.filtersSchema f
        | None => true
        end
     && (0 <? page)
     && (0 <? per_page) && (per_page <=? 100)
     && ratingSchema (raw_min_seller_rating body)
  then Some {| query := raw_query body;
               filters := raw_filters body;
               sort_by := SearchService.orDefault (raw_sort_by body) PRICE_ASC;
               page := page;
               per_page := per_page;
               user_country := raw_user_country body;
               include_shipping :=
                 SearchService.orDefault (raw_include_shipping body) true;
               include_all_fees :=
                 SearchService.orDefault (raw_include_all_fees body) true;
               min_seller_rating := raw_min_seller_rating body |}
  else None.

Inductive CacheCall : Type :=
  | CacheGet (key : string)
  | CacheSet (key : string) (value : GlobalSearchResponse) (ttlSeconds : Z).

Inductive Reply : Type :=
  | Send (response : GlobalSearchResponse)
  | Status400.

Record Env : Type := {
  cacheGet : string -> option GlobalSearchResponse;
  cacheTTL_search : Z;
  elapsed : Z
}.

Section Handler.
Variable numberToString : Q -> string.
Variable searchService : SearchService.Service.
Variable env : Env.

Definition searchRequestOf (validatedBody : GlobalSearchBody) : GlobalSearchRequest :=
  {| g_query := query validatedBody;
     g_filters := filters validatedBody;
     g_sort_by := Some (sort_by validatedBody);
     g_page := Some (page validatedBody);
     g_per_page := Some (per_page validatedBody);
     g_user_country := user_country validatedBody;
     g_include_shipping := include_shipping validatedBody;
     g_include_all_fees := include_all_fees validatedBody;
     g_min_seller_rating := min_seller_rating validatedBody |}.

(** The request object once [buildSearchCacheKey] has sorted its arrays. *)
Definition afterKey (searchRequest : GlobalSearchRequest) : GlobalSearchRequest :=
  {| g_query := g_query searchRequest;
     g_filters := option_map CacheService.filtersAfterKey (g_filters searchRequest);
     g_sort_by := g_sort_by searchRequest;
     g_page := g_page searchRequest;
     g_per_page := g_per_page searchRequest;
     g_user_country := g_user_country searchRequest;
     g_include_shipping := g_include_shipping searchRequest;
     g_include_all_fees := g_include_all_fees searchRequest;
     g_min_seller_rating := g_min_seller_rating searchRequest |}.

Definition cacheKeyOf (validatedBody : GlobalSearchBody) : string :=
  CacheService.buildSearchCacheKey numberToString CacheService.global
    (OfGlobal (searchRequestOf validatedBody)).

Definition responseOf (validatedBody : GlobalSearchBody)
    (searchResult : SearchService.SearchResult) : GlobalSearchResponse :=
  {| gr_results := SearchService.products searchResult;
     gr_pagination := SearchService.pagination searchResult;
     gr_query := query validatedBody;
     gr_filters :=
       SearchService.orDefault
         (option_map CacheService.filtersAfterKey (filters validatedBody))
         emptyFilters;
     gr_took_ms := elapsed env |}.

Definition handler (body : RawBody) : Reply * list CacheCall :=
  match globalSearchSchema_parse body with
  | None => (Status400, [])
  | Some validatedBody =>
      let searchRequest := searchRequestOf validatedBody in
      let cacheKey := cacheKeyOf validatedBody in
      let searchRequest := afterKey searchRequest in
      match cacheGet env cacheKey with
      | Some cachedResult =>
          (Send {| gr_results := gr_results cachedResult;
                   gr_pagination := gr_pagination cachedResult;
                   gr_query := gr_query cachedResult;
                   gr_filters := gr_filters cachedResult;
                   gr_took_ms := elapsed env |},
           [CacheGet cacheKey])
      | None =>
          let searchResult :=
            SearchService.searchGlobal numberToString searchService searchRequest
              (elapsed env) in
          let response := responseOf validatedBody searchResult in
          (Send response,
           [CacheGet cacheKey; CacheSet cacheKey response (cacheTTL_search env)])
      end
  end.

End Handler.

End GlobalRoute.

(* ================================================================== *)
(** ** The other key builders of the cache service *)
(* ================================================================== *)

Module CacheKeys.

Definition PRODUCT : string := "product:".
Definition STATS : string := "stats:".

(** [{ includeGroup?: boolean; includeHistory?: boolean }]. *)
Record ProductKeyOptions : Type := {
  includeGroup : option bool;
  includeHistory : option bool
}.

(** [options?.flag] used as a condition. *)
Definition isSet (options : option ProductKeyOptions)
    (flag : ProductKeyOptions -> option bool) : bool :=
  match options with
  | Some o => match flag o with
              | Some true => true
              | _ => false
              end
  | None => false
  end.

Definition buildProductCacheKey (productId : string)
    (options : option ProductKeyOptions) : string :=
  let parts :=
    ([PRODUCT; productId]
     ++ (if isSet options includeGroup then [":group"] else [])
     ++ (if isSet options includeHistory then [":history"] else []))%list in
  JS.join "" parts.

(** ["global" | "shops" | "categories"]. *)
Inductive StatsType : Type := statsGlobal | statsShops | statsCategories.

Definition StatsType_value (t : StatsType) : string :=
  match t with
  | statsGlobal => "global"
  | statsShops => "shops"
  | statsCategories => "categories"
  end.

Definition buildStatsCacheKey (type : StatsType) : string :=
  STATS ++ StatsType_value type.

End CacheKeys.

(* ================================================================== *)
(** ** Notions used in the statements *)
(* ================================================================== *)

(** Two optional arrays that hold the same values in a possibly different
    order. *)
Definition permutedArray (a b : option (list string)) : Prop :=
  match a, b with
  | Some l, Some l' => Permutation l l'
  | None, None => True
  | _, _ => False
  end.

(** [f] with its three multi-value filters replaced. *)
Definition withArrays (f : SearchFilters) (s c b : option (list string)) : SearchFilters :=
  {| min_price := min_price f;
     max_price := max_price f;
     in_stock := in_stock f;
     shops := s;
     categories := c;
     brands := b;
     min_rating := min_rating f;
     filter_availability := filter_availability f;
     filter_country := filter_country f |}.

(** [request] with its filter set replaced. *)
Definition withFilters (request : AnySearchRequest) (f : option SearchFilters)
    : AnySearchRequest :=
  match request with
  | OfLocal r =>
      OfLocal {| l_query := l_query r; l_filters := f; l_sort_by := l_sort_by r;
                 l_page := l_page r; l_per_page := l_per_page r;
                 l_country := l_country r;
                 l_check_international := l_check_international r |}
  | OfGlobal r =>
      OfGlobal {| g_query := g_query r; g_filters := f; g_sort_by := g_sort_by r;
                  g_page := g_page r; g_per_page := g_per_page r;
                  g_user_country := g_user_country r;
                  g_include_shipping := g_include_shipping r;
                  g_include_all_fees := g_include_all_fees r;
                  g_min_seller_rating := g_min_seller_rating r |}
  end.

(** The relative error allowed to a figure that a few binary64 operations
    produce: 2^-50, about 8.9e-16. *)
Definition tolerance : Q := 1 # 1125899906842624.

(** [x] is [target] up to that rounding error. *)
Definition upToRounding (x target : Q) : Prop :=
  (Qabs (x - target) <= tolerance * Qabs target)%Q.

(** The local price of a listing: its local total or, when it has none
    (or one of 0), its base amount. *)
Definition localPrice (p : Product) : Q :=
  match local_total (pricing p) with
  | Some t => if Qeq_bool t 0 then amount (base (pricing p)) else t
  | None => amount (base (pricing p))
  end.

(** The landed total of a listing: the total of its international
    breakdown or, when it has none (or one with a total of 0), its base
    amount. *)
Definition landedTotal (p : Product) : Q :=
  match international (pricing p) with
  | Some i => if Qeq_bool (total_landed_cost i) 0 then amount (base (pricing p))
              else total_landed_cost i
  | None => amount (base (pricing p))
  end.

(** [p] is an in-stock listing of a global shop in the product group of
    [bestLocal]. *)
Definition alternativeTo (bestLocal p : Product) : Prop :=
  shop_type (shop_info p) = GLOBAL
  /\ product_group_id p = product_group_id bestLocal
  /\ availability p = IN_STOCK.

(** The savings percent of a local price against a landed total, as an
    exact quotient. *)
Definition savingsPercent (localPrice landedTotal : Q) : Q :=
  ((localPrice - landedTotal) / localPrice * 100)%Q.

(** A listing carries no landed cost: no international breakdown, or one
    whose total is 0. *)
Definition withoutLandedCost (p : Product) : Prop :=
  match international (pricing p) with
  | Some i => (total_landed_cost i == 0)%Q
  | None => True
  end.

(** The landed cost a listing carries, if any. *)
Definition landedCostOf (p : Product) : option Q :=
  option_map total_landed_cost (international (pricing p)).

(** A listing either carries no international breakdown or one whose total
    is at least the base amount. *)
Definition breakdownCoversBase (p : Product) : Prop :=
  match international (pricing p) with
  | Some i => (amount (base (pricing p)) <= total_landed_cost i)%Q
  | None => True
  end.

(** [x] converted from [a] to [b] and back. *)
Definition roundTrip (x : Q) (a b : Currency) : Q :=
  convertCurrency (convertCurrency x a b) b a.

(** [v] is one of the values of an allow-list. *)
Definition allowedBy (allow : list string) (v : option string) : Prop :=
  match v with
  | Some s => In s allow
  | None => False
  end.

(* ------------------------------------------------------------------ *)
(** *** Sample data *)
(* ------------------------------------------------------------------ *)

Module Sample.

(** Rendering of integer-valued numbers, as [Number::toString] gives it
    below 10^21. *)
Definition decimalToString (q : Q) : string := JS.Z_toString (Qfloor q).

Definition shop (n : string) (t : ShopType) (c : string) (to : list string) : ShopInfo :=
  {| shop_name := n; shop_type := t; shop_country := c; ships_to := to;
     is_marketplace := false; global_reach := false |}.

Definition listing (id group : string) (s : ShopInfo) (n : string)
    (b c : option string) (price : Q) (cur : Currency)
    (intl : option InternationalPricing) : Product :=
  {| _id := id; product_group_id := group; shop_info := s; name := n;
     description := None; brand := b; category := c; rating := None;
     review_count := None; availability := IN_STOCK;
     pricing := {| base := {| amount := price; currency := cur;
                              includes_tax := true |};
                   local_total := None;
                   international := intl |};
     recommendation := None |}.

(** An authoritative breakdown with the given total. *)
Definition breakdown (ship total : Q) : InternationalPricing :=
  {| shipping := {| available := true; cost := ship; express_cost := None;
                    free_threshold := None;
                    estimated_days := {| standard := 7; express := None |} |};
     fees := {| import_duty := 0; vat := 0; handling := 0;
                customs_clearance := 0 |};
     total_landed_cost := total;
     risks := {| customs_delay := false; warranty_void := false;
                 return_difficult := false |} |}.

Definition ksp : ShopInfo := shop "ksp.co.il" LOCAL "IL" [].
Definition amazon : ShopInfo := shop "amazon.com" GLOBAL "US" ["IL"; "US"].
Definition ebay : ShopInfo := shop "ebay.com" GLOBAL "US" ["IL"].

Definition localPhone : Product :=
  listing "p1" "grp-phone" ksp "Phone X" (Some "Acme") (Some "phones")
          100 ILS None.

Definition globalPhone85 : Product :=
  listing "p2" "grp-phone" amazon "Phone X" (Some "Acme") (Some "phones")
          80 ILS (Some (breakdown 5 85)).

Definition globalPhone95 : Product :=
  listing "p3" "grp-phone" ebay "Phone X" (Some "Acme") (Some "phones")
          90 ILS (Some (breakdown 5 95)).

Definition globalLaptop : Product :=
  listing "p4" "grp-laptop" amazon "Phone dock laptop" (Some "Other")
          (Some "laptops") 500 USD None.

Definition plain100 : Product :=
  listing "p5" "grp-usd" amazon "Headphones" None None 100 USD None.

(** A listing with an attached breakdown whose total is zero. *)
Definition zeroTotal : Product :=
  listing "p6" "grp-free" amazon "Sticker" None None 0 USD
          (Some (breakdown 0 0)).

(** A listing priced 373 (ILS) with an attached total of 127. *)
Definition cheaperTotal : Product :=
  listing "p7" "grp-ils" amazon "Headphones" None None 373 ILS
          (Some (breakdown 10 127)).

Definition catalogue : list Product :=
  [localPhone; globalPhone95; globalPhone85; globalLaptop].

Definition mockService : SearchService.Service :=
  {| SearchService.useMockData := true;
     SearchService.mockDataService := Some catalogue;
     SearchService.productIndex := fun _ _ _ _ _ => None |}.

(** A service whose search index rejects every query. *)
Definition indexDown : SearchService.Service :=
  {| SearchService.useMockData := false;
     SearchService.mockDataService := None;
     SearchService.productIndex := fun _ _ _ _ _ => None |}.

Definition emptyCache : LocalRoute.Env :=
  {| LocalRoute.cacheGet := fun _ => None;
     LocalRoute.cacheTTL_search := 300;
     LocalRoute.elapsed := 12 |}.

Definition phoneBody (check : option bool) : LocalSearchRequest :=
  {| l_query := "phone"; l_filters := None; l_sort_by := None;
     l_page := None; l_per_page := None; l_country := IL;
     l_check_international := check |}.

Definition shopsBA : SearchFilters :=
  withArrays emptyFilters (Some ["ksp.co.il"; "amazon.com"]) None (Some ["b"; "a"]).

Definition localWithShops : AnySearchRequest :=
  OfLocal {| l_query := " Phone "; l_filters := Some shopsBA;
             l_sort_by := None; l_page := Some 2; l_per_page := None;
             l_country := IL; l_check_international := None |}.

Definition onlyPhones : SearchFilters :=
  withArrays emptyFilters None (Some ["phones"]) None.

Definition globalPhonesRequest : GlobalSearchRequest :=
  {| g_query := "phone"; g_filters := Some onlyPhones; g_sort_by := None;
     g_page := None; g_per_page := None; g_user_country := IL;
     g_include_shipping := true; g_include_all_fees := true;
     g_min_seller_rating := None |}.

End Sample.

(* ------------------------------------------------------------------ *)
(** *** Further notions and sample data *)
(* ------------------------------------------------------------------ *)

(** The value of an amount in USD, as [comparePricesAcrossCurrencies]
    computes it. *)
Definition usd (m : Price.Money) : Q :=
  convertCurrency (Price.money_amount m) (Price.money_currency m) USD.

(** The sum of the components a breakdown displays. *)
Definition componentsOf (b : Calculations.LandedCostBreakdown) : Q :=
  (Calculations.out_basePriceConverted b + Calculations.out_shipping b
   + Calculations.out_importDuty b + Calculations.out_vat b
   + Calculations.out_handlingFee b + Calculations.out_customsClearanceFee b)%Q.

(** The listings of a batch that a store takes in, in batch order: those
    whose id is neither among the known ids nor earlier in the batch. *)
Fixpoint freshOf (known : list string) (batch : list Product) : list Product :=
  match batch with
  | [] => []
  | p :: rest =>
      if existsb (String.eqb (_id p)) known then freshOf known rest
      else p :: freshOf (known ++ [_id p]) rest
  end.

(** [sub] occurs in [s]. *)
Definition occursIn (sub s : string) : Prop :=
  exists pre post : string, s = (pre ++ sub ++ post)%string.

(** A listing mentions a query: its name, brand, category or description
    contains the query, letter case apart. *)
Definition mentions (p : Product) (query : string) : Prop :=
  let q := JS.toLowerCase query in
  occursIn q (JS.toLowerCase (name p))
  \/ (exists b, brand p = Some b /\ occursIn q (JS.toLowerCase b))
  \/ (exists c, category p = Some c /\ occursIn q (JS.toLowerCase c))
  \/ (exists d, description p = Some d /\ occursIn q (JS.toLowerCase d)).

(** Entries are filed under the id of their listing and no id occurs
    twice. *)
Definition wellKeyed (m : MockStore.Store) : Prop :=
  NoDup (map fst m) /\ Forall (fun e => fst e = _id (snd e)) m.

(** The store after [reset] and then one [addProducts] per batch. *)
Definition afterBatches (allMockProducts : list Product) (m0 : MockStore.Store)
    (batches : list (list Product)) : MockStore.Store :=
  fold_left (fun m ps => fst (MockStore.addProducts m ps)) batches
            (MockStore.reset allMockProducts m0).


(** [request] with its query text replaced. *)
Definition withQuery (request : AnySearchRequest) (q : string) : AnySearchRequest :=
  match request with
  | OfLocal r =>
      OfLocal {| l_query := q; l_filters := l_filters r; l_sort_by := l_sort_by r;
                 l_page := l_page r; l_per_page := l_per_page r;
                 l_country := l_country r;
                 l_check_international := l_check_international r |}
  | OfGlobal r =>
      OfGlobal {| g_query := q; g_filters := g_filters r; g_sort_by := g_sort_by r;
                  g_page := g_page r; g_per_page := g_per_page r;
                  g_user_country := g_user_country r;
                  g_include_shipping := g_include_shipping r;
                  g_include_all_fees := g_include_all_fees r;
                  g_min_seller_rating := g_min_seller_rating r |}
  end.

(** A local request body with another [check_international]. *)
Definition withCheck (body : LocalSearchRequest) (check : option bool)
    : LocalSearchRequest :=
  {| l_query := l_query body; l_filters := l_filters body;
     l_sort_by := l_sort_by body; l_page := l_page body;
     l_per_page := l_per_page body; l_country := l_country body;
     l_check_international := check |}.

(** A global request body with other cost flags and seller rating. *)
Definition withCostOptions (body : GlobalRoute.RawBody)
    (shipping fees : option bool) (sellerRating : option Q) : GlobalRoute.RawBody :=
  {| GlobalRoute.raw_query := GlobalRoute.raw_query body;
     GlobalRoute.raw_filters := GlobalRoute.raw_filters body;
     GlobalRoute.raw_sort_by := GlobalRoute.raw_sort_by body;
     GlobalRoute.raw_page := GlobalRoute.raw_page body;
     GlobalRoute.raw_per_page := GlobalRoute.raw_per_page body;
     GlobalRoute.raw_user_country := GlobalRoute.raw_user_country body;
     GlobalRoute.raw_include_shipping := shipping;
     GlobalRoute.raw_include_all_fees := fees;
     GlobalRoute.raw_min_seller_rating := sellerRating |}.

(** A cached response as the handlers send it: [took_ms] is replaced. *)
Definition retimedLocal (cached : LocalSearchResponse) (took : Z) : LocalSearchResponse :=
  {| lr_results := lr_results cached; lr_pagination := lr_pagination cached;
     lr_smart_deal := lr_smart_deal cached; lr_query := lr_query cached;
     lr_filters := lr_filters cached; lr_took_ms := took |}.

Definition retimedGlobal (cached : GlobalSearchResponse) (took : Z)
    : GlobalSearchResponse :=
  {| gr_results := gr_results cached; gr_pagination := gr_pagination cached;
     gr_query := gr_query cached; gr_filters := gr_filters cached;
     gr_took_ms := took |}.

(** The ways in which a filter set fails the schema: a price bound that is
    not positive, or a rating bound outside 0..5. *)
Definition invalidFilters (f : SearchFilters) : Prop :=
  (exists m, min_price f = Some m /\ (m <= 0)%Q)
  \/ (exists m, max_price f = Some m /\ (m <= 0)%Q)
  \/ (exists r, min_rating f = Some r /\ (r < 0 \/ 5 < r)%Q).

(** The ways in which a local request body fails the schema. *)
Definition invalidLocalBody (body : LocalSearchRequest) : Prop :=
  String.length (l_query body) = 0%nat
  \/ (200 < String.length (l_query body))%nat
  \/ (exists f, l_filters body = Some f /\ invalidFilters f)
  \/ (exists p, l_page body = Some p /\ (p <= 0)%Z)
  \/ (exists n, l_per_page body = Some n /\ (n <= 0 \/ 100 < n)%Z).

Module Sample2.

(** A search index that answers every query with two listings. *)
Definition indexUp : SearchService.Service :=
  {| SearchService.useMockData := false;
     SearchService.mockDataService := None;
     SearchService.productIndex :=
       fun _ _ _ _ _ =>
         Some {| SearchService.hits := [Sample.plain100; Sample.globalPhone85];
                 SearchService.estimatedTotalHits := Some 2%Z |} |}.

(** A free local listing and a free global alternative of its group. *)
Definition freeLocal : Product :=
  Sample.listing "f1" "grp-free" Sample.ksp "Sticker" None None 0 ILS None.

Definition freeGlobal : Product :=
  Sample.listing "f2" "grp-free" Sample.amazon "Sticker" None None 0 USD None.

(** A service on the mock provider whose store holds these two. *)
Definition freeService : SearchService.Service :=
  {| SearchService.useMockData := true;
     SearchService.mockDataService := Some [freeLocal; freeGlobal];
     SearchService.productIndex := fun _ _ _ _ _ => None |}.

Definition stickerBody : LocalSearchRequest :=
  {| l_query := "sticker"; l_filters := None; l_sort_by := None;
     l_page := None; l_per_page := None; l_country := IL;
     l_check_international := None |}.

Definition globalBody : GlobalRoute.RawBody :=
  {| GlobalRoute.raw_query := "phone";
     GlobalRoute.raw_filters := None;
     GlobalRoute.raw_sort_by := None;
     GlobalRoute.raw_page := None;
     GlobalRoute.raw_per_page := None;
     GlobalRoute.raw_user_country := IL;
     GlobalRoute.raw_include_shipping := None;
     GlobalRoute.raw_include_all_fees := None;
     GlobalRoute.raw_min_seller_rating := None |}.

Definition globalEmptyCache : GlobalRoute.Env :=
  {| GlobalRoute.cacheGet := fun _ => None;
     GlobalRoute.cacheTTL_search := 300;
     GlobalRoute.elapsed := 7 |}.

End Sample2.

Module Sample3.

Definition cachedPhones : LocalSearchResponse :=
  {| lr_results := [Sample.localPhone];
     lr_pagination := SearchService.buildPagination 1 20 1;
     lr_smart_deal := None;
     lr_query := "phone";
     lr_filters := emptyFilters;
     lr_took_ms := 40 |}.

(** A cache that answers every key with the same entry. *)
Definition warmCache : LocalRoute.Env :=
  {| LocalRoute.cacheGet := fun _ => Some cachedPhones;
     LocalRoute.cacheTTL_search := 300;
     LocalRoute.elapsed := 3 |}.

Definition cachedGlobal : GlobalSearchResponse :=
  {| gr_results := [Sample.globalPhone85];
     gr_pagination := SearchService.buildPagination 1 20 1;
     gr_query := "phone";
     gr_filters := emptyFilters;
     gr_took_ms := 55 |}.

Definition warmGlobalCache : GlobalRoute.Env :=
  {| GlobalRoute.cacheGet := fun _ => Some cachedGlobal;
     GlobalRoute.cacheTTL_search := 300;
     GlobalRoute.elapsed := 4 |}.

End Sample3.

Module Sample4.

(** A local listing priced 6.3 and a global listing of its group priced
    5.67, each amount being the number the engine holds for the decimal. *)
Definition tea63 : Product :=
  Sample.listing "t1" "grp-tea" Sample.ksp "Tea" None None
                 (F64.lit (63 # 10)) ILS None.

Definition tea567 : Product :=
  Sample.listing "t2" "grp-tea" Sample.amazon "Tea" None None
                 (F64.lit (567 # 100)) ILS None.

(** A filter set with two price bounds, a stock requirement and two
    allow-lists. *)
Definition acmeAtKsp : SearchFilters :=
  {| min_price := Some 50%Q; max_price := Some 200%Q; in_stock := Some true;
     shops := Some ["ksp.co.il"]; categories := None;
     brands := Some ["Other"; "Acme"];
     min_rating := None; filter_availability := None;
     filter_country := None |}.

End Sample4.

(* ================================================================== *)
(** ** Properties *)
(* ================================================================== *)

(* ------------------------------------------------------------------ *)
(** *** The default sort and the cache key *)
(* ------------------------------------------------------------------ *)

Lemma compare_refl (s : string) : String.compare s s = Eq.
Proof. now apply String_as_OT.cmp_eq. Qed.

Lemma leb_refl (s : string) : String.leb s s = true.
Proof. unfold String.leb. now rewrite compare_refl. Qed.

Lemma leb_trans (a b c : string) :
  String.leb a b = true -> String.leb b c = true -> String.leb a c = true.
Proof.
  unfold String.leb.
  destruct (String.compare a b) eqn:Hab; try discriminate;
    destruct (String.compare b c) eqn:Hbc; try discriminate; intros _ _.
  - apply String_as_OT.cmp_eq in Hab, Hbc. subst. now rewrite compare_refl.
  - apply String_as_OT.cmp_eq in Hab. subst. now rewrite Hbc.
  - apply String_as_OT.cmp_eq in Hbc. subst. now rewrite Hab.
  - apply String_as_OT.cmp_lt in Hab, Hbc.
    pose proof (String_as_OT.lt_trans _ _ _ Hab Hbc) as H.
    apply String_as_OT.cmp_lt in H. unfold String_as_OT.cmp in H.
    now rewrite H.
Qed.

Lemma leb_false_flip (a b : string) :
  String.leb a b = false -> String.leb b a = true.
Proof.
  intros H. destruct (String.leb_total a b) as [H'|H']; congruence.
Qed.

(** Inserting two values gives the same array in either order. *)
Lemma insert_insert (x y : string) (l : list string) :
  JS.insert x (JS.insert y l) = JS.insert y (JS.insert x l).
Proof.
  induction l as [|a l IH]; simpl.
  - destruct (String.leb x y) eqn:Hxy, (String.leb y x) eqn:Hyx; try reflexivity.
    + now rewrite (String.leb_antisym _ _ Hxy Hyx).
    + apply leb_false_flip in Hxy. congruence.
  - destruct (String.leb y a) eqn:Hya, (String.leb x a) eqn:Hxa; simpl.
    + destruct (String.leb x y) eqn:Hxy, (String.leb y x) eqn:Hyx;
        rewrite ?Hya, ?Hxa; try reflexivity.
      * now rewrite (String.leb_antisym _ _ Hxy Hyx).
      * apply leb_false_flip in Hxy. congruence.
    + assert (String.leb x y = false) as Hxy.
      { destruct (String.leb x y) eqn:E; [|reflexivity].
        rewrite (leb_trans _ _ _ E Hya) in Hxa. discriminate. }
      now rewrite Hxy, Hya, Hxa.
    + assert (String.leb y x = false) as Hyx.
      { destruct (String.leb y x) eqn:E; [|reflexivity].
        rewrite (leb_trans _ _ _ E Hxa) in Hya. discriminate. }
      now rewrite Hyx, Hxa, Hya.
    + rewrite Hya, Hxa. now rewrite IH.
Qed.

(** The sorted array depends on the values only, not on their order. *)
Lemma sort_permutation (l l' : list string) :
  Permutation l l' -> JS.sort l = JS.sort l'.
Proof.
  induction 1 as [| x l l' _ IH | x y l | l l' l'' _ IH1 _ IH2]; simpl.
  - reflexivity.
  - now rewrite IH.
  - apply insert_insert.
  - congruence.
Qed.

Lemma hasLength_permuted (a b : option (list string)) :
  permutedArray a b -> CacheService.hasLength a = CacheService.hasLength b.
Proof.
  destruct a as [l|], b as [l'|]; simpl; try tauto.
  intros H. destruct l, l'; try reflexivity.
  - now apply Permutation_nil in H.
  - symmetry in H. now apply Permutation_nil in H.
Qed.

Lemma listPart_permuted (label : string) (a b : option (list string)) :
  permutedArray a b -> CacheService.listPart label a = CacheService.listPart label b.
Proof.
  intros H. unfold CacheService.listPart.
  rewrite (hasLength_permuted _ _ H).
  destruct (CacheService.hasLength b); [|reflexivity].
  destruct a as [l|], b as [l'|]; simpl in *; try tauto.
  now rewrite (sort_permutation _ _ H).
Qed.

(** C5.  For a request of either kind that carries a filter set, replacing
    the [shops], [categories] and [brands] arrays by permutations of
    themselves leaves the key of [buildSearchCacheKey] unchanged, for both
    values of the [type] argument. *)
Theorem buildSearchCacheKey_order_independent :
  forall (numberToString : Q -> string) (type : CacheService.CacheType)
         (request : AnySearchRequest) (f : SearchFilters)
         (s c b : option (list string)),
    CacheService.req_filters request = Some f ->
    permutedArray (shops f) s ->
    permutedArray (categories f) c ->
    permutedArray (brands f) b ->
    CacheService.buildSearchCacheKey numberToString type
      (withFilters request (Some (withArrays f s c b)))
    = CacheService.buildSearchCacheKey numberToString type request.
Proof.
  intros nts type request f s c b Hf Hs Hc Hb.
  unfold CacheService.buildSearchCacheKey. do 3 f_equal.
  unfold CacheService.keyParts.
  assert (CacheService.filterParts nts (Some (withArrays f s c b))
          = CacheService.filterParts nts (Some f)) as Hparts.
  { simpl.
    now rewrite (listPart_permuted "shops:" _ _ Hs),
                (listPart_permuted "categories:" _ _ Hc),
                (listPart_permuted "brands:" _ _ Hb). }
  destruct request as [r|r]; simpl in Hf |- *; rewrite Hf;
    unfold CacheService.filterParts in Hparts; simpl in Hparts;
    now rewrite Hparts.
Qed.

Lemma buildSearchCacheKey_order_independent_witness :
  CacheService.buildSearchCacheKey Sample.decimalToString CacheService.local
    (withFilters Sample.localWithShops
       (Some (withArrays Sample.shopsBA
                (Some ["amazon.com"; "ksp.co.il"]) None (Some ["a"; "b"]))))
  = CacheService.buildSearchCacheKey Sample.decimalToString CacheService.local
      Sample.localWithShops.
Proof.
  apply (buildSearchCacheKey_order_independent Sample.decimalToString
           CacheService.local Sample.localWithShops Sample.shopsBA).
  - reflexivity.
  - simpl. apply perm_swap.
  - simpl. exact I.
  - simpl. apply perm_swap.
Defined.

(* ------------------------------------------------------------------ *)
(** *** Currency conversion *)
(* ------------------------------------------------------------------ *)

Local Open Scope Q_scope.

(** Rounding to two decimals moves a value by at most half a cent. *)
Lemma round2_bounds (v : Q) :
  v - (1 # 200) <= inject_Z (JS.Math_round (v * 100)) / 100 <= v + (1 # 200).
Proof.
  unfold JS.Math_round.
  pose proof (Qfloor_le (v * 100 + (1 # 2))) as Hlo.
  pose proof (Qlt_floor (v * 100 + (1 # 2))) as Hhi.
  rewrite inject_Z_plus in Hhi.
  set (n := inject_Z (Qfloor (v * 100 + (1 # 2)))) in *.
  change (inject_Z 1) with 1 in Hhi.
  split.
  - apply Qle_shift_div_l; [reflexivity|]. lra.
  - apply Qle_shift_div_r; [reflexivity|]. lra.
Qed.

(** Names the two roundings of a round trip and records their bounds. *)
Ltac name_roundings :=
  match goal with
  | |- context [inject_Z (JS.Math_round (?v * 100)) / 100] =>
      pose proof (round2_bounds v);
      set (inject_Z (JS.Math_round (v * 100)) / 100) in *;
      match goal with
      | |- context [inject_Z (JS.Math_round (?w * 100)) / 100] =>
          pose proof (round2_bounds w);
          set (inject_Z (JS.Math_round (w * 100)) / 100) in *
      end
  end.

Lemma roundTrip_error (a b : Currency) (x : Q) :
  Qabs (roundTrip x a b - x)
  <= (1 # 200) * (1 + EXCHANGE_RATES a / EXCHANGE_RATES b).
Proof.
  apply Qabs_Qle_condition.
  unfold roundTrip, convertCurrency.
  destruct a, b; cbn [Currency_eqb EXCHANGE_RATES];
    try (unfold Qdiv; cbn [Qinv Qnum Qden]; split; lra);
    name_roundings;
    unfold Qdiv in *; cbn [Qinv Qnum Qden] in *;
    split; lra.
Qed.

Lemma rate_quotient_bound (a b : Currency) :
  EXCHANGE_RATES a / EXCHANGE_RATES b < 5.
Proof. destruct a, b; reflexivity. Qed.

Lemma rate_quotient_le_1 (a b : Currency) :
  EXCHANGE_RATES a <= EXCHANGE_RATES b -> EXCHANGE_RATES a / EXCHANGE_RATES b <= 1.
Proof.
  destruct a, b; cbn; intros H; try discriminate; try (exfalso; apply H; reflexivity).
Qed.

(** C9, counterexample.  3 ILS become 0.64 GBP, which become 3.02 ILS: the
    round trip is two cents away from the amount. *)
Lemma roundTrip_ILS_GBP_two_cents :
  0 < 3
  /\ convertCurrency 3 ILS GBP == 64 # 100
  /\ roundTrip 3 ILS GBP == 302 # 100
  /\ ~ Qabs (roundTrip 3 ILS GBP - 3) <= 1 # 100.
Proof.
  repeat split; try reflexivity.
  intros H. vm_compute in H. apply H. reflexivity.
Qed.

(** C9, as amended.  For every pair of supported currencies (A, B) and
    every positive amount x, converting x from A to B and back yields a
    value within 0.005 * (1 + rate[A] / rate[B]) of x; this is below 0.03
    for every pair and at most 0.01 when rate[A] <= rate[B]. *)
Theorem convertCurrency_round_trip :
  forall (a b : Currency) (x : Q),
    0 < x ->
    Qabs (roundTrip x a b - x)
    <= (1 # 200) * (1 + EXCHANGE_RATES a / EXCHANGE_RATES b)
    /\ Qabs (roundTrip x a b - x) < 3 # 100
    /\ (EXCHANGE_RATES a <= EXCHANGE_RATES b ->
        Qabs (roundTrip x a b - x) <= 1 # 100).
Proof.
  intros a b x _.
  pose proof (roundTrip_error a b x) as H.
  pose proof (rate_quotient_bound a b) as Hk.
  repeat split; [exact H | lra |].
  intros Hab. pose proof (rate_quotient_le_1 a b Hab). lra.
Qed.

Lemma convertCurrency_round_trip_witness :
  0 < 3
  /\ Qabs (roundTrip 3 ILS GBP - 3)
     <= (1 # 200) * (1 + EXCHANGE_RATES ILS / EXCHANGE_RATES GBP)
  /\ Qabs (roundTrip 3 ILS GBP - 3) < 3 # 100.
Proof.
  assert (0 < 3) as Hpos by reflexivity.
  split; [exact Hpos|].
  destruct (convertCurrency_round_trip ILS GBP 3 Hpos) as (H1 & H2 & _).
  split; assumption.
Defined.

(* ------------------------------------------------------------------ *)
(** *** Binary64 rounding *)
(* ------------------------------------------------------------------ *)

Lemma Qltb_true_iff (a b : Q) : JS.Qltb a b = true <-> a < b.
Proof.
  unfold JS.Qltb. rewrite negb_true_iff. split.
  - intros H. apply Qnot_le_lt. intros Hle.
    apply Qle_bool_iff in Hle. congruence.
  - intros H. destruct (Qle_bool b a) eqn:E; [|reflexivity].
    apply Qle_bool_iff in E. lra.
Qed.

Lemma Qltb_false_iff (a b : Q) : JS.Qltb a b = false <-> b <= a.
Proof.
  unfold JS.Qltb. rewrite negb_false_iff. apply Qle_bool_iff.
Qed.

Lemma pow2_pos (k : Z) : 0 < 2 ^ k.
Proof. apply Qpower_0_lt. reflexivity. Qed.

Lemma pow2_succ (k : Z) : 2 ^ (k + 1) == 2 * 2 ^ k.
Proof. rewrite Qpower_plus by discriminate. change (2 ^ 1) with 2. ring. Qed.

Lemma pow2_pred (k : Z) : 2 * 2 ^ (k - 1) == 2 ^ k.
Proof.
  rewrite <- pow2_succ. replace (k - 1 + 1)%Z with k by lia. reflexivity.
Qed.

Lemma pow2_log2 (n : Z) :
  (0 < n)%Z -> 2 ^ Z.log2 n <= inject_Z n /\ inject_Z n < 2 * 2 ^ Z.log2 n.
Proof.
  intros Hn. destruct (Z.log2_spec n Hn) as [Hlo Hhi].
  pose proof (Z.log2_nonneg n) as Hnn.
  rewrite <- pow2_succ.
  pose proof (Zpower_Qpower 2 (Z.log2 n) Hnn) as H1.
  pose proof (Zpower_Qpower 2 (Z.log2 n + 1) ltac:(lia)) as H2.
  change (inject_Z 2) with 2 in H1, H2.
  rewrite <- H1, <- H2, <- Zle_Qle, <- Zlt_Qlt.
  replace (Z.log2 n + 1)%Z with (Z.succ (Z.log2 n)) by lia. tauto.
Qed.

(** [ilog2 q] is the binary exponent of a positive [q]. *)
Lemma ilog2_spec (q : Q) :
  0 < q -> 2 ^ F64.ilog2 q <= q /\ q < 2 * 2 ^ F64.ilog2 q.
Proof.
  intros Hq. unfold F64.ilog2.
  set (k := (Z.log2 (Qnum q) - Z.log2 (Zpos (Qden q)))%Z).
  assert (0 < Qnum q)%Z as Hn.
  { unfold Qlt in Hq. simpl in Hq. lia. }
  destruct (pow2_log2 (Qnum q) Hn) as [Ha1 Ha2].
  destruct (pow2_log2 (Zpos (Qden q)) eq_refl) as [Hb1 Hb2].
  assert (2 ^ Z.log2 (Qnum q) == 2 ^ k * 2 ^ Z.log2 (Zpos (Qden q))) as Hk.
  { rewrite <- Qpower_plus by discriminate. unfold k.
    replace (Z.log2 (Qnum q) - Z.log2 (Zpos (Qden q))
             + Z.log2 (Zpos (Qden q)))%Z with (Z.log2 (Qnum q)) by lia.
    reflexivity. }
  assert (inject_Z (Qnum q) == q * inject_Z (Zpos (Qden q))) as Hqd.
  { unfold Qeq. simpl. rewrite Z.mul_1_r. rewrite Pos.mul_1_r. reflexivity. }
  pose proof (pow2_pos k) as Hpk.
  pose proof (pow2_pos (Z.log2 (Qnum q))) as Hpa.
  pose proof (pow2_pos (Z.log2 (Zpos (Qden q)))) as Hpb.
  set (A := 2 ^ Z.log2 (Qnum q)) in *.
  set (B := 2 ^ Z.log2 (Zpos (Qden q))) in *.
  set (N := inject_Z (Qnum q)) in *.
  set (D := inject_Z (Zpos (Qden q))) in *.
  set (K := 2 ^ k) in *.
  assert (q < 2 * K) as Hhi.
  { apply Qnot_le_lt. intros Hc. nra. }
  assert (K < 2 * q) as Hlo.
  { apply Qnot_le_lt. intros Hc. nra. }
  destruct (Qle_bool K q) eqn:E.
  - apply Qle_bool_iff in E. fold K. split; [exact E | exact Hhi].
  - assert (q < K) as Hlt.
    { apply Qnot_le_lt. intros Hc. apply Qle_bool_iff in Hc. congruence. }
    pose proof (pow2_pred k) as Hp. fold K in Hp.
    set (K' := 2 ^ (k - 1)) in *. split; lra.
Qed.

Lemma nearestEven_error (q : Q) :
  Qabs (inject_Z (F64.nearestEven q) - q) <= 1 # 2.
Proof.
  unfold F64.nearestEven.
  pose proof (Qfloor_le q) as Hlo.
  pose proof (Qlt_floor q) as Hhi.
  rewrite inject_Z_plus in Hhi. change (inject_Z 1) with 1 in Hhi.
  apply Qabs_Qle_condition.
  destruct (q - inject_Z (Qfloor q) ?= 1 # 2) eqn:E.
  - apply Qeq_alt in E.
    destruct (Z.even (Qfloor q)); rewrite ?inject_Z_plus;
      change (inject_Z 1) with 1; split; lra.
  - apply Qlt_alt in E. split; lra.
  - apply Qgt_alt in E. rewrite inject_Z_plus. change (inject_Z 1) with 1.
    split; lra.
Qed.

(** The rounded magnitude is within the unit roundoff, relatively. *)
Lemma roundMagnitude_error (a : Q) :
  0 < a -> Qabs (F64.roundMagnitude a - a) <= F64.u * a.
Proof.
  intros Ha. unfold F64.roundMagnitude.
  destruct (ilog2_spec a Ha) as [Hlo _].
  set (l := F64.ilog2 a) in *.
  pose proof (pow2_pos (l - 52)) as Hp.
  assert (2 ^ l == 4503599627370496 * 2 ^ (l - 52)) as Hl.
  { replace l with (l - 52 + 52)%Z at 1 by lia.
    rewrite Qpower_plus by discriminate.
    change (2 ^ 52) with 4503599627370496. ring. }
  set (P := 2 ^ (l - 52)) in *.
  pose proof (nearestEven_error (a / P)) as Hm.
  set (m := inject_Z (F64.nearestEven (a / P))) in *.
  rewrite Qred_correct.
  assert (m * P - a == (m - a / P) * P) as Heq.
  { field. lra. }
  rewrite Heq, Qabs_Qmult, (Qabs_pos P) by lra.
  unfold F64.u. set (d := Qabs (m - a / P)) in *. nra.
Qed.

(** Equal rationals round to the same number. *)
Lemma round_comp (q q' : Q) : q == q' -> F64.round q = F64.round q'.
Proof.
  intros H. unfold F64.round. now rewrite (Qred_complete _ _ H).
Qed.

Lemma round_0 (q : Q) : q == 0 -> F64.round q = 0.
Proof. intros H. now rewrite (round_comp _ _ H). Qed.

(** A positive exact result [q] is rounded into [q (1 - u), q (1 + u)]. *)
Lemma round_pos (q : Q) :
  0 < q -> q * (1 - F64.u) <= F64.round q <= q * (1 + F64.u).
Proof.
  intros Hq. unfold F64.round.
  pose proof (Qred_correct q) as Hred. set (r := Qred q) in *.
  assert (0 < r) as Hr by lra.
  destruct (Qeq_bool r 0) eqn:E.
  { apply Qeq_bool_iff in E. lra. }
  assert (JS.Qltb r 0 = false) as E' by (apply Qltb_false_iff; lra).
  rewrite E'.
  assert (Qabs r == r) as Habs by (apply Qabs_pos; lra).
  assert (0 < Qabs r) as Hpos by lra.
  pose proof (roundMagnitude_error (Qabs r) Hpos) as H.
  apply Qabs_Qle_condition in H.
  set (m := F64.roundMagnitude (Qabs r)) in *.
  split; nra.
Qed.

(** A negative one into [q (1 + u), q (1 - u)]. *)
Lemma round_neg (q : Q) :
  q < 0 -> q * (1 + F64.u) <= F64.round q <= q * (1 - F64.u).
Proof.
  intros Hq. unfold F64.round.
  pose proof (Qred_correct q) as Hred. set (r := Qred q) in *.
  assert (r < 0) as Hr by lra.
  destruct (Qeq_bool r 0) eqn:E.
  { apply Qeq_bool_iff in E. lra. }
  assert (JS.Qltb r 0 = true) as E' by (apply Qltb_true_iff; lra).
  rewrite E'.
  assert (Qabs r == - r) as Habs by (apply Qabs_neg; lra).
  assert (0 < Qabs r) as Hpos by lra.
  pose proof (roundMagnitude_error (Qabs r) Hpos) as H.
  apply Qabs_Qle_condition in H.
  set (m := F64.roundMagnitude (Qabs r)) in *.
  split; nra.
Qed.

(** Rounding moves a value by at most the unit roundoff times its
    magnitude. *)
Lemma round_error (q : Q) : Qabs (F64.round q - q) <= F64.u * Qabs q.
Proof.
  destruct (Q_dec q 0) as [[H|H]|H].
  - pose proof (round_neg q H) as [H1 H2].
    rewrite (Qabs_neg q) by lra. apply Qabs_Qle_condition. split; nra.
  - pose proof (round_pos q H) as [H1 H2].
    rewrite (Qabs_pos q) by lra. apply Qabs_Qle_condition. split; nra.
  - rewrite (round_0 q H), H. discriminate.
Qed.

(** Rounding is odd. *)
Lemma round_opp (q : Q) : F64.round (- q) = (- F64.round q)%Q.
Proof.
  unfold F64.round. rewrite Qred_opp.
  set (r := Qred q).
  assert (Qabs (- r) = Qabs r) as Habs.
  { destruct r as [n d]. unfold Qabs, Qopp. simpl. now rewrite Z.abs_opp. }
  rewrite Habs.
  destruct (Q_dec r 0) as [[H|H]|H].
  - assert (Qeq_bool (- r) 0 = false) as E1.
    { destruct (Qeq_bool (- r) 0) eqn:E; [|reflexivity].
      apply Qeq_bool_iff in E. lra. }
    assert (Qeq_bool r 0 = false) as E2.
    { destruct (Qeq_bool r 0) eqn:E; [|reflexivity].
      apply Qeq_bool_iff in E. lra. }
    assert (JS.Qltb (- r) 0 = false) as E3 by (apply Qltb_false_iff; lra).
    assert (JS.Qltb r 0 = true) as E4 by (apply Qltb_true_iff; lra).
    rewrite E1, E2, E3, E4.
    destruct (F64.roundMagnitude (Qabs r)) as [n d]. unfold Qopp. simpl.
    now rewrite Z.opp_involutive.
  - assert (Qeq_bool (- r) 0 = false) as E1.
    { destruct (Qeq_bool (- r) 0) eqn:E; [|reflexivity].
      apply Qeq_bool_iff in E. lra. }
    assert (Qeq_bool r 0 = false) as E2.
    { destruct (Qeq_bool r 0) eqn:E; [|reflexivity].
      apply Qeq_bool_iff in E. lra. }
    assert (JS.Qltb (- r) 0 = true) as E3 by (apply Qltb_true_iff; lra).
    assert (JS.Qltb r 0 = false) as E4 by (apply Qltb_false_iff; lra).
    rewrite E1, E2, E3, E4. reflexivity.
  - assert (Qeq_bool (- r) 0 = true) as E1 by (apply Qeq_bool_iff; lra).
    assert (Qeq_bool r 0 = true) as E2 by (apply Qeq_bool_iff; lra).
    rewrite E1, E2. reflexivity.
Qed.

(** The literals of the landed-cost estimate, as the engine holds them. *)
Lemma estimate_literals :
  F64.lit (1 # 10) = 3602879701896397 # 36028797018963968
  /\ F64.lit (17 # 100) = 6124895493223875 # 36028797018963968
  /\ F64.lit (3 # 10) = 5404319552844595 # 18014398509481984
  /\ F64.lit (7 # 10) = 3152519739159347 # 4503599627370496.
Proof. vm_compute. repeat split. Qed.

(* ------------------------------------------------------------------ *)
(** *** Landed cost *)
(* ------------------------------------------------------------------ *)

Lemma truthy_false_iff (q : Q) : JS.truthy q = false <-> q == 0.
Proof.
  unfold JS.truthy. rewrite negb_false_iff. apply Qeq_bool_iff.
Qed.

Lemma truthy_true_iff (q : Q) : JS.truthy q = true <-> ~ q == 0.
Proof.
  unfold JS.truthy. rewrite negb_true_iff.
  split.
  - intros H E. apply Qeq_bool_iff in E. congruence.
  - intros H. destruct (Qeq_bool q 0) eqn:E; [|reflexivity].
    apply Qeq_bool_iff in E. contradiction.
Qed.

Lemma calculateTotalCost_estimates (product : Product) (userCountry : Country)
    (includeAllFees : bool) :
  SearchService.hasLandedCost product = false ->
  international (pricing (SearchService.calculateTotalCost product userCountry includeAllFees))
  = Some (SearchService.estimateInternational (amount (base (pricing product)))
                                              includeAllFees).
Proof.
  intros H. unfold SearchService.calculateTotalCost. now rewrite H.
Qed.

Lemma upToRounding_nonneg (x target : Q) :
  0 <= target ->
  target * (1 - tolerance) <= x <= target * (1 + tolerance) ->
  upToRounding x target.
Proof.
  intros Ht [H1 H2]. unfold upToRounding.
  rewrite (Qabs_pos target) by exact Ht.
  apply Qabs_Qle_condition. split; lra.
Qed.

Lemma upToRounding_nonpos (x target : Q) :
  target <= 0 ->
  target * (1 + tolerance) <= x <= target * (1 - tolerance) ->
  upToRounding x target.
Proof.
  intros Ht [H1 H2]. unfold upToRounding.
  rewrite (Qabs_neg target) by exact Ht.
  apply Qabs_Qle_condition. split; lra.
Qed.

(** Names the rounded value of [x] and records its bounds; the sign of
    [x] follows from the hypotheses at hand. *)
Tactic Notation "bound_round" constr(x) "as" ident(r) :=
  first
    [ let H := fresh "Hsign" in
      assert (0 < x) as H by (unfold F64.u in *; lra);
      pose proof (round_pos x H); clear H
    | let H := fresh "Hsign" in
      assert (x < 0) as H by (unfold F64.u in *; lra);
      pose proof (round_neg x H); clear H ];
  set (r := F64.round x) in *.

(** Rewrites the rounded products of zero with a literal. *)
Ltac zero_products :=
  repeat match goal with
         | |- context [F64.round (0 * ?c)] => rewrite (round_0 (0 * c)) by ring
         end.

(** The figures of the estimate for a positive, a negative and a zero base
    price. *)
Lemma estimate_bounds (basePrice : Q) (includeAllFees : bool) :
  let i := SearchService.estimateInternational basePrice includeAllFees in
  let pool := if includeAllFees then basePrice * (17 # 100) else 0 in
  upToRounding (cost (shipping i)) (basePrice * (10 # 100))
  /\ upToRounding (import_duty (fees i)) ((30 # 100) * pool)
  /\ upToRounding (vat (fees i)) ((70 # 100) * pool)
  /\ upToRounding (import_duty (fees i) + vat (fees i)) pool
  /\ upToRounding (total_landed_cost i) (basePrice + basePrice * (10 # 100) + pool).
Proof.
  unfold SearchService.estimateInternational.
  cbn [cost shipping import_duty vat fees total_landed_cost].
  destruct estimate_literals as (L10 & L17 & L3 & L7).
  rewrite L10, L17, L3, L7. clear L10 L17 L3 L7.
  unfold F64.add, F64.mul.
  destruct (Q_dec basePrice 0) as [[Hb|Hb]|Hb]; destruct includeAllFees.
  - bound_round (basePrice * (3602879701896397 # 36028797018963968)) as s.
    bound_round (basePrice * (6124895493223875 # 36028797018963968)) as p.
    bound_round (p * (5404319552844595 # 18014398509481984)) as duty.
    bound_round (p * (3152519739159347 # 4503599627370496)) as v.
    bound_round (basePrice + s) as t.
    bound_round (t + p) as total.
    unfold F64.u in *.
    repeat split; apply upToRounding_nonpos; unfold tolerance; lra.
  - bound_round (basePrice * (3602879701896397 # 36028797018963968)) as s.
    zero_products.
    bound_round (basePrice + s) as t.
    assert (F64.round (t + 0) = F64.round t) as E by (apply round_comp; ring).
    rewrite E. clear E.
    bound_round t as total.
    unfold F64.u in *.
    repeat split; apply upToRounding_nonpos; unfold tolerance; lra.
  - bound_round (basePrice * (3602879701896397 # 36028797018963968)) as s.
    bound_round (basePrice * (6124895493223875 # 36028797018963968)) as p.
    bound_round (p * (5404319552844595 # 18014398509481984)) as duty.
    bound_round (p * (3152519739159347 # 4503599627370496)) as v.
    bound_round (basePrice + s) as t.
    bound_round (t + p) as total.
    unfold F64.u in *.
    repeat split; apply upToRounding_nonneg; unfold tolerance; lra.
  - bound_round (basePrice * (3602879701896397 # 36028797018963968)) as s.
    zero_products.
    bound_round (basePrice + s) as t.
    assert (F64.round (t + 0) = F64.round t) as E by (apply round_comp; ring).
    rewrite E. clear E.
    bound_round t as total.
    unfold F64.u in *.
    repeat split; apply upToRounding_nonneg; unfold tolerance; lra.
  - rewrite (round_0 (basePrice * _)) by (rewrite Hb; ring).
    rewrite (round_0 (basePrice * _)) by (rewrite Hb; ring).
    zero_products.
    rewrite (round_0 (basePrice + 0)) by (rewrite Hb; ring).
    rewrite (round_0 (0 + 0)) by ring.
    repeat split; apply upToRounding_nonneg; unfold tolerance; lra.
  - rewrite (round_0 (basePrice * _)) by (rewrite Hb; ring).
    zero_products.
    rewrite (round_0 (basePrice + 0)) by (rewrite Hb; ring).
    rewrite (round_0 (0 + 0)) by ring.
    repeat split; apply upToRounding_nonneg; unfold tolerance; lra.
Qed.

(** C3, counterexample.  A listing priced 100, fees included: the pool is
    17, but import duty and VAT are the binary64 products 17 * 0.3 and
    17 * 0.7, printed 5.1 and 11.899999999999999; VAT is not 70% of the
    pool and the two do not add up to it. *)
Lemma calculateTotalCost_estimate_rounds :
  exists i : InternationalPricing,
    international (pricing (SearchService.calculateTotalCost Sample.plain100 IL true))
    = Some i
    /\ vat (fees i) == 1674776111428403 # 140737488355328
    /\ ~ vat (fees i) == (70 # 100) * (100 * (17 # 100))
    /\ ~ import_duty (fees i) + vat (fees i) == 100 * (17 # 100).
Proof.
  eexists. split; [reflexivity|].
  split; [vm_compute; reflexivity|].
  split; intros H; vm_compute in H; discriminate H.
Qed.

(** C3, as amended.  For a listing without a landed cost (no international
    breakdown, or one whose total is 0) the calculation attaches a
    breakdown whose figures are binary64 products and sums,
    each equal to the stated fraction up to a relative rounding error of
    2^-50: shipping cost 10% of the base price; import duty and VAT 30% and
    70% of a pool which is 17% of the base price when fees are included and
    0 otherwise (both are then exactly 0); total landed cost = base price +
    shipping + pool.  A base price of 100 with fees gives shipping 10 and a
    total of 127 exactly.  Standard delivery is 14 days and the three risk
    flags are set. *)
Theorem calculateTotalCost_estimate :
  forall (product : Product) (userCountry : Country) (includeAllFees : bool),
    withoutLandedCost product ->
    let basePrice := amount (base (pricing product)) in
    let pool := if includeAllFees then basePrice * (17 # 100) else 0 in
    exists i : InternationalPricing,
      international
        (pricing (SearchService.calculateTotalCost product userCountry includeAllFees))
      = Some i
      /\ upToRounding (cost (shipping i)) (basePrice * (10 # 100))
      /\ upToRounding (import_duty (fees i)) ((30 # 100) * pool)
      /\ upToRounding (vat (fees i)) ((70 # 100) * pool)
      /\ upToRounding (import_duty (fees i) + vat (fees i)) pool
      /\ upToRounding (total_landed_cost i) (basePrice + basePrice * (10 # 100) + pool)
      /\ (includeAllFees = false ->
          import_duty (fees i) == 0 /\ vat (fees i) == 0)
      /\ (basePrice == 100 -> includeAllFees = true ->
          cost (shipping i) == 10 /\ total_landed_cost i == 127)
      /\ standard (estimated_days (shipping i)) == 14
      /\ customs_delay (risks i) = true
      /\ warranty_void (risks i) = true
      /\ return_difficult (risks i) = true.
Proof.
  intros product userCountry includeAllFees Hnone basePrice pool.
  eexists. split.
  - apply calculateTotalCost_estimates.
    unfold SearchService.hasLandedCost. unfold withoutLandedCost in Hnone.
    destruct (international (pricing product)); [|reflexivity].
    now apply truthy_false_iff.
  - fold basePrice.
    destruct (estimate_bounds basePrice includeAllFees) as (H1 & H2 & H3 & H4 & H5).
    cbv zeta in H1, H2, H3, H4, H5. fold pool in H2, H3, H4, H5.
    split; [exact H1|]. split; [exact H2|]. split; [exact H3|].
    split; [exact H4|]. split; [exact H5|].
    split; [|split; [|repeat split]].
    + intros ->. split; reflexivity.
    + intros Hb ->.
      unfold SearchService.estimateInternational, F64.add, F64.mul.
      cbn [cost shipping total_landed_cost].
      rewrite (round_comp (basePrice * F64.lit (1 # 10)) (100 * F64.lit (1 # 10)))
        by (rewrite Hb; reflexivity).
      rewrite (round_comp (basePrice * F64.lit (17 # 100)) (100 * F64.lit (17 # 100)))
        by (rewrite Hb; reflexivity).
      rewrite (round_comp (basePrice + _) (100 + F64.round (100 * F64.lit (1 # 10))))
        by (rewrite Hb; reflexivity).
      split; vm_compute; reflexivity.
Qed.

Lemma calculateTotalCost_estimate_witness :
  exists i : InternationalPricing,
    international (pricing (SearchService.calculateTotalCost Sample.plain100 IL true))
    = Some i
    /\ upToRounding (vat (fees i)) ((70 # 100) * (100 * (17 # 100)))
    /\ total_landed_cost i == 127.
Proof.
  destruct (calculateTotalCost_estimate Sample.plain100 IL true I)
    as (i & Hi & _ & _ & Hvat & _ & _ & _ & H127 & _).
  exists i. split; [exact Hi|]. split; [exact Hvat|].
  apply H127; reflexivity.
Defined.

(** C4, counterexample.  A listing whose attached total_landed_cost is 0
    is not returned as it is: the breakdown is replaced by the estimate
    (the risk flags, for one, change). *)
Lemma calculateTotalCost_zero_total_recomputed :
  landedCostOf Sample.zeroTotal = Some 0
  /\ SearchService.calculateTotalCost Sample.zeroTotal IL true <> Sample.zeroTotal.
Proof.
  split; [reflexivity|].
  intros H.
  apply (f_equal (fun p => option_map (fun i => customs_delay (risks i))
                                      (international (pricing p)))) in H.
  discriminate H.
Qed.

(** C4, as amended.  A listing whose attached total_landed_cost is set to
    a non-zero value is returned unchanged, whatever the destination
    country and the fee flag. *)
Theorem calculateTotalCost_keeps_attached_cost :
  forall (product : Product) (i : InternationalPricing) (userCountry : Country)
         (includeAllFees : bool),
    international (pricing product) = Some i ->
    ~ total_landed_cost i == 0 ->
    SearchService.calculateTotalCost product userCountry includeAllFees = product.
Proof.
  intros product i userCountry includeAllFees Hi Hnz.
  unfold SearchService.calculateTotalCost, SearchService.hasLandedCost.
  rewrite Hi. apply truthy_true_iff in Hnz. now rewrite Hnz.
Qed.

Lemma calculateTotalCost_keeps_attached_cost_witness :
  SearchService.calculateTotalCost Sample.cheaperTotal US false = Sample.cheaperTotal.
Proof.
  apply (calculateTotalCost_keeps_attached_cost Sample.cheaperTotal
           (Sample.breakdown 10 127) US false).
  - reflexivity.
  - intros H. discriminate H.
Defined.

(** With a non-negative base price the estimated total without fees is at
    least the base price and at most the estimated total with fees. *)
Lemma estimate_ordered (basePrice : Q) :
  0 <= basePrice ->
  total_landed_cost (SearchService.estimateInternational basePrice false)
  <= total_landed_cost (SearchService.estimateInternational basePrice true)
  /\ basePrice
     <= total_landed_cost (SearchService.estimateInternational basePrice false).
Proof.
  intros Hbase. unfold SearchService.estimateInternational.
  cbn [total_landed_cost].
  destruct estimate_literals as (L10 & L17 & _ & _).
  rewrite L10, L17. clear L10 L17.
  unfold F64.add, F64.mul.
  apply Qle_lteq in Hbase. destruct Hbase as [Hb|Hb].
  - bound_round (basePrice * (3602879701896397 # 36028797018963968)) as s.
    bound_round (basePrice * (6124895493223875 # 36028797018963968)) as p.
    bound_round (basePrice + s) as t.
    assert (F64.round (t + 0) = F64.round t) as E by (apply round_comp; ring).
    rewrite E. clear E.
    bound_round t as without.
    bound_round (t + p) as total.
    unfold F64.u in *. split; lra.
  - rewrite !(round_0 (basePrice * _)) by (rewrite <- Hb; ring).
    rewrite (round_0 (basePrice + 0)) by (rewrite <- Hb; ring).
    rewrite (round_0 (0 + 0)) by ring. split; lra.
Qed.

(** C8, counterexample.  A listing priced 373 that already carries a total
    of 127 keeps it: the total is below the base amount. *)
Lemma calculateTotalCost_below_base :
  0 <= amount (base (pricing Sample.cheaperTotal))
  /\ landedCostOf (SearchService.calculateTotalCost Sample.cheaperTotal IL false)
     = Some 127
  /\ ~ amount (base (pricing Sample.cheaperTotal)) <= 127.
Proof.
  repeat split; try reflexivity; try discriminate.
  intros H. apply H. reflexivity.
Qed.

(** C8, as amended.  For every listing with a non-negative base amount and
    every destination country, the total with fees is at least the total
    without fees; the total without fees is at least the base amount
    whenever the listing carries no breakdown of its own or one whose total
    is already at least the base amount. *)
Theorem calculateTotalCost_monotone :
  forall (product : Product) (userCountry : Country),
    0 <= amount (base (pricing product)) ->
    exists withFees withoutFees : Q,
      landedCostOf (SearchService.calculateTotalCost product userCountry true)
      = Some withFees
      /\ landedCostOf (SearchService.calculateTotalCost product userCountry false)
         = Some withoutFees
      /\ withoutFees <= withFees
      /\ (breakdownCoversBase product ->
          amount (base (pricing product)) <= withoutFees).
Proof.
  intros product userCountry Hbase.
  destruct (SearchService.hasLandedCost product) eqn:Hhas.
  - unfold SearchService.calculateTotalCost. rewrite Hhas.
    unfold SearchService.hasLandedCost in Hhas.
    unfold landedCostOf, breakdownCoversBase.
    destruct (international (pricing product)) as [i|]; [|discriminate].
    exists (total_landed_cost i), (total_landed_cost i).
    repeat split; try reflexivity; [lra | auto].
  - unfold landedCostOf.
    rewrite !calculateTotalCost_estimates by assumption.
    destruct (estimate_ordered (amount (base (pricing product))) Hbase) as [H1 H2].
    eexists; eexists. repeat split; cbn [option_map]; [exact H1 | intros _; exact H2].
Qed.

Lemma calculateTotalCost_monotone_witness :
  exists withFees withoutFees : Q,
    landedCostOf (SearchService.calculateTotalCost Sample.plain100 IL true)
    = Some withFees
    /\ landedCostOf (SearchService.calculateTotalCost Sample.plain100 IL false)
       = Some withoutFees
    /\ withoutFees <= withFees
    /\ 100 <= withoutFees.
Proof.
  assert (0 <= amount (base (pricing Sample.plain100))) as Hbase by discriminate.
  destruct (calculateTotalCost_monotone Sample.plain100 IL Hbase)
    as (t & f & Ht & Hf & Hle & Hcov).
  exists t, f. repeat split; try assumption.
  apply Hcov. exact I.
Defined.

(* ------------------------------------------------------------------ *)
(** *** Smart-deal detection *)
(* ------------------------------------------------------------------ *)

(** The scan of [reduce] ends on an alternative of least cost. *)
Lemma reduce1_cheaper_min (rest : list Product) (first : Product) :
  let c := JS.reduce1 MockDataService.cheaper first rest in
  In c (first :: rest)
  /\ forall a, In a (first :: rest) ->
               MockDataService.landedOrBase c <= MockDataService.landedOrBase a.
Proof.
  unfold JS.reduce1. revert first.
  induction rest as [|x rest IH]; intros first; simpl.
  - split; [now left|]. intros a [<-|[]]. lra.
  - destruct (IH (MockDataService.cheaper first x)) as [Hin Hmin].
    set (c := fold_left MockDataService.cheaper rest
                        (MockDataService.cheaper first x)) in *.
    assert (MockDataService.landedOrBase (MockDataService.cheaper first x)
            <= MockDataService.landedOrBase first
            /\ MockDataService.landedOrBase (MockDataService.cheaper first x)
               <= MockDataService.landedOrBase x
            /\ (MockDataService.cheaper first x = first
                \/ MockDataService.cheaper first x = x)) as (H1 & H2 & H3).
    { unfold MockDataService.cheaper.
      destruct (JS.Qltb (MockDataService.landedOrBase x)
                        (MockDataService.landedOrBase first)) eqn:E.
      - apply Qltb_true_iff in E. repeat split; try lra. now right.
      - apply Qltb_false_iff in E. repeat split; try lra. now left. }
    pose proof (Hmin _ (or_introl eq_refl)) as Hc.
    split.
    + destruct Hin as [Hin|Hin].
      * destruct H3 as [H3|H3]; rewrite H3 in Hin; [now left | right; now left].
      * right; now right.
    + intros a [<-|[<-|Ha]]; try lra.
      apply Hmin. now right.
Qed.

Lemma landedOrBase_landedTotal (p : Product) :
  MockDataService.landedOrBase p = landedTotal p.
Proof.
  unfold MockDataService.landedOrBase, landedTotal, JS.or_else, JS.truthy.
  destruct (international (pricing p)) as [i|]; [|reflexivity].
  cbn [option_map]. now destruct (Qeq_bool (total_landed_cost i) 0).
Qed.

Lemma localPriceOf_localPrice (p : Product) :
  MockDataService.localPriceOf p = localPrice p.
Proof.
  unfold MockDataService.localPriceOf, localPrice, JS.or_else, JS.truthy.
  destruct (local_total (pricing p)) as [t|]; [|reflexivity].
  now destruct (Qeq_bool t 0).
Qed.

(** The alternatives the detector scans are the stored in-stock listings of
    global shops in the group of the local listing. *)
Lemma globalAlternativesOf_In (products : list Product) (bestLocal p : Product) :
  In p (MockDataService.globalAlternativesOf products bestLocal)
  <-> In p products /\ alternativeTo bestLocal p.
Proof.
  unfold MockDataService.globalAlternativesOf, MockDataService.getAllProducts,
    alternativeTo.
  rewrite filter_In, !andb_true_iff, String.eqb_eq.
  split; intros (Hin & H); (split; [exact Hin|]).
  - destruct H as ((Ht & Hg) & Ha). repeat split; try assumption.
    + destruct (shop_type (shop_info p)); [discriminate | reflexivity].
    + destruct (availability p); try discriminate; reflexivity.
  - destruct H as (Ht & Hg & Ha). rewrite Ht, Ha. repeat split. exact Hg.
Qed.

(** Three roundings in a row stay within the tolerance. *)
Lemma three_roundings (r y q p : Q) :
  Qabs (y - r) <= F64.u * Qabs r ->
  Qabs (q - y) <= F64.u * Qabs y ->
  Qabs (p - q * 100) <= F64.u * Qabs (q * 100) ->
  upToRounding p (r * 100).
Proof.
  unfold F64.u. intros H1 H2 H3.
  destruct (Q_dec r 0) as [[Hr|Hr]|Hr].
  - rewrite (Qabs_neg r) in H1 by lra.
    apply Qabs_Qle_condition in H1.
    rewrite (Qabs_neg y) in H2 by lra.
    apply Qabs_Qle_condition in H2.
    rewrite (Qabs_neg (q * 100)) in H3 by lra.
    apply Qabs_Qle_condition in H3.
    apply upToRounding_nonpos; unfold tolerance; lra.
  - rewrite (Qabs_pos r) in H1 by lra.
    apply Qabs_Qle_condition in H1.
    rewrite (Qabs_pos y) in H2 by lra.
    apply Qabs_Qle_condition in H2.
    rewrite (Qabs_pos (q * 100)) in H3 by lra.
    apply Qabs_Qle_condition in H3.
    apply upToRounding_nonneg; unfold tolerance; lra.
  - rewrite (Qabs_pos r) in H1 by lra.
    apply Qabs_Qle_condition in H1.
    assert (y == 0) as Hy by lra.
    rewrite (Qabs_pos y) in H2 by lra.
    apply Qabs_Qle_condition in H2.
    assert (q == 0) as Hq by lra.
    rewrite (Qabs_pos (q * 100)) in H3 by lra.
    apply Qabs_Qle_condition in H3.
    apply upToRounding_nonneg; unfold tolerance; lra.
Qed.

(** A relative error carries over to a quotient by a non-zero number. *)
Lemma ratio_error (d D m : Q) :
  ~ m == 0 ->
  Qabs (d - D) <= F64.u * Qabs D ->
  Qabs (d / m - D / m) <= F64.u * Qabs (D / m).
Proof.
  intros Hnz H.
  assert (d / m - D / m == (d - D) * / m) as E by (field; exact Hnz).
  rewrite E. unfold Qdiv. rewrite !Qabs_Qmult.
  rewrite Qmult_assoc.
  apply Qmult_le_compat_r; [exact H | apply Qabs_nonneg].
Qed.

(** The rounded difference, divided by a non-zero price, is the exact
    ratio up to the unit roundoff. *)
Lemma rounded_difference_ratio (localPrice globalPrice : Q) :
  ~ localPrice == 0 ->
  Qabs (F64.sub localPrice globalPrice / localPrice
        - (localPrice - globalPrice) / localPrice)
  <= F64.u * Qabs ((localPrice - globalPrice) / localPrice).
Proof.
  intros Hnz. apply ratio_error; [exact Hnz|]. apply round_error.
Qed.

(** The percentage the detector computes for a non-zero local price is a
    finite number, the exact savings percent up to rounding. *)
Lemma computed_percent (localPrice globalPrice : Q) :
  ~ localPrice == 0 ->
  exists p : Q,
    F64.mulN (F64.div (F64.sub localPrice globalPrice) localPrice) 100 = JS.Fin p
    /\ upToRounding p (savingsPercent localPrice globalPrice).
Proof.
  intros Hnz. unfold F64.div.
  destruct (Qeq_bool localPrice 0) eqn:E.
  { apply Qeq_bool_iff in E. contradiction. }
  cbn [F64.mulN]. eexists. split; [reflexivity|].
  unfold savingsPercent, F64.mul.
  eapply three_roundings.
  - apply rounded_difference_ratio. exact Hnz.
  - apply round_error.
  - apply round_error.
Qed.

(** Equal prices give the same computed percentage. *)
Lemma computed_percent_comp (l l' g g' : Q) :
  l == l' -> g == g' ->
  F64.mulN (F64.div (F64.sub l g) l) 100
  = F64.mulN (F64.div (F64.sub l' g') l') 100.
Proof.
  intros Hl Hg. unfold F64.div, F64.quotient, F64.sub.
  assert (F64.round (l - g) = F64.round (l' - g')) as E
    by (apply round_comp; rewrite Hl, Hg; reflexivity).
  rewrite E.
  rewrite (Qeqb_comp l l' Hl 0 0 (Qeq_refl 0)).
  destruct (Qeq_bool l' 0); [reflexivity|].
  cbn [F64.mulN]. unfold F64.mul. f_equal.
  apply round_comp.
  rewrite (round_comp (F64.round (l' - g') / l) (F64.round (l' - g') / l'))
    by (rewrite Hl; reflexivity).
  reflexivity.
Qed.

(** What the detector does once its scan has found the alternatives. *)
Lemma findSmartDeal_steps (numberToString : Q -> string) (products : list Product)
    (query : string) (bestLocal first : Product) (rest : list Product) :
  MockDataService.globalAlternativesOf products bestLocal = first :: rest ->
  let cheapestGlobal := JS.reduce1 MockDataService.cheaper first rest in
  let localPrice := MockDataService.localPriceOf bestLocal in
  let globalPrice := MockDataService.landedOrBase cheapestGlobal in
  let savingsPercent :=
    F64.mulN (F64.div (F64.sub localPrice globalPrice) localPrice) 100 in
  let detect :=
    MockDataService.findSmartDeal numberToString products query (Some bestLocal) in
  (JS.ltb savingsPercent 10 = true -> detect = None)
  /\ (JS.ltb savingsPercent 10 = false ->
      exists deal summary,
        detect = Some deal
        /\ deal_available deal = true
        /\ deal_summary deal = Some summary
        /\ savings_percent summary = savingsPercent
        /\ best_local summary = localPrice
        /\ best_international summary = globalPrice
        /\ savings summary = F64.sub localPrice globalPrice
        /\ deal_message deal
           = Some ("Save " ++ JS.toFixed0 numberToString savingsPercent
                   ++ "% by ordering from "
                   ++ shop_name (shop_info cheapestGlobal))%string
        /\ deal_product deal = Some cheapestGlobal).
Proof.
  intros Halt cheapestGlobal localPrice globalPrice savingsPercent detect.
  unfold detect, MockDataService.findSmartDeal. rewrite Halt.
  fold cheapestGlobal localPrice globalPrice. fold savingsPercent.
  split; intros H; rewrite H; [reflexivity|].
  eexists; eexists. repeat split.
Qed.

(** The detector, read through the stored listings: the alternative it
    settles on is a stored alternative of least landed total. *)
Lemma findSmartDeal_scan (products : list Product) (bestLocal cheapest : Product) :
  In cheapest products ->
  alternativeTo bestLocal cheapest ->
  (forall p, In p products -> alternativeTo bestLocal p ->
             landedTotal cheapest <= landedTotal p) ->
  exists (first : Product) (rest : list Product),
    MockDataService.globalAlternativesOf products bestLocal = first :: rest
    /\ let chosen := JS.reduce1 MockDataService.cheaper first rest in
       In chosen products
       /\ alternativeTo bestLocal chosen
       /\ landedTotal chosen == landedTotal cheapest.
Proof.
  intros Hin Halt Hmin.
  assert (In cheapest (MockDataService.globalAlternativesOf products bestLocal))
    as Hc by (apply globalAlternativesOf_In; split; assumption).
  destruct (MockDataService.globalAlternativesOf products bestLocal)
    as [|first rest] eqn:E; [destruct Hc|].
  exists first, rest. split; [reflexivity|].
  destruct (reduce1_cheaper_min rest first) as [Hchosen Hleast].
  cbv zeta in Hchosen, Hleast |- *.
  set (chosen := JS.reduce1 MockDataService.cheaper first rest) in *.
  pose proof (Hleast cheapest Hc) as Hle.
  rewrite <- E in Hchosen.
  apply globalAlternativesOf_In in Hchosen. destruct Hchosen as [H1 H2].
  split; [exact H1|]. split; [exact H2|].
  rewrite !landedOrBase_landedTotal in Hle.
  pose proof (Hmin chosen H1 H2). lra.
Qed.

(** C2, counterexample.  A local price of 6.3 against an alternative at
    5.67 (the binary64 numbers of these decimals): the savings percent of
    the two numbers is below 10, yet the division and the multiplication
    round it to 10 and a deal with savings_percent 10 is returned. *)
Lemma findSmartDeal_rounds_up_to_threshold :
  alternativeTo Sample4.tea63 Sample4.tea567
  /\ savingsPercent (localPrice Sample4.tea63) (landedTotal Sample4.tea567) < 10
  /\ exists deal summary,
       MockDataService.findSmartDeal Sample.decimalToString
         [Sample4.tea63; Sample4.tea567] "tea" (Some Sample4.tea63) = Some deal
       /\ deal_available deal = true
       /\ deal_summary deal = Some summary
       /\ savings_percent summary = JS.Fin 10.
Proof.
  split; [repeat split|].
  split; [vm_compute; reflexivity|].
  eexists; eexists. split; [vm_compute; reflexivity|].
  repeat split.
Qed.

(** C2, as amended.  For the detector of the mock provider
    ([findSmartDeal]): when the best local listing has a non-zero local
    price and stored in-stock alternatives of global shops in its product
    group, the cheapest of which has landed total G, the detector computes
    the savings percent ((local - G) / local * 100) in binary64 arithmetic.
    It returns nothing when the exact savings percent times (1 + 2^-50) is
    below 10, and a deal when the exact savings percent times (1 - 2^-50) is
    at least 10.  A returned deal is available, names a stored alternative
    of landed total G, and carries a savings_percent that is at least 10 and
    equal to the exact savings percent up to a relative error of 2^-50.  A
    local price of 100 against 95 gives no deal; against 85 it gives a deal
    with savings_percent 15. *)
Theorem findSmartDeal_threshold :
  forall (numberToString : Q -> string) (products : list Product) (query : string)
         (bestLocal cheapest : Product),
    In cheapest products ->
    alternativeTo bestLocal cheapest ->
    (forall p, In p products -> alternativeTo bestLocal p ->
               landedTotal cheapest <= landedTotal p) ->
    ~ localPrice bestLocal == 0 ->
    let percent := savingsPercent (localPrice bestLocal) (landedTotal cheapest) in
    let detect :=
      MockDataService.findSmartDeal numberToString products query (Some bestLocal) in
    (percent * (1 + tolerance) < 10 -> detect = None)
    /\ (10 <= percent * (1 - tolerance) -> exists deal, detect = Some deal)
    /\ (forall deal, detect = Some deal ->
        exists (summary : SmartDealSummary) (chosen : Product) (p : Q),
          deal_available deal = true
          /\ deal_product deal = Some chosen
          /\ In chosen products
          /\ alternativeTo bestLocal chosen
          /\ landedTotal chosen == landedTotal cheapest
          /\ deal_summary deal = Some summary
          /\ best_local summary = localPrice bestLocal
          /\ best_international summary = landedTotal chosen
          /\ savings_percent summary = JS.Fin p
          /\ 10 <= p
          /\ upToRounding p percent)
    /\ (localPrice bestLocal == 100 -> landedTotal cheapest == 95 -> detect = None)
    /\ (localPrice bestLocal == 100 -> landedTotal cheapest == 85 ->
        exists deal summary,
          detect = Some deal
          /\ deal_available deal = true
          /\ deal_summary deal = Some summary
          /\ savings_percent summary = JS.Fin 15).
Proof.
  intros nts products query bestLocal cheapest Hin Halt Hmin Hnz percent detect.
  destruct (findSmartDeal_scan products bestLocal cheapest Hin Halt Hmin)
    as (first & rest & Hscan & Hchosen & Hchosen' & Hcost).
  set (chosen := JS.reduce1 MockDataService.cheaper first rest) in *.
  destruct (findSmartDeal_steps nts products query bestLocal first rest Hscan)
    as [Hbelow Hdeal].
  cbv zeta in Hbelow, Hdeal. fold chosen detect in Hbelow, Hdeal.
  rewrite localPriceOf_localPrice, landedOrBase_landedTotal in Hbelow, Hdeal.
  rewrite (computed_percent_comp _ (localPrice bestLocal) _ (landedTotal cheapest)
             (Qeq_refl _) Hcost) in Hbelow, Hdeal.
  destruct (computed_percent (localPrice bestLocal) (landedTotal cheapest) Hnz)
    as (p & Hp & Hclose).
  fold percent in Hclose. rewrite Hp in Hbelow, Hdeal.
  cbn [JS.ltb] in Hbelow, Hdeal.
  assert (percent * (1 + tolerance) < 10 -> p < 10) as Hlt.
  { intros H. unfold upToRounding, tolerance in *.
    destruct (Qlt_le_dec percent 0) as [Hs|Hs];
      [rewrite (Qabs_neg percent) in Hclose by lra
      |rewrite (Qabs_pos percent) in Hclose by lra];
      apply Qabs_Qle_condition in Hclose; lra. }
  assert (10 <= percent * (1 - tolerance) -> 10 <= p) as Hge.
  { intros H. unfold upToRounding, tolerance in *.
    destruct (Qlt_le_dec percent 0) as [Hs|Hs];
      [rewrite (Qabs_neg percent) in Hclose by lra
      |rewrite (Qabs_pos percent) in Hclose by lra];
      apply Qabs_Qle_condition in Hclose; lra. }
  split; [|split; [|split; [|split]]].
  - intros H. apply Hbelow, Qltb_true_iff, Hlt, H.
  - intros H. destruct Hdeal as (deal & _ & Hd & _).
    { apply Qltb_false_iff, Hge, H. }
    exists deal. exact Hd.
  - intros deal Hd.
    destruct (JS.Qltb p 10) eqn:E.
    { rewrite Hbelow in Hd by reflexivity. discriminate. }
    destruct Hdeal as (deal' & summary & Hd' & Hav & Hsum & Hpct & Hbl & Hbi & _ & _ & Hprod);
      [reflexivity|].
    rewrite Hd' in Hd. injection Hd as <-.
    exists summary, chosen, p.
    apply Qltb_false_iff in E.
    repeat split; try assumption; apply Hchosen'.
  - intros Hl Hg. apply Hbelow.
    assert (JS.Fin p = JS.Fin 5) as E.
    { rewrite <- Hp.
      rewrite (computed_percent_comp _ 100 _ 95 Hl Hg). vm_compute. reflexivity. }
    injection E as ->. reflexivity.
  - intros Hl Hg.
    assert (JS.Fin p = JS.Fin 15) as E.
    { rewrite <- Hp.
      rewrite (computed_percent_comp _ 100 _ 85 Hl Hg). vm_compute. reflexivity. }
    injection E as ->.
    destruct Hdeal as (deal & summary & Hd & Hav & Hsum & Hpct & _); [reflexivity|].
    exists deal, summary. repeat split; assumption.
Qed.

Lemma findSmartDeal_threshold_witness :
  exists deal summary,
    MockDataService.findSmartDeal Sample.decimalToString Sample.catalogue
      "phone" (Some Sample.localPhone) = Some deal
    /\ deal_available deal = true
    /\ deal_summary deal = Some summary
    /\ savings_percent summary = JS.Fin 15.
Proof.
  assert (forall p, In p Sample.catalogue -> alternativeTo Sample.localPhone p ->
                    landedTotal Sample.globalPhone85 <= landedTotal p) as Hmin.
  { intros p [<-|[<-|[<-|[<-|[]]]]] (Ht & Hg & _);
      try discriminate Ht; try discriminate Hg; vm_compute; discriminate. }
  assert (~ localPrice Sample.localPhone == 0) as Hnz by discriminate.
  destruct (findSmartDeal_threshold Sample.decimalToString Sample.catalogue
              "phone" Sample.localPhone Sample.globalPhone85
              (or_intror (or_intror (or_introl eq_refl)))
              (conj eq_refl (conj eq_refl eq_refl)) Hmin Hnz)
    as (_ & _ & _ & _ & H85).
  apply H85; reflexivity.
Defined.

(* ------------------------------------------------------------------ *)
(** *** The mock provider's searches *)
(* ------------------------------------------------------------------ *)

Lemma In_insertBy {A : Type} (cmp : A -> A -> Q) (x a : A) (l : list A) :
  In a (JS.insertBy cmp x l) -> a = x \/ In a l.
Proof.
  induction l as [|y l IH]; simpl.
  - intros [<-|[]]. now left.
  - destruct (JS.Qltb 0 (cmp x y)); simpl.
    + intros [<-|H]; [right; now left|].
      destruct (IH H) as [->|H']; [now left | right; now right].
    + intros [<-|H]; [now left | now right].
Qed.

Lemma In_sortBy {A : Type} (cmp : A -> A -> Q) (a : A) (l : list A) :
  In a (JS.sortBy cmp l) -> In a l.
Proof.
  induction l as [|x l IH]; simpl; [tauto|].
  intros H. apply In_insertBy in H. destruct H as [->|H]; [now left|].
  right. now apply IH.
Qed.

Lemma In_firstn {A : Type} (n : nat) (a : A) (l : list A) :
  In a (firstn n l) -> In a l.
Proof.
  revert l. induction n as [|n IH]; intros [|x l]; simpl; try tauto.
  intros [<-|H]; [now left | right; now apply IH].
Qed.

Lemma In_skipn {A : Type} (n : nat) (a : A) (l : list A) :
  In a (skipn n l) -> In a l.
Proof.
  revert l. induction n as [|n IH]; intros [|x l]; simpl; try tauto.
  intros H. right. now apply IH.
Qed.

Lemma In_slice {A : Type} (a : A) (l : list A) (start stop : Z) :
  In a (JS.slice l start stop) -> In a l.
Proof.
  unfold JS.slice. intros H. apply In_firstn in H. now apply In_skipn in H.
Qed.

Lemma arrayIncludes_In (arr : list string) (x : string) :
  JS.arrayIncludes arr x = true -> In x arr.
Proof.
  unfold JS.arrayIncludes. rewrite existsb_exists.
  intros (y & Hy & E). apply String.eqb_eq in E. now subst.
Qed.

(** C10.  Every listing returned by the mock provider's global search is a
    listing of its store, of a global shop, whose [ships_to] contains the
    user's country. *)
Theorem searchGlobal_ships_to_user :
  forall (products : list Product) (query userCountry : string)
         (filters : option SearchFilters) (page perPage took : Z) (p : Product),
    In p (gr_results (MockDataService.searchGlobal products query userCountry
                        filters page perPage took)) ->
    In userCountry (ships_to (shop_info p))
    /\ shop_type (shop_info p) = GLOBAL
    /\ In p products.
Proof.
  intros products query userCountry filters page perPage took p H.
  unfold MockDataService.searchGlobal in H. cbn [gr_results] in H.
  apply In_slice, In_sortBy, filter_In in H.
  destruct H as [Hin Hkeep].
  destruct (ShopType_eqb (shop_type (shop_info p)) GLOBAL) eqn:Htype;
    [|discriminate].
  destruct (JS.arrayIncludes (ships_to (shop_info p)) userCountry) eqn:Hship;
    [|discriminate].
  repeat split.
  - now apply arrayIncludes_In.
  - destruct (shop_type (shop_info p)); [discriminate | reflexivity].
  - exact Hin.
Qed.

Lemma searchGlobal_ships_to_user_witness :
  In Sample.globalPhone85
     (gr_results (MockDataService.searchGlobal Sample.catalogue "phone" "IL"
                    None 1 10 0))
  /\ In "IL" (ships_to (shop_info Sample.globalPhone85)).
Proof.
  assert (In Sample.globalPhone85
            (gr_results (MockDataService.searchGlobal Sample.catalogue "phone" "IL"
                           None 1 10 0))) as Hin.
  { vm_compute. left. reflexivity. }
  split; [exact Hin|].
  exact (proj1 (searchGlobal_ships_to_user Sample.catalogue "phone" "IL"
                  None 1 10 0 Sample.globalPhone85 Hin)).
Defined.

(** On the index-backed path a request that does not ask for the
    international check gets no smart deal. *)
Lemma searchLocal_index_without_check (numberToString : Q -> string)
    (this : SearchService.Service) (request : LocalSearchRequest) (took : Z) :
  SearchService.useMockData this = false ->
  SearchService.orDefault (l_check_international request) false = false ->
  SearchService.smartDeal
    (SearchService.searchLocal numberToString this request took) = None.
Proof.
  intros Hmock Hcheck. unfold SearchService.searchLocal.
  rewrite Hmock, Hcheck.
  destruct (SearchService.queryIndexLocal numberToString this request);
    reflexivity.
Qed.

(** The mock path does not read [check_international] at all. *)
Lemma searchLocal_mock_same_for_any_check (numberToString : Q -> string)
    (this : SearchService.Service) (mock : list Product)
    (request : LocalSearchRequest) (check : option bool) (took : Z) :
  SearchService.useMockData this = true ->
  SearchService.mockDataService this = Some mock ->
  SearchService.searchLocal numberToString this
    {| l_query := l_query request; l_filters := l_filters request;
       l_sort_by := l_sort_by request; l_page := l_page request;
       l_per_page := l_per_page request; l_country := l_country request;
       l_check_international := check |} took
  = SearchService.searchLocal numberToString this request took.
Proof.
  intros Hmock Hsvc. unfold SearchService.searchLocal.
  now rewrite Hmock, Hsvc.
Qed.

(** C6, the failing input.  With the mock provider enabled, a local search
    for "phone" in IL with [check_international = false] still runs the
    detection and returns an available smart deal. *)
Theorem searchLocal_mock_deal_without_check :
  l_check_international (Sample.phoneBody (Some false)) = Some false
  /\ exists deal,
       SearchService.smartDeal
         (SearchService.searchLocal Sample.decimalToString Sample.mockService
            (Sample.phoneBody (Some false)) 0) = Some deal
       /\ deal_available deal = true
       /\ deal_product deal = Some Sample.globalPhone85.
Proof.
  split; [reflexivity|].
  eexists. split; [vm_compute; reflexivity|].
  split; reflexivity.
Qed.

(** The filter expressions of a global search are the same whatever the
    category and brand allow-lists; those of a local search name them. *)
Lemma buildGlobalFilters_ignores_categories_brands (numberToString : Q -> string)
    (f : SearchFilters) (c b : option (list string)) (minSellerRating : option Q) :
  SearchService.buildGlobalFilters numberToString
    (withArrays f (shops f) c b) minSellerRating
  = SearchService.buildGlobalFilters numberToString f minSellerRating.
Proof. reflexivity. Qed.

(** Two global requests that differ in those allow-lists only send the
    same query to the index. *)
Lemma queryIndexGlobal_ignores_categories_brands (numberToString : Q -> string)
    (this : SearchService.Service) (r : GlobalSearchRequest) (f : SearchFilters)
    (c b : option (list string)) :
  g_filters r = Some f ->
  SearchService.queryIndexGlobal numberToString this
    {| g_query := g_query r;
       g_filters := Some (withArrays f (shops f) c b);
       g_sort_by := g_sort_by r; g_page := g_page r;
       g_per_page := g_per_page r; g_user_country := g_user_country r;
       g_include_shipping := g_include_shipping r;
       g_include_all_fees := g_include_all_fees r;
       g_min_seller_rating := g_min_seller_rating r |}
  = SearchService.queryIndexGlobal numberToString this r.
Proof.
  intros Hf. unfold SearchService.queryIndexGlobal. cbn. now rewrite Hf.
Qed.

Lemma buildLocalFilters_names_categories :
  In ("(category = " ++ SearchService.quoted "phones" ++ ")")
     (SearchService.buildLocalFilters Sample.decimalToString Sample.onlyPhones IL).
Proof. vm_compute. tauto. Qed.

(** C7, the failing input.  With the mock provider enabled, a global search
    for "phone" restricted to the category "phones" returns a listing of
    category "laptops". *)
Theorem searchGlobal_returns_other_category :
  option_map categories (g_filters Sample.globalPhonesRequest)
  = Some (Some ["phones"])
  /\ In Sample.globalLaptop
        (SearchService.products
           (SearchService.searchGlobal Sample.decimalToString Sample.mockService
              Sample.globalPhonesRequest 0))
  /\ category Sample.globalLaptop = Some "laptops"
  /\ ~ allowedBy ["phones"] (category Sample.globalLaptop).
Proof.
  split; [reflexivity|].
  split; [vm_compute; tauto|].
  split; [reflexivity|].
  simpl. intros [H|[]]. discriminate H.
Qed.

(* ------------------------------------------------------------------ *)
(** *** The route handler and the cache *)
(* ------------------------------------------------------------------ *)

(** C1, counterexample.  The index rejects the query, the fallback result
    (no listing) is sent, and [cacheService.set] is called with it. *)
Lemma handler_sets_cache_on_fallback :
  SearchService.queryIndexLocal Sample.decimalToString Sample.indexDown
    (LocalRoute.afterKey
       (LocalRoute.searchRequestOf
          {| LocalRoute.query := "phone"; LocalRoute.filters := None;
             LocalRoute.sort_by := RELEVANCE; LocalRoute.page := 1;
             LocalRoute.per_page := 20; LocalRoute.country := IL;
             LocalRoute.check_international := false |})) = None
  /\ exists response,
       LocalRoute.handler Sample.decimalToString Sample.indexDown
         Sample.emptyCache (Sample.phoneBody None)
       = (LocalRoute.Send response,
          [LocalRoute.CacheGet "search:local:30003c4";
           LocalRoute.CacheSet "search:local:30003c4" response 300])
       /\ lr_results response = [].
Proof.
  split; [reflexivity|].
  eexists. split; [vm_compute; reflexivity | reflexivity].
Qed.

Lemma localSearchSchema_parse_inv (body : LocalSearchRequest)
    (vb : LocalRoute.LocalSearchBody) :
  LocalRoute.localSearchSchema_parse body = Some vb ->
  (0 < LocalRoute.page vb)%Z
  /\ (0 < LocalRoute.per_page vb <= 100)%Z
  /\ LocalRoute.query vb = l_query body
  /\ LocalRoute.filters vb = l_filters body
  /\ LocalRoute.country vb = l_country body
  /\ LocalRoute.page vb = SearchService.orDefault (l_page body) 1%Z
  /\ LocalRoute.per_page vb = SearchService.orDefault (l_per_page body) 20%Z
  /\ LocalRoute.sort_by vb = SearchService.orDefault (l_sort_by body) RELEVANCE.
Proof.
  unfold LocalRoute.localSearchSchema_parse.
  destruct (_ && _) eqn:E; [|discriminate].
  intros [= <-]. cbn.
  repeat (apply andb_true_iff in E; destruct E as [E ?]).
  repeat split; try reflexivity; lia.
Qed.

(** A page count computed with a positive page size is a finite number. *)
Lemma buildPagination_finite (page perPage totalResults : Z) :
  (0 < perPage)%Z ->
  LocalRoute.isNaN
    (total_pages (SearchService.buildPagination page perPage totalResults))
  = false.
Proof.
  intros Hp. unfold SearchService.buildPagination, JS.div.
  cbn [total_pages].
  assert (Qeq_bool (inject_Z perPage) 0 = false) as E.
  { destruct (Qeq_bool (inject_Z perPage) 0) eqn:E; [|reflexivity].
    apply Qeq_bool_iff in E. unfold Qeq in E. simpl in E. lia. }
  rewrite E. reflexivity.
Qed.

(** The fallback response of a valid request passes the serializer. *)
Lemma fallback_serializable (env : LocalRoute.Env)
    (validatedBody : LocalRoute.LocalSearchBody) :
  (0 < LocalRoute.per_page validatedBody)%Z ->
  LocalRoute.serializable
    (LocalRoute.responseOf env validatedBody
       (SearchService.fallbackSearchLocal
          (LocalRoute.afterKey (LocalRoute.searchRequestOf validatedBody))))
  = true.
Proof.
  intros Hp. unfold LocalRoute.serializable.
  cbn [LocalRoute.responseOf lr_pagination lr_smart_deal
       SearchService.fallbackSearchLocal SearchService.pagination
       SearchService.smartDeal LocalRoute.afterKey LocalRoute.searchRequestOf
       l_page l_per_page JS.or_elseZ].
  assert ((LocalRoute.per_page validatedBody =? 0)%Z = false) as E by lia.
  rewrite E, buildPagination_finite by exact Hp. reflexivity.
Qed.

(** C1, as amended.  For every valid local search request that misses the
    cache and whose search-index query fails, the handler sends the
    fallback result (no listing, zero total) and calls the cache exactly
    twice: one [get], then one [set] that stores the response it sends
    under the request's key with the configured TTL. *)
Theorem handler_caches_fallback_result :
  forall (numberToString : Q -> string) (searchService : SearchService.Service)
         (env : LocalRoute.Env) (body : LocalSearchRequest)
         (validatedBody : LocalRoute.LocalSearchBody),
    LocalRoute.localSearchSchema_parse body = Some validatedBody ->
    LocalRoute.cacheGet env (LocalRoute.cacheKeyOf numberToString validatedBody)
    = None ->
    SearchService.useMockData searchService = false ->
    SearchService.queryIndexLocal numberToString searchService
      (LocalRoute.afterKey (LocalRoute.searchRequestOf validatedBody)) = None ->
    let key := LocalRoute.cacheKeyOf numberToString validatedBody in
    let response :=
      LocalRoute.responseOf env validatedBody
        (SearchService.fallbackSearchLocal
           (LocalRoute.afterKey (LocalRoute.searchRequestOf validatedBody))) in
    LocalRoute.handler numberToString searchService env body
    = (LocalRoute.Send response,
       [LocalRoute.CacheGet key;
        LocalRoute.CacheSet key response (LocalRoute.cacheTTL_search env)])
    /\ lr_results response = []
    /\ total_results (lr_pagination response) = 0%Z
    /\ lr_smart_deal response = None.
Proof.
  intros nts svc env body vb Hparse Hmiss Hmock Hfail key response.
  destruct (localSearchSchema_parse_inv body vb Hparse) as (_ & Hper & _).
  split; [|repeat split].
  unfold LocalRoute.handler. rewrite Hparse, Hmiss.
  unfold SearchService.searchLocal. rewrite Hmock, Hfail.
  rewrite fallback_serializable by lia.
  reflexivity.
Qed.

Lemma handler_caches_fallback_result_witness :
  exists response,
    LocalRoute.handler Sample.decimalToString Sample.indexDown
      Sample.emptyCache (Sample.phoneBody None)
    = (LocalRoute.Send response,
       [LocalRoute.CacheGet "search:local:30003c4";
        LocalRoute.CacheSet "search:local:30003c4" response 300]).
Proof.
  eexists.
  exact (proj1 (handler_caches_fallback_result Sample.decimalToString
                  Sample.indexDown Sample.emptyCache (Sample.phoneBody None)
                  _ eq_refl eq_refl eq_refl eq_refl)).
Defined.

(* ------------------------------------------------------------------ *)
(** *** Rounding, minimum and maximum *)
(* ------------------------------------------------------------------ *)

Lemma Math_round_mono (x y : Q) :
  x <= y -> (JS.Math_round x <= JS.Math_round y)%Z.
Proof.
  intros H. unfold JS.Math_round. apply Qfloor_resp_le. lra.
Qed.

Lemma round_between (lo hi : Z) (x : Q) :
  inject_Z lo <= x <= inject_Z hi ->
  inject_Z lo <= JSMath.round x <= inject_Z hi.
Proof.
  intros [Hlo Hhi]. unfold JSMath.round, JS.Math_round.
  rewrite <- !Zle_Qle. split.
  - rewrite <- (Qfloor_Z lo). apply Qfloor_resp_le. lra.
  - assert (x + (1 # 2) < inject_Z (hi + 1)) as Hlt.
    { rewrite inject_Z_plus. change (inject_Z 1) with 1. lra. }
    pose proof (Qfloor_le (x + (1 # 2))) as Hfl.
    assert (inject_Z (Qfloor (x + (1 # 2))) < inject_Z (hi + 1)) as H by lra.
    rewrite <- Zlt_Qlt in H. lia.
Qed.

Lemma round2_mono (x y : Q) : x <= y -> JSMath.round2 x <= JSMath.round2 y.
Proof.
  intros H. unfold JSMath.round2.
  apply Qmult_le_compat_r; [|discriminate].
  rewrite <- Zle_Qle. apply Math_round_mono. lra.
Qed.

Lemma round2_bounds' (v : Q) :
  v - (1 # 200) <= JSMath.round2 v <= v + (1 # 200).
Proof. apply round2_bounds. Qed.

Lemma max_spec (a b : Q) :
  a <= JSMath.max a b /\ b <= JSMath.max a b
  /\ (JSMath.max a b = a \/ JSMath.max a b = b).
Proof.
  unfold JSMath.max. destruct (Qle_bool a b) eqn:E.
  - apply Qle_bool_iff in E. repeat split; try lra. now right.
  - assert (~ a <= b) as H by (intros H; apply Qle_bool_iff in H; congruence).
    repeat split; try lra. now left.
Qed.

Lemma min_spec (a b : Q) :
  JSMath.min a b <= a /\ JSMath.min a b <= b
  /\ (JSMath.min a b = a \/ JSMath.min a b = b).
Proof.
  unfold JSMath.min. destruct (Qle_bool a b) eqn:E.
  - apply Qle_bool_iff in E. repeat split; try lra. now left.
  - assert (~ a <= b) as H by (intros H; apply Qle_bool_iff in H; congruence).
    repeat split; try lra. now right.
Qed.

(** A ratio [s / o] of [0 <= s <= o], [0 < o], taken as a percentage. *)
Lemma percent_between (s o : Q) :
  0 < o -> 0 <= s <= o -> 0 <= s / o * 100 <= 100.
Proof.
  intros Ho [Hs Hso].
  assert (0 <= s / o) as H0.
  { apply Qle_shift_div_l; lra. }
  assert (s / o <= 1) as H1.
  { apply Qle_shift_div_r; lra. }
  lra.
Qed.

(* ------------------------------------------------------------------ *)
(** *** Currency and price utilities *)
(* ------------------------------------------------------------------ *)

(** X1.  A conversion is within half a cent of the amount times the
    exchange rate (the quotient of the two table entries), and between two
    different currencies its result is a whole number of cents. *)
Theorem convertCurrency_accuracy :
  forall (x : Q) (a b : Currency),
    Qabs (convertCurrency x a b - x * (EXCHANGE_RATES b / EXCHANGE_RATES a))
    <= 1 # 200
    /\ (a <> b -> exists n : Z, convertCurrency x a b == inject_Z n / 100).
Proof.
  intros x a b. split.
  - apply Qabs_Qle_condition.
    unfold convertCurrency.
    destruct a, b; cbn [Currency_eqb EXCHANGE_RATES];
      try (unfold Qdiv; cbn [Qinv Qnum Qden]; split; lra);
      match goal with
      | |- context [inject_Z (JS.Math_round (?v * 100)) / 100] =>
          pose proof (round2_bounds v);
          set (inject_Z (JS.Math_round (v * 100)) / 100) in *
      end;
      unfold Qdiv in *; cbn [Qinv Qnum Qden] in *; split; lra.
  - intros Hne. unfold convertCurrency.
    destruct a, b; try congruence; cbn [Currency_eqb];
      eexists; reflexivity.
Qed.

(** X2.  Conversion preserves the order of amounts. *)
Theorem convertCurrency_monotone :
  forall (x y : Q) (a b : Currency),
    x <= y -> convertCurrency x a b <= convertCurrency y a b.
Proof.
  intros x y a b Hxy. unfold convertCurrency.
  destruct (Currency_eqb a b); [exact Hxy|].
  apply round2_mono.
  assert (0 < EXCHANGE_RATES a) as Ha by (destruct a; reflexivity).
  assert (0 < EXCHANGE_RATES b) as Hb by (destruct b; reflexivity).
  apply Qmult_le_compat_r; [|lra].
  unfold Qdiv. apply Qmult_le_compat_r; [exact Hxy|].
  apply Qlt_le_weak, Qinv_lt_0_compat, Ha.
Qed.

Lemma convertCurrency_monotone_witness :
  convertCurrency 3 ILS GBP <= convertCurrency (7 # 2) ILS GBP.
Proof.
  apply (convertCurrency_monotone 3 (7 # 2) ILS GBP). discriminate.
Defined.

(** The product of a rate and the rate of the reverse direction need not
    be 1: from USD to GBP and back it is 0.9999999999999999. *)
Lemma getExchangeRate_not_inverse :
  F64.mul (getExchangeRate USD GBP) (getExchangeRate GBP USD)
  == 9007199254740991 # 9007199254740992.
Proof. vm_compute. reflexivity. Qed.

(** X3.  Exchange rates are positive binary64 quotients: each is the
    quotient of the two table entries up to rounding, the product of the
    rates along a chain of currencies is the direct rate up to rounding,
    and so is the product of a rate and its reverse with 1. *)
Theorem getExchangeRate_compose :
  forall a b c : Currency,
    0 < getExchangeRate a b
    /\ upToRounding (getExchangeRate a b) (EXCHANGE_RATES b / EXCHANGE_RATES a)
    /\ upToRounding (F64.mul (getExchangeRate a b) (getExchangeRate b c))
                    (getExchangeRate a c)
    /\ upToRounding (F64.mul (getExchangeRate a b) (getExchangeRate b a)) 1.
Proof.
  intros a b c. unfold upToRounding.
  destruct a, b, c; vm_compute; repeat split; discriminate.
Qed.

(** X4.  The savings percentage of a non-negative discounted price is a
    whole number between 0 and 100; it is 0 when the original price is not
    positive or the discounted price is not lower. *)
Theorem calculateSavingsPercentage_range :
  forall originalPrice discountedPrice : Q,
    0 <= discountedPrice ->
    (exists n : Z,
        Price.calculateSavingsPercentage originalPrice discountedPrice = inject_Z n
        /\ (0 <= n <= 100)%Z)
    /\ (originalPrice <= 0 \/ originalPrice <= discountedPrice ->
        Price.calculateSavingsPercentage originalPrice discountedPrice == 0).
Proof.
  intros o d Hd. unfold Price.calculateSavingsPercentage.
  destruct (Qle_bool o 0) eqn:Eo.
  - split; [exists 0%Z; split; [reflexivity | lia] | intros _; reflexivity].
  - assert (0 < o) as Ho.
    { apply Qnot_le_lt. intros H. apply Qle_bool_iff in H. congruence. }
    unfold Price.calculateSavings.
    destruct (max_spec 0 (o - d)) as (M0 & M1 & M2).
    set (s := JSMath.max 0 (o - d)) in *.
    assert (0 <= s <= o) as Hs by (destruct M2 as [-> | ->]; lra).
    pose proof (percent_between s o Ho Hs) as Hp.
    split.
    + eexists. split; [reflexivity|].
      pose proof (round_between 0 100 (s / o * 100) Hp) as [H1 H2].
      unfold JSMath.round in H1, H2.
      rewrite <- Zle_Qle in H1, H2. lia.
    + intros [H | H]; [lra|].
      assert (s == 0) as Hs0 by (destruct M2 as [-> | ->]; lra).
      assert (s / o * 100 == 0) as Hz by (rewrite Hs0; field; lra).
      unfold JSMath.round, JS.Math_round. rewrite Hz. reflexivity.
Qed.

Lemma calculateSavingsPercentage_range_witness :
  exists n : Z,
    Price.calculateSavingsPercentage 80 60 = inject_Z n /\ (0 <= n <= 100)%Z.
Proof.
  assert (0 <= 60) as H by discriminate.
  exact (proj1 (calculateSavingsPercentage_range 80 60 H)).
Defined.

Lemma fold_min_spec (rest : list Q) (x : Q) :
  In (fold_left JSMath.min rest x) (x :: rest)
  /\ forall p, In p (x :: rest) -> fold_left JSMath.min rest x <= p.
Proof.
  revert x. induction rest as [|y rest IH]; intros x; simpl.
  - split; [now left|]. intros p [<-|[]]. lra.
  - destruct (IH (JSMath.min x y)) as [Hin Hmin].
    destruct (min_spec x y) as (Hx & Hy & Hor).
    pose proof (Hmin _ (or_introl eq_refl)) as Hm.
    split.
    + destruct Hin as [Hin|Hin]; [|right; now right].
      rewrite <- Hin. destruct Hor as [-> | ->]; [now left | right; now left].
    + intros p [<-|[<-|Hp]]; try lra. apply Hmin. now right.
Qed.

(** X5.  [getBestPrice] is [null] on an empty array only; on a non-empty
    array without a positive price it is [Infinity]; otherwise it is the
    least positive price of the array. *)
Theorem getBestPrice_spec :
  forall prices : list Q,
    match Price.getBestPrice prices with
    | None => prices = []
    | Some JS.PosInf => prices <> [] /\ forall p, In p prices -> p <= 0
    | Some (JS.Fin m) =>
        In m prices /\ 0 < m /\ forall p, In p prices -> 0 < p -> m <= p
    | Some _ => False
    end.
Proof.
  intros prices. unfold Price.getBestPrice.
  destruct prices as [|p0 rest]; [reflexivity|].
  set (l := p0 :: rest).
  destruct (filter (fun p => JS.Qltb 0 p) l) as [|x pos] eqn:Hf; simpl.
  - split; [discriminate|].
    intros p Hp. apply Qnot_lt_le. intros Hpos.
    assert (In p (filter (fun p => JS.Qltb 0 p) l)) as Hin.
    { apply filter_In. split; [exact Hp | now apply Qltb_true_iff]. }
    rewrite Hf in Hin. destruct Hin.
  - destruct (fold_min_spec pos x) as [Hin Hmin].
    rewrite <- Hf in Hin, Hmin.
    apply filter_In in Hin. destruct Hin as [Hin Hpos].
    apply Qltb_true_iff in Hpos.
    repeat split; try assumption.
    intros p Hp Hp0. apply Hmin. apply filter_In.
    split; [exact Hp | now apply Qltb_true_iff].
Qed.

Lemma min_sym (a b : Q) : JSMath.min a b == JSMath.min b a.
Proof.
  unfold JSMath.min.
  destruct (Qle_bool a b) eqn:E1, (Qle_bool b a) eqn:E2; try reflexivity.
  - apply Qle_bool_iff in E1, E2. lra.
  - assert (~ a <= b) as Hab by (intros H; apply Qle_bool_iff in H; congruence).
    assert (~ b <= a) as Hba by (intros H; apply Qle_bool_iff in H; congruence).
    lra.
Qed.

Lemma calculatePriceDifference_sym (a b : Q) :
  Price.calculatePriceDifference a b == Price.calculatePriceDifference b a.
Proof.
  unfold Price.calculatePriceDifference, F64.sub.
  rewrite (round_comp (b - a) (- (a - b))) by ring.
  rewrite round_opp. symmetry. apply Qabs_opp.
Qed.

(** The difference of [a <= b] as the code takes it: [b - a] up to the
    unit roundoff. *)
Lemma calculatePriceDifference_error (a b : Q) :
  a <= b ->
  Qabs (Price.calculatePriceDifference a b - (b - a)) <= F64.u * Qabs (b - a).
Proof.
  intros Hab. unfold Price.calculatePriceDifference, F64.sub.
  apply Qle_lteq in Hab. destruct Hab as [Hlt|Heq].
  - assert (a - b < 0) as Hneg by lra.
    pose proof (round_neg (a - b) Hneg) as [H1 H2].
    unfold F64.u in *.
    set (d := F64.round (a - b)) in *.
    rewrite (Qabs_neg d) by lra.
    rewrite (Qabs_pos (b - a)) by lra.
    apply Qabs_Qle_condition. split; lra.
  - rewrite (round_0 (a - b)) by lra.
    assert (b - a == 0) as E by lra.
    rewrite E. discriminate.
Qed.

(** At the threshold the rounding decides: 0.21 against 0.2, 5% in
    decimals, computes 4.999999999999993 and is not significant. *)
Lemma isSignificantPriceDifference_at_threshold :
  Price.isSignificantPriceDifference (F64.lit (2 # 10)) (F64.lit (21 # 100)) None
  = false.
Proof. vm_compute. reflexivity. Qed.

(** X6.  Whether two prices differ significantly does not depend on their
    order.  For positive prices the percentage compared with the threshold
    is the binary64 value of (difference / lower price) * 100: the answer
    is yes when the exact percentage times (1 - 2^-50) reaches the
    threshold and no when the exact percentage times (1 + 2^-50) is below
    it. *)
Theorem isSignificantPriceDifference_spec :
  forall (price1 price2 : Q) (thresholdPercent : option Q),
    Price.isSignificantPriceDifference price1 price2 thresholdPercent
    = Price.isSignificantPriceDifference price2 price1 thresholdPercent
    /\ (0 < price1 -> price1 <= price2 ->
        let percent := (price2 - price1) / price1 * 100 in
        let threshold := match thresholdPercent with Some t => t | None => 5 end in
        (threshold <= percent * (1 - tolerance) ->
         Price.isSignificantPriceDifference price1 price2 thresholdPercent = true)
        /\ (percent * (1 + tolerance) < threshold ->
            Price.isSignificantPriceDifference price1 price2 thresholdPercent
            = false)).
Proof.
  intros p1 p2 t. split.
  - unfold Price.isSignificantPriceDifference.
    rewrite (Qeqb_comp _ _ (min_sym p1 p2) 0 0 (Qeq_refl 0)).
    destruct (Qeq_bool (JSMath.min p2 p1) 0); [reflexivity|].
    unfold F64.mul, F64.quotient.
    rewrite (round_comp (Price.calculatePriceDifference p1 p2 / JSMath.min p1 p2)
                        (Price.calculatePriceDifference p2 p1 / JSMath.min p2 p1)).
    + reflexivity.
    + rewrite (calculatePriceDifference_sym p1 p2), (min_sym p1 p2). reflexivity.
  - intros H1 H12 percent threshold.
    unfold Price.isSignificantPriceDifference.
    assert (JSMath.min p1 p2 = p1) as Hmin.
    { unfold JSMath.min.
      assert (Qle_bool p1 p2 = true) as E by now apply Qle_bool_iff.
      now rewrite E. }
    rewrite Hmin.
    destruct (Qeq_bool p1 0) eqn:E.
    { apply Qeq_bool_iff in E. lra. }
    assert (~ p1 == 0) as Hnz by lra.
    fold threshold.
    assert (SearchService.orDefault t 5 = threshold) as Ht by reflexivity.
    rewrite Ht.
    pose proof (ratio_error _ _ p1 Hnz (calculatePriceDifference_error p1 p2 H12))
      as Hy.
    set (y := Price.calculatePriceDifference p1 p2 / p1) in *.
    pose proof (three_roundings _ _ _ _ Hy (round_error y)
                  (round_error (F64.round y * 100))) as Hclose.
    fold percent in Hclose. unfold F64.mul, F64.quotient. fold y.
    set (pd := F64.round (F64.round y * 100)) in *.
    assert (0 <= percent) as Hpos.
    { unfold percent.
      assert (0 <= (p2 - p1) / p1) by (apply Qle_shift_div_l; lra). lra. }
    unfold upToRounding in Hclose. rewrite (Qabs_pos percent) in Hclose by exact Hpos.
    apply Qabs_Qle_condition in Hclose. unfold tolerance in *.
    split; intros H.
    + apply Qle_bool_iff. lra.
    + destruct (Qle_bool threshold pd) eqn:E'; [|reflexivity].
      apply Qle_bool_iff in E'. lra.
Qed.


Lemma fold_cheapest_spec (rest : list Price.Money) (first : Price.Money) :
  In (fold_left Price.cheapestOf rest first) (first :: rest)
  /\ forall p, In p (first :: rest) ->
               usd (fold_left Price.cheapestOf rest first) <= usd p.
Proof.
  revert first. induction rest as [|x rest IH]; intros first; simpl.
  - split; [now left|]. intros p [<-|[]]. lra.
  - destruct (IH (Price.cheapestOf first x)) as [Hin Hmin].
    assert (usd (Price.cheapestOf first x) <= usd first
            /\ usd (Price.cheapestOf first x) <= usd x
            /\ (Price.cheapestOf first x = first
                \/ Price.cheapestOf first x = x)) as (H1 & H2 & H3).
    { unfold Price.cheapestOf, Price.comparePricesAcrossCurrencies.
      fold (usd x). fold (usd first).
      destruct (JS.Qltb (usd x - usd first) 0) eqn:E.
      - apply Qltb_true_iff in E. repeat split; try lra. now right.
      - apply Qltb_false_iff in E. repeat split; try lra. now left. }
    pose proof (Hmin _ (or_introl eq_refl)) as Hc.
    split.
    + destruct Hin as [Hin|Hin]; [|right; now right].
      rewrite <- Hin. destruct H3 as [-> | ->]; [now left | right; now left].
    + intros p [<-|[<-|Hp]]; try lra. apply Hmin. now right.
Qed.

(** X7.  [getCheapestPrice] is [null] on an empty array only; otherwise it
    returns an element of the array whose value in USD is the least. *)
Theorem getCheapestPrice_spec :
  forall prices : list Price.Money,
    match Price.getCheapestPrice prices with
    | None => prices = []
    | Some m => In m prices /\ forall p, In p prices -> usd m <= usd p
    end.
Proof.
  intros [|first rest]; [reflexivity|].
  unfold Price.getCheapestPrice, JS.reduce1. apply fold_cheapest_spec.
Qed.

(* ------------------------------------------------------------------ *)
(** *** Cost calculations *)
(* ------------------------------------------------------------------ *)

Lemma convertCurrency_zero (a b : Currency) : convertCurrency 0 a b == 0.
Proof. destruct a, b; reflexivity. Qed.

(** X8.  The components a landed-cost breakdown displays add up to its
    total within 3.5 cents (each of the seven figures is rounded on its
    own), and the import duty is zero when the USD value of the base price
    is below the duty threshold. *)
Theorem calculateLandedCost_adds_up :
  forall input : Calculations.LandedCostInput,
    let b := Calculations.calculateLandedCost input in
    Qabs (Calculations.out_totalCost b - componentsOf b) <= 35 # 1000
    /\ (convertCurrency (Calculations.in_basePrice input)
                        (Calculations.in_baseCurrency input) USD
        < SearchService.orDefault (Calculations.in_dutyThreshold input) 75 ->
        Calculations.out_importDuty b == 0).
Proof.
  intros input b. split.
  - unfold componentsOf, b, Calculations.calculateLandedCost.
    cbn [Calculations.out_totalCost Calculations.out_basePriceConverted
         Calculations.out_shipping Calculations.out_importDuty
         Calculations.out_vat Calculations.out_handlingFee
         Calculations.out_customsClearanceFee].
    repeat match goal with
           | |- context [JSMath.round2 ?v] =>
               pose proof (round2_bounds' v);
               set (JSMath.round2 v) in *
           end.
    apply Qabs_Qle_condition. split; lra.
  - intros Hlt. unfold b, Calculations.calculateLandedCost.
    cbn [Calculations.out_importDuty].
    unfold Calculations.calculateImportDuty. cbn [SearchService.orDefault].
    apply Qltb_true_iff in Hlt. rewrite Hlt.
    unfold JSMath.round2, JS.Math_round.
    rewrite convertCurrency_zero. reflexivity.
Qed.

(** Adding VAT at a non-negative rate and removing it again gives the
    price back within one cent. *)
Theorem vat_round_trip :
  forall price vatRate : Q,
    0 <= vatRate ->
    exists v : Q,
      Calculations.calculatePriceWithoutVAT
        (Calculations.calculatePriceWithVAT price vatRate) vatRate = JS.Fin v
      /\ Qabs (v - price) <= 1 # 100.
Proof.
  intros p r Hr.
  unfold Calculations.calculatePriceWithoutVAT, Calculations.calculatePriceWithVAT,
    Calculations.calculateVAT, JS.div.
  destruct (Qeq_bool (1 + r) 0) eqn:E.
  { apply Qeq_bool_iff in E. lra. }
  eexists. split; [reflexivity|].
  pose proof (round2_bounds' (p * r)) as Hvat.
  set (vat := JSMath.round2 (p * r)) in *.
  pose proof (round2_bounds' ((p + vat) / (1 + r))) as Hback.
  set (back := JSMath.round2 ((p + vat) / (1 + r))) in *.
  assert ((p + vat) / (1 + r) == p + (vat - p * r) / (1 + r)) as Hsplit
    by (field; lra).
  assert ((vat - p * r) / (1 + r) <= 1 # 200) as Hup.
  { apply Qle_shift_div_r; lra. }
  assert (- (1 # 200) <= (vat - p * r) / (1 + r)) as Hdown.
  { apply Qle_shift_div_l; lra. }
  apply Qabs_Qle_condition. split; lra.
Qed.

Lemma vat_round_trip_witness :
  exists v : Q,
    Calculations.calculatePriceWithoutVAT
      (Calculations.calculatePriceWithVAT 100 (17 # 100)) (17 # 100) = JS.Fin v
    /\ Qabs (v - 100) <= 1 # 100.
Proof.
  apply (vat_round_trip 100 (17 # 100)). discriminate.
Defined.

(** A recommendation score is a whole number between 0 and 100,
    whatever the factors and the weights. *)
Theorem calculateRecommendationScore_range :
  forall input : Calculations.RecommendationScoreInput,
    exists n : Z,
      Calculations.calculateRecommendationScore input = inject_Z n
      /\ (0 <= n <= 100)%Z.
Proof.
  intros input. unfold Calculations.calculateRecommendationScore.
  eexists. split; [reflexivity|].
  match goal with
  | |- context [JSMath.min 100 ?s] =>
      destruct (min_spec 100 s) as (Hm1 & _ & _);
      set (c := JSMath.min 100 s) in *
  end.
  destruct (max_spec 0 c) as (H0 & _ & Hor).
  assert (inject_Z 0 <= JSMath.max 0 c <= inject_Z 100) as Hb.
  { change (inject_Z 0) with 0. change (inject_Z 100) with 100.
    destruct Hor as [E | E]; rewrite E in *; lra. }
  pose proof (round_between 0 100 _ Hb) as [H1 H2].
  unfold JSMath.round in H1, H2. rewrite <- Zle_Qle in H1, H2. lia.
Qed.

(** A delivery score lies between 0 and 100 and never grows when the
    delivery takes longer. *)
Theorem calculateDeliveryScore_antitone :
  forall (days days' : Q) (maxDays : option Q),
    days <= days' ->
    0 <= Calculations.calculateDeliveryScore days' maxDays
    /\ Calculations.calculateDeliveryScore days' maxDays
       <= Calculations.calculateDeliveryScore days maxDays
    /\ Calculations.calculateDeliveryScore days maxDays <= 100.
Proof.
  intros d d' maxDays Hdd.
  assert (forall x, 0 <= Calculations.calculateDeliveryScore x maxDays <= 100)
    as Hrange.
  { intros x. unfold Calculations.calculateDeliveryScore.
    set (m := SearchService.orDefault maxDays 30).
    destruct (Qle_bool x 0) eqn:E0; [lra|].
    destruct (Qle_bool m x) eqn:E1; [lra|].
    assert (0 < x) as Hx.
    { apply Qnot_le_lt. intros H. apply Qle_bool_iff in H. congruence. }
    assert (x < m) as Hm.
    { apply Qnot_le_lt. intros H. apply Qle_bool_iff in H. congruence. }
    apply (round_between 0 100). apply percent_between; lra. }
  split; [apply Hrange|]. split; [|apply Hrange].
  unfold Calculations.calculateDeliveryScore.
  set (m := SearchService.orDefault maxDays 30).
  destruct (Qle_bool d 0) eqn:E0.
  { fold m. change (Calculations.calculateDeliveryScore d' maxDays <= 100).
    apply Hrange. }
  assert (0 < d) as Hd.
  { apply Qnot_le_lt. intros H. apply Qle_bool_iff in H. congruence. }
  destruct (Qle_bool d' 0) eqn:E0'.
  { apply Qle_bool_iff in E0'. lra. }
  destruct (Qle_bool m d) eqn:E1.
  { apply Qle_bool_iff in E1.
    assert (Qle_bool m d' = true) as E1' by (apply Qle_bool_iff; lra).
    rewrite E1'. lra. }
  assert (d < m) as Hm.
  { apply Qnot_le_lt. intros H. apply Qle_bool_iff in H. congruence. }
  destruct (Qle_bool m d') eqn:E1'.
  { change 0 with (inject_Z 0). apply (round_between 0 100).
    apply percent_between; lra. }
  unfold JSMath.round. rewrite <- Zle_Qle. apply Math_round_mono.
  apply Qmult_le_compat_r; [|discriminate].
  unfold Qdiv. apply Qmult_le_compat_r; [lra|].
  apply Qlt_le_weak, Qinv_lt_0_compat. lra.
Qed.

Lemma calculateDeliveryScore_antitone_witness :
  0 <= Calculations.calculateDeliveryScore 14 None
  /\ Calculations.calculateDeliveryScore 14 None
     <= Calculations.calculateDeliveryScore 3 None
  /\ Calculations.calculateDeliveryScore 3 None <= 100.
Proof.
  apply (calculateDeliveryScore_antitone 3 14 None). discriminate.
Defined.

(** A price-advantage score is a whole number between 0 and 100; it
    is 0 when the current price is not below the competitor's and 100 when
    it is at most half of it. *)
Theorem calculatePriceAdvantageScore_spec :
  forall currentPrice competitorPrice : Q,
    (exists n : Z,
        Calculations.calculatePriceAdvantageScore currentPrice competitorPrice
        = inject_Z n /\ (0 <= n <= 100)%Z)
    /\ (competitorPrice <= currentPrice ->
        Calculations.calculatePriceAdvantageScore currentPrice competitorPrice == 0)
    /\ (0 < currentPrice -> currentPrice * 2 <= competitorPrice ->
        Calculations.calculatePriceAdvantageScore currentPrice competitorPrice == 100).
Proof.
  intros cur comp. unfold Calculations.calculatePriceAdvantageScore.
  destruct (Qle_bool cur 0 || Qle_bool comp 0) eqn:E.
  - split; [exists 0%Z; split; [reflexivity | lia]|].
    split; [intros _; reflexivity|].
    intros Hcur Hhalf. exfalso.
    apply orb_true_iff in E. destruct E as [E|E]; apply Qle_bool_iff in E; lra.
  - apply orb_false_iff in E. destruct E as [Ecur Ecomp].
    assert (0 < cur) as Hcur.
    { apply Qnot_le_lt. intros H. apply Qle_bool_iff in H. congruence. }
    assert (0 < comp) as Hcomp.
    { apply Qnot_le_lt. intros H. apply Qle_bool_iff in H. congruence. }
    set (raw := (comp - cur) / comp * 100 / 50 * 100).
    assert (raw == (comp - cur) * 200 / comp) as Hraw by (unfold raw; field; lra).
    destruct (min_spec raw 100) as (Hm1 & Hm2 & Hmor).
    set (capped := JSMath.min raw 100) in *.
    destruct (max_spec 0 capped) as (Hx1 & Hx2 & Hxor).
    set (score := JSMath.max 0 capped) in *.
    assert (inject_Z 0 <= score <= inject_Z 100) as Hb.
    { change (inject_Z 0) with 0. change (inject_Z 100) with 100.
      destruct Hxor as [E | E]; rewrite E in *; lra. }
    split; [|split].
    + eexists. split; [reflexivity|].
      pose proof (round_between 0 100 _ Hb) as [H1 H2].
      unfold JSMath.round in H1, H2. rewrite <- Zle_Qle in H1, H2. lia.
    + intros Hle.
      assert (raw <= 0) as Hneg.
      { rewrite Hraw. apply Qle_shift_div_r; lra. }
      assert (score == 0) as Hs by (destruct Hxor as [E | E]; rewrite E in *; lra).
      unfold JSMath.round, JS.Math_round. rewrite Hs. reflexivity.
    + intros _ Hhalf.
      assert (100 <= raw) as Hbig.
      { rewrite Hraw. apply Qle_shift_div_l; lra. }
      assert (score == 100) as Hs.
      { destruct Hmor as [Hy | Hy]; rewrite Hy in *;
          destruct Hxor as [Hx | Hx]; rewrite Hx in *; lra. }
      unfold JSMath.round, JS.Math_round. rewrite Hs. reflexivity.
Qed.

(* ------------------------------------------------------------------ *)
(** *** The store of the mock data service *)
(* ------------------------------------------------------------------ *)

Lemma get_set_same (m : MockStore.Store) (k : string) (v : Product) :
  MockStore.get (MockStore.set m k v) k = Some v.
Proof.
  induction m as [|[k' x] m IH]; simpl.
  - now rewrite String.eqb_refl.
  - destruct (String.eqb k' k) eqn:E; simpl; rewrite E; [reflexivity | exact IH].
Qed.

Lemma get_set_other (m : MockStore.Store) (k k' : string) (v : Product) :
  k <> k' -> MockStore.get (MockStore.set m k v) k' = MockStore.get m k'.
Proof.
  intros Hne. induction m as [|[k0 x] m IH]; simpl.
  - destruct (String.eqb k k') eqn:E; [|reflexivity].
    apply String.eqb_eq in E. contradiction.
  - destruct (String.eqb k0 k) eqn:E; simpl.
    + apply String.eqb_eq in E. subst k0.
      destruct (String.eqb k k') eqn:E'; [|reflexivity].
      apply String.eqb_eq in E'. contradiction.
    + now rewrite IH.
Qed.

Lemma get_set (m : MockStore.Store) (k k' : string) (v : Product) :
  MockStore.get (MockStore.set m k v) k'
  = if String.eqb k k' then Some v else MockStore.get m k'.
Proof.
  destruct (String.eqb k k') eqn:E.
  - apply String.eqb_eq in E. subst. apply get_set_same.
  - apply get_set_other. intros ->. now rewrite String.eqb_refl in E.
Qed.

Lemma set_absent (m : MockStore.Store) (k : string) (v : Product) :
  MockStore.get m k = None -> MockStore.set m k v = (m ++ [(k, v)])%list.
Proof.
  induction m as [|[k' x] m IH]; simpl; [reflexivity|].
  destruct (String.eqb k' k); [discriminate|].
  intros H. now rewrite IH.
Qed.

Lemma get_app (m n : MockStore.Store) (k : string) :
  MockStore.get (m ++ n)%list k
  = match MockStore.get m k with
    | Some v => Some v
    | None => MockStore.get n k
    end.
Proof.
  induction m as [|[k' x] m IH]; simpl; [reflexivity|].
  destruct (String.eqb k' k); [reflexivity | exact IH].
Qed.

Lemma get_In (m : MockStore.Store) (k : string) (v : Product) :
  MockStore.get m k = Some v -> In (k, v) m.
Proof.
  induction m as [|[k' x] m IH]; simpl; [discriminate|].
  destruct (String.eqb k' k) eqn:E.
  - intros [= <-]. apply String.eqb_eq in E. subst. now left.
  - intros H. right. now apply IH.
Qed.

Lemma In_get (m : MockStore.Store) (k : string) (v : Product) :
  NoDup (map fst m) -> In (k, v) m -> MockStore.get m k = Some v.
Proof.
  induction m as [|[k' x] m IH]; simpl; [tauto|].
  intros Hnd [H|H].
  - injection H as -> ->. now rewrite String.eqb_refl.
  - inversion Hnd as [|? ? Hnotin Hnd']; subst.
    destruct (String.eqb k' k) eqn:E.
    + apply String.eqb_eq in E. subst k'. exfalso. apply Hnotin.
      change k with (fst (k, v)). now apply in_map.
    + now apply IH.
Qed.

Lemma has_true_iff (m : MockStore.Store) (k : string) :
  MockStore.has m k = true <-> exists v, MockStore.get m k = Some v.
Proof.
  unfold MockStore.has. destruct (MockStore.get m k) as [v|].
  - split; [intros _; now exists v | reflexivity].
  - split; [discriminate | intros [v H]; discriminate].
Qed.

Lemma set_wellKeyed (m : MockStore.Store) (p : Product) :
  wellKeyed m -> wellKeyed (MockStore.set m (_id p) p).
Proof.
  intros [Hnd Hall]. destruct (MockStore.get m (_id p)) as [old|] eqn:Hget.
  - assert (map fst (MockStore.set m (_id p) p) = map fst m) as Hkeys.
    { clear Hnd Hall. induction m as [|[k x] m IH]; simpl in *.
      - discriminate.
      - destruct (String.eqb k (_id p)) eqn:E; simpl; [reflexivity|].
        now rewrite IH. }
    split; [now rewrite Hkeys|].
    clear Hnd Hget Hkeys. induction m as [|[k x] m IH]; simpl.
    + constructor; [reflexivity | constructor].
    + inversion Hall as [|? ? Hk Hall']; subst.
      destruct (String.eqb k (_id p)) eqn:E.
      * apply String.eqb_eq in E. constructor; [exact E | exact Hall'].
      * constructor; [exact Hk | now apply IH].
  - rewrite (set_absent _ _ _ Hget). split.
    + rewrite map_app. simpl.
      apply NoDup_app; [exact Hnd | constructor; [simpl; tauto | constructor] |].
      intros k Hin [<-|[]].
      apply in_map_iff in Hin. destruct Hin as ([k' v] & Hk & Hin).
      simpl in Hk. subst k'.
      apply (In_get _ _ _ Hnd) in Hin. congruence.
    + apply Forall_app. split; [exact Hall|].
      constructor; [reflexivity | constructor].
Qed.

Lemma seedData_wellKeyed (all : list Product) (m : MockStore.Store) :
  wellKeyed m -> wellKeyed (MockStore.seedData all m).
Proof.
  unfold MockStore.seedData. revert m.
  induction all as [|p all IH]; intros m Hm; simpl; [exact Hm|].
  apply IH. now apply set_wellKeyed.
Qed.

(** The shape of the state after a batch: what was stored stays in place,
    new entries are appended and counted. *)
Lemma addProducts_fold (ps : list Product) (m : MockStore.Store) (a : Z) :
  exists new : MockStore.Store,
    fold_left
      (fun state product =>
         let '(acc, added) := state in
         if MockStore.has acc (_id product) then (acc, added)
         else (MockStore.set acc (_id product) product, (added + 1)%Z))
      ps (m, a)
    = ((m ++ new)%list, (a + Z.of_nat (List.length new))%Z)
    /\ (List.length new <= List.length ps)%nat
    /\ (forall p, In p ps -> MockStore.has (m ++ new)%list (_id p) = true)
    /\ (wellKeyed m -> wellKeyed (m ++ new)%list).
Proof.
  revert m a. induction ps as [|p ps IH]; intros m a; simpl.
  - exists []. rewrite app_nil_r. simpl. rewrite Z.add_0_r.
    split; [reflexivity|]. split; [apply le_n|].
    split; [intros p [] | tauto].
  - destruct (MockStore.has m (_id p)) eqn:Hhas.
    + destruct (IH m a) as (new & Heq & Hlen & Hall & Hwk).
      exists new.
      split; [exact Heq|]. split; [lia|]. split; [|exact Hwk].
      intros q [Hq|Hq]; [subst q|now apply Hall].
      apply has_true_iff in Hhas. destruct Hhas as [v Hv].
      apply has_true_iff. exists v. rewrite get_app. now rewrite Hv.
    + assert (MockStore.get m (_id p) = None) as Hnone.
      { unfold MockStore.has in Hhas.
        destruct (MockStore.get m (_id p)); [discriminate | reflexivity]. }
      destruct (IH (MockStore.set m (_id p) p) (a + 1)%Z)
        as (new & Heq & Hlen & Hall & Hwk).
      rewrite (set_absent _ _ _ Hnone) in Heq, Hall, Hwk.
      rewrite (set_absent _ _ _ Hnone).
      exists ((_id p, p) :: new).
      rewrite <- app_assoc in Heq, Hall, Hwk. simpl in Heq, Hall, Hwk.
      split; [|split; [|split]].
      * rewrite Heq. f_equal. simpl List.length. lia.
      * simpl. lia.
      * intros q [Hq|Hq]; [subst q|now apply Hall].
        apply has_true_iff. exists p. rewrite get_app, Hnone. simpl.
        now rewrite String.eqb_refl.
      * intros Hm. apply Hwk.
        rewrite <- (set_absent _ _ _ Hnone). now apply set_wellKeyed.
Qed.

Lemma addProducts_present (ps : list Product) (m : MockStore.Store) (a : Z) :
  (forall p, In p ps -> MockStore.has m (_id p) = true) ->
  fold_left
    (fun state product =>
       let '(acc, added) := state in
       if MockStore.has acc (_id product) then (acc, added)
       else (MockStore.set acc (_id product) product, (added + 1)%Z))
    ps (m, a)
  = (m, a).
Proof.
  induction ps as [|p ps IH]; intros H; simpl; [reflexivity|].
  rewrite (H p (or_introl eq_refl)). apply IH.
  intros q Hq. apply H. now right.
Qed.

Lemma has_existsb (m : MockStore.Store) (key : string) :
  MockStore.has m key = existsb (String.eqb key) (map fst m).
Proof.
  unfold MockStore.has.
  induction m as [|[k v] m IH]; simpl; [reflexivity|].
  rewrite (String.eqb_sym key k).
  destruct (String.eqb k key); [reflexivity | exact IH].
Qed.

(** The loop of [addProducts] appends the fresh listings of the batch. *)
Lemma addProducts_fresh (ps : list Product) (m : MockStore.Store) (a : Z) :
  fold_left
    (fun state product =>
       let '(acc, added) := state in
       if MockStore.has acc (_id product) then (acc, added)
       else (MockStore.set acc (_id product) product, (added + 1)%Z))
    ps (m, a)
  = ((m ++ map (fun p => (_id p, p)) (freshOf (map fst m) ps))%list,
     (a + Z.of_nat (List.length (freshOf (map fst m) ps)))%Z).
Proof.
  revert m a. induction ps as [|p ps IH]; intros m a; simpl.
  - rewrite app_nil_r, Z.add_0_r. reflexivity.
  - rewrite <- has_existsb.
    destruct (MockStore.has m (_id p)) eqn:Hhas; [apply IH|].
    assert (MockStore.get m (_id p) = None) as Hnone.
    { unfold MockStore.has in Hhas.
      destruct (MockStore.get m (_id p)); [discriminate | reflexivity]. }
    rewrite IH, (set_absent _ _ _ Hnone), map_app, <- app_assoc.
    simpl. f_equal. lia.
Qed.

Lemma freshOf_spec (batch : list Product) (known : list string) (p : Product) :
  In p (freshOf known batch) -> In p batch /\ ~ In (_id p) known.
Proof.
  revert known. induction batch as [|x batch IH]; intros known; simpl; [tauto|].
  destruct (existsb (String.eqb (_id x)) known) eqn:E.
  - intros H. destruct (IH _ H) as [H1 H2]. split; [now right | exact H2].
  - intros [<-|H].
    + split; [now left|]. intros Hin.
      assert (existsb (String.eqb (_id x)) known = true) as E'.
      { apply existsb_exists. exists (_id x). split; [exact Hin|].
        apply String.eqb_refl. }
      congruence.
    + destruct (IH _ H) as [H1 H2]. split; [now right|].
      intros Hin. apply H2. apply in_or_app. now left.
Qed.

(** X9.  [addProducts] never replaces or moves a stored listing: the new
    store is the old one followed by the fresh listings of the batch (those
    whose id is neither in the store nor earlier in the batch, in batch
    order), the returned number is the number of these, every earlier
    lookup still gives the same listing, and afterwards every id of the
    batch is present. *)
Theorem addProducts_spec :
  forall (m : MockStore.Store) (products : list Product),
    let fresh := freshOf (map fst m) products in
    MockStore.addProducts m products
    = ((m ++ map (fun p => (_id p, p)) fresh)%list, Z.of_nat (List.length fresh))
    /\ MockStore.getAllProducts (fst (MockStore.addProducts m products))
       = (MockStore.getAllProducts m ++ fresh)%list
    /\ (forall p, In p fresh -> In p products /\ ~ In (_id p) (map fst m))
    /\ (forall id p, MockStore.findProductById m id = Some p ->
                     MockStore.findProductById
                       (fst (MockStore.addProducts m products)) id = Some p)
    /\ (forall p, In p products ->
                  MockStore.has (fst (MockStore.addProducts m products)) (_id p)
                  = true).
Proof.
  intros m ps fresh.
  assert (MockStore.addProducts m ps
          = ((m ++ map (fun p => (_id p, p)) fresh)%list,
             Z.of_nat (List.length fresh))) as Heq.
  { unfold MockStore.addProducts. now rewrite addProducts_fresh. }
  rewrite Heq. cbn [fst].
  split; [reflexivity|]. split; [|split; [|split]].
  - unfold MockStore.getAllProducts, MockStore.values.
    rewrite map_app, map_map. cbn [snd]. now rewrite map_id.
  - intros p Hp. now apply freshOf_spec.
  - intros id p Hget. unfold MockStore.findProductById in *.
    rewrite get_app. now rewrite Hget.
  - intros p Hp.
    destruct (addProducts_fold ps m 0) as (new & Hfold & _ & Hall & _).
    unfold MockStore.addProducts in Heq. rewrite Hfold in Heq.
    injection Heq as Hstore _. rewrite <- Hstore. now apply Hall.
Qed.

(** X10.  Adding the same batch a second time changes nothing and returns
    0. *)
Theorem addProducts_idempotent :
  forall (m : MockStore.Store) (products : list Product),
    MockStore.addProducts (fst (MockStore.addProducts m products)) products
    = (fst (MockStore.addProducts m products), 0%Z).
Proof.
  intros m ps. unfold MockStore.addProducts.
  destruct (addProducts_fold ps m 0) as (new & Heq & _ & Hall & _).
  rewrite Heq. simpl.
  now apply addProducts_present.
Qed.

Lemma find_app_last {A : Type} (f : A -> bool) (l : list A) (x : A) :
  find f (l ++ [x])%list
  = match find f l with
    | Some y => Some y
    | None => if f x then Some x else None
    end.
Proof.
  induction l as [|y l IH]; simpl; [reflexivity|].
  destruct (f y); [reflexivity | exact IH].
Qed.

Lemma seedData_get (all : list Product) (m : MockStore.Store) (id : string) :
  MockStore.get (MockStore.seedData all m) id
  = match find (fun p => String.eqb (_id p) id) (rev all) with
    | Some p => Some p
    | None => MockStore.get m id
    end.
Proof.
  unfold MockStore.seedData. revert m.
  induction all as [|p all IH]; intros m; simpl; [reflexivity|].
  rewrite IH, find_app_last, get_set.
  destruct (find (fun p0 => String.eqb (_id p0) id) (rev all)); [reflexivity|].
  destruct (String.eqb (_id p) id); reflexivity.
Qed.

(** X11.  After [reset] a lookup by id returns the last listing of the
    seed array that has this id (and nothing of the previous content): in
    seeding the last write wins, whereas [addProducts] keeps the first. *)
Theorem reset_last_wins :
  forall (allMockProducts : list Product) (m : MockStore.Store) (id : string),
    MockStore.findProductById (MockStore.reset allMockProducts m) id
    = find (fun p => String.eqb (_id p) id) (rev allMockProducts).
Proof.
  intros all m id. unfold MockStore.findProductById, MockStore.reset.
  rewrite seedData_get. simpl.
  destruct (find (fun p => String.eqb (_id p) id) (rev all)); reflexivity.
Qed.

Lemma afterBatches_wellKeyed (all : list Product) (m0 : MockStore.Store)
    (batches : list (list Product)) :
  wellKeyed (afterBatches all m0 batches).
Proof.
  unfold afterBatches.
  assert (wellKeyed (MockStore.reset all m0)) as Hstart.
  { apply seedData_wellKeyed. split; constructor. }
  revert Hstart. generalize (MockStore.reset all m0) as m.
  induction batches as [|ps batches IH]; intros m Hm; simpl; [exact Hm|].
  apply IH. unfold MockStore.addProducts.
  destruct (addProducts_fold ps m 0) as (new & Heq & _ & _ & Hwk).
  rewrite Heq. simpl. now apply Hwk.
Qed.

(** X12.  In every store obtained by a reset followed by any number of
    [addProducts] calls, no two listings share an id, and a lookup by id
    finds a listing exactly when the store holds a listing with that id. *)
Theorem store_ids_unique :
  forall (allMockProducts : list Product) (m0 : MockStore.Store)
         (batches : list (list Product)),
    let s := afterBatches allMockProducts m0 batches in
    NoDup (map _id (MockStore.getAllProducts s))
    /\ forall id p,
         MockStore.findProductById s id = Some p
         <-> In p (MockStore.getAllProducts s) /\ _id p = id.
Proof.
  intros all m0 batches s.
  destruct (afterBatches_wellKeyed all m0 batches) as [Hnd Hall].
  fold s in Hnd, Hall.
  assert (map _id (MockStore.getAllProducts s) = map fst s) as Hids.
  { unfold MockStore.getAllProducts, MockStore.values. rewrite map_map.
    apply map_ext_in. intros e He.
    rewrite Forall_forall in Hall. symmetry. now apply Hall. }
  split; [now rewrite Hids|].
  intros id p. unfold MockStore.findProductById, MockStore.getAllProducts,
                 MockStore.values.
  rewrite Forall_forall in Hall. split.
  - intros Hget. apply get_In in Hget. split.
    + change p with (snd (id, p)). now apply in_map.
    + symmetry. exact (Hall _ Hget).
  - intros [Hin Hid]. apply in_map_iff in Hin.
    destruct Hin as ([k v] & Hv & Hin). simpl in Hv. subst v.
    pose proof (Hall _ Hin) as Hk. simpl in Hk. subst k.
    rewrite <- Hid. now apply In_get.
Qed.

(* ------------------------------------------------------------------ *)
(** *** Pages *)
(* ------------------------------------------------------------------ *)


Lemma slice_length_le {A : Type} (l : list A) (s n : Z) :
  (0 <= n)%Z -> (Z.of_nat (List.length (JS.slice l s (s + n))) <= n)%Z.
Proof.
  intros Hn. unfold JS.slice. rewrite length_firstn.
  set (len := Z.of_nat (List.length l)).
  assert (Z.max (JS.relIndex len (s + n) - JS.relIndex len s) 0 <= n)%Z as H.
  { unfold JS.relIndex.
    destruct (s <? 0)%Z eqn:E1, (s + n <? 0)%Z eqn:E2; lia. }
  lia.
Qed.




Lemma ceil_pages (total perPage : Z) :
  (0 < perPage)%Z ->
  let n := Qceiling (inject_Z total / inject_Z perPage) in
  ((n - 1) * perPage < total <= n * perPage)%Z.
Proof.
  intros Hp n.
  assert (0 < inject_Z perPage) as Hq.
  { change 0 with (inject_Z 0). now rewrite <- Zlt_Qlt. }
  pose proof (Qle_ceiling (inject_Z total / inject_Z perPage)) as Hup.
  pose proof (Qceiling_lt (inject_Z total / inject_Z perPage)) as Hlo.
  fold n in Hup, Hlo.
  split.
  - apply (Qmult_lt_compat_r _ _ (inject_Z perPage)) in Hlo; [|exact Hq].
    assert (inject_Z total / inject_Z perPage * inject_Z perPage
            == inject_Z total) as E by (field; lra).
    rewrite E, <- inject_Z_mult in Hlo. now rewrite <- Zlt_Qlt in Hlo.
  - apply (Qmult_le_compat_r _ _ (inject_Z perPage)) in Hup; [|lra].
    assert (inject_Z total / inject_Z perPage * inject_Z perPage
            == inject_Z total) as E by (field; lra).
    rewrite E, <- inject_Z_mult in Hup. now rewrite <- Zle_Qle in Hup.
Qed.

Lemma paginate_pages (page perPage total : Z) :
  (0 < perPage)%Z ->
  let n := Qceiling (inject_Z total / inject_Z perPage) in
  total_pages (MockDataService.paginate page perPage total) = JS.Fin (inject_Z n)
  /\ has_next (MockDataService.paginate page perPage total) = (page <? n)%Z.
Proof.
  intros Hp n. unfold MockDataService.paginate. cbn [total_pages has_next].
  unfold JS.div.
  assert (Qeq_bool (inject_Z perPage) 0 = false) as E.
  { destruct (Qeq_bool (inject_Z perPage) 0) eqn:E; [|reflexivity].
    apply Qeq_bool_iff in E. unfold Qeq in E. simpl in E. lia. }
  rewrite E. cbn [JS.Math_ceil JS.gtb]. fold n. split; [reflexivity|].
  destruct (page <? n)%Z eqn:Hlt.
  - apply Qltb_true_iff. rewrite <- Zlt_Qlt. lia.
  - apply Qltb_false_iff. rewrite <- Zle_Qle. lia.
Qed.



(* ------------------------------------------------------------------ *)
(** *** Pagination metadata *)
(* ------------------------------------------------------------------ *)

(** X14.  With a positive page size [buildPagination] reports
    [total_pages = ceil(total / perPage)], [has_next] exactly when listings
    remain after the page and [has_prev] exactly when the page is beyond
    the first.  With a page size of 0 and a positive total, [total_pages]
    is [Infinity] and [has_next] is true on every page; with both 0,
    [total_pages] is [NaN] and [has_next] is false. *)
Theorem buildPagination_spec :
  forall page perPage total : Z,
    let meta := SearchService.buildPagination page perPage total in
    has_prev meta = (1 <? page)%Z
    /\ ((0 < perPage)%Z ->
        exists n : Z,
          total_pages meta = JS.Fin (inject_Z n)
          /\ ((n - 1) * perPage < total <= n * perPage)%Z
          /\ has_next meta = (page * perPage <? total)%Z)
    /\ (perPage = 0%Z -> (0 < total)%Z ->
        total_pages meta = JS.PosInf /\ has_next meta = true)
    /\ (perPage = 0%Z -> total = 0%Z ->
        total_pages meta = JS.NaN /\ has_next meta = false).
Proof.
  intros page perPage total meta.
  split; [reflexivity|]. split; [|split].
  - intros Hp.
    exists (Qceiling (inject_Z total / inject_Z perPage)).
    pose proof (ceil_pages total perPage Hp) as Hn. cbv zeta in Hn.
    destruct (paginate_pages page perPage total Hp) as [Htp Hnext].
    split; [exact Htp|]. split; [exact Hn|].
    unfold meta. change (SearchService.buildPagination page perPage total)
      with (MockDataService.paginate page perPage total).
    rewrite Hnext.
    destruct (page <? Qceiling (inject_Z total / inject_Z perPage))%Z eqn:E1,
             (page * perPage <? total)%Z eqn:E2; try reflexivity; nia.
  - intros -> Htotal. unfold meta, SearchService.buildPagination, JS.div.
    cbn [total_pages has_next].
    change (Qeq_bool (inject_Z 0) 0) with true. cbv iota.
    assert (Qeq_bool (inject_Z total) 0 = false) as E.
    { destruct (Qeq_bool (inject_Z total) 0) eqn:E; [|reflexivity].
      apply Qeq_bool_iff in E. unfold Qeq in E. simpl in E. lia. }
    assert (JS.Qltb 0 (inject_Z total) = true) as E'.
    { apply Qltb_true_iff. change 0 with (inject_Z 0). now rewrite <- Zlt_Qlt. }
    rewrite E, E'. split; reflexivity.
  - intros -> ->. split; reflexivity.
Qed.

(* ------------------------------------------------------------------ *)
(** *** Sorting with a comparator *)
(* ------------------------------------------------------------------ *)

Section SortByFacts.
Context {A : Type} (cmp : A -> A -> Q).

Lemma insertBy_perm (x : A) (l : list A) :
  Permutation (x :: l) (JS.insertBy cmp x l).
Proof.
  induction l as [|y l IH]; simpl; [reflexivity|].
  destruct (JS.Qltb 0 (cmp x y)); [|reflexivity].
  rewrite perm_swap. now apply perm_skip.
Qed.

Lemma sortBy_perm (l : list A) : Permutation l (JS.sortBy cmp l).
Proof.
  induction l as [|x l IH]; simpl; [reflexivity|].
  rewrite <- insertBy_perm. now apply perm_skip.
Qed.

(** Whenever [x] has to go after [y], [y] may stay before [x]. *)
Hypothesis cmp_antisym : forall x y, 0 < cmp x y -> cmp y x <= 0.

Lemma insertBy_sorted (x : A) (l : list A) :
  Sorted (fun a b => cmp a b <= 0) l ->
  Sorted (fun a b => cmp a b <= 0) (JS.insertBy cmp x l).
Proof.
  induction l as [|y l IH]; intros Hs; simpl.
  - repeat constructor.
  - destruct (JS.Qltb 0 (cmp x y)) eqn:E.
    + apply Qltb_true_iff in E.
      inversion Hs as [|? ? Hs' Hhd]; subst.
      constructor; [now apply IH|].
      destruct l as [|z l]; simpl.
      * constructor. now apply cmp_antisym.
      * destruct (JS.Qltb 0 (cmp x z)).
        -- inversion Hhd; subst. now constructor.
        -- constructor. now apply cmp_antisym.
    + apply Qltb_false_iff in E. constructor; [exact Hs|]. now constructor.
Qed.

Lemma sortBy_sorted (l : list A) :
  Sorted (fun a b => cmp a b <= 0) (JS.sortBy cmp l).
Proof.
  induction l as [|x l IH]; simpl; [constructor|].
  now apply insertBy_sorted.
Qed.

End SortByFacts.

Lemma filter_insertBy {A : Type} (cmp : A -> A -> Q) (P : A -> bool)
    (x : A) (l : list A) :
  (P x = true -> forall y, In y l -> P y = true -> cmp x y <= 0) ->
  filter P (JS.insertBy cmp x l) = filter P (x :: l).
Proof.
  induction l as [|y l IH]; intros H; simpl; [reflexivity|].
  destruct (JS.Qltb 0 (cmp x y)) eqn:E; [|reflexivity].
  apply Qltb_true_iff in E. simpl.
  assert (filter P (JS.insertBy cmp x l) = filter P (x :: l)) as IH'.
  { apply IH. intros Hx z Hz. apply H; [exact Hx | now right]. }
  rewrite IH'. simpl.
  destruct (P x) eqn:Px, (P y) eqn:Py; try reflexivity.
  pose proof (H eq_refl y (or_introl eq_refl) Py). lra.
Qed.

Lemma filter_sortBy {A : Type} (cmp : A -> A -> Q) (P : A -> bool) (l : list A) :
  (forall x y, P x = true -> P y = true -> cmp x y <= 0) ->
  filter P (JS.sortBy cmp l) = filter P l.
Proof.
  intros H. induction l as [|x l IH]; simpl; [reflexivity|].
  rewrite filter_insertBy by (intros Hx y _ Hy; now apply H).
  simpl. now rewrite IH.
Qed.

Lemma Sorted_impl {A : Type} (R R' : A -> A -> Prop) (l : list A) :
  (forall a b, R a b -> R' a b) -> Sorted R l -> Sorted R' l.
Proof.
  intros H. induction 1 as [|a l Hs IH Hhd]; constructor; [exact IH|].
  destruct Hhd; constructor. now apply H.
Qed.

(** X15.  [sortByTotalCost] returns the same listings, in non-decreasing
    order of landed cost (or base amount where there is none), or in
    non-increasing order when [descending] is set. *)
Theorem sortByTotalCost_sorted :
  forall (products : list Product) (descending : bool),
    Permutation products (SearchService.sortByTotalCost products descending)
    /\ Sorted (fun a b =>
                 if descending
                 then MockDataService.landedOrBase b <= MockDataService.landedOrBase a
                 else MockDataService.landedOrBase a <= MockDataService.landedOrBase b)
              (SearchService.sortByTotalCost products descending).
Proof.
  intros products descending. unfold SearchService.sortByTotalCost.
  split; [apply sortBy_perm|].
  eapply Sorted_impl; [|apply sortBy_sorted].
  - intros a b H. cbv beta in H. destruct descending; lra.
  - intros x y H. cbv beta in *. destruct descending; lra.
Qed.

(** X16.  [sortByTotalCost] is stable: listings of equal cost keep their
    relative order. *)
Theorem sortByTotalCost_stable :
  forall (products : list Product) (descending : bool) (k : Q),
    filter (fun p => Qeq_bool (MockDataService.landedOrBase p) k)
           (SearchService.sortByTotalCost products descending)
    = filter (fun p => Qeq_bool (MockDataService.landedOrBase p) k) products.
Proof.
  intros products descending k. unfold SearchService.sortByTotalCost.
  apply filter_sortBy. intros x y Hx Hy.
  apply Qeq_bool_iff in Hx, Hy. cbv beta. destruct descending; lra.
Qed.

(* ------------------------------------------------------------------ *)
(** *** Landed cost, applied twice *)
(* ------------------------------------------------------------------ *)

(** The estimated total of a non-zero base price is not zero. *)
Lemma estimate_nonzero (basePrice : Q) (includeAllFees : bool) :
  ~ basePrice == 0 ->
  ~ total_landed_cost (SearchService.estimateInternational basePrice includeAllFees)
    == 0.
Proof.
  intros Hnz Hz.
  destruct (estimate_bounds basePrice includeAllFees) as (_ & _ & _ & _ & H).
  cbv zeta in H. unfold upToRounding in H. rewrite Hz in H.
  unfold tolerance in H.
  set (T := basePrice + basePrice * (10 # 100)
            + (if includeAllFees then basePrice * (17 # 100) else 0)) in *.
  assert (Qabs (0 - T) == Qabs T) as E.
  { rewrite <- (Qabs_opp T). apply Qabs_wd. ring. }
  rewrite E in H.
  assert (Qabs T == 0) as HT.
  { pose proof (Qabs_nonneg T). lra. }
  assert (T == 0) as HT0.
  { revert HT. apply Qabs_case; intros; lra. }
  unfold T in HT0. destruct includeAllFees; lra.
Qed.

(** X17.  [calculateTotalCost] is idempotent: applied to its own result,
    for any destination and the same fee flag, it changes nothing; when
    the base amount is not zero this holds for any fee flag. *)
Theorem calculateTotalCost_idempotent :
  forall (product : Product) (c c' : Country) (fees fees' : bool),
    SearchService.calculateTotalCost
      (SearchService.calculateTotalCost product c fees) c' fees
    = SearchService.calculateTotalCost product c fees
    /\ (~ amount (base (pricing product)) == 0 ->
        SearchService.calculateTotalCost
          (SearchService.calculateTotalCost product c fees) c' fees'
        = SearchService.calculateTotalCost product c fees).
Proof.
  intros product c c' fees fees'.
  destruct (SearchService.hasLandedCost product) eqn:Hhas.
  - assert (SearchService.calculateTotalCost product c fees = product) as E.
    { unfold SearchService.calculateTotalCost. now rewrite Hhas. }
    rewrite E. unfold SearchService.calculateTotalCost. rewrite Hhas.
    split; [reflexivity | intros _; reflexivity].
  - set (once := SearchService.calculateTotalCost product c fees).
    assert (once = SearchService.calculateTotalCost product c fees) as Honce
      by reflexivity.
    unfold SearchService.calculateTotalCost in Honce. rewrite Hhas in Honce.
    split.
    + unfold SearchService.calculateTotalCost at 1.
      destruct (SearchService.hasLandedCost once); [reflexivity|].
      rewrite Honce. reflexivity.
    + intros Hnz.
      assert (SearchService.hasLandedCost once = true) as Hnow.
      { rewrite Honce. unfold SearchService.hasLandedCost.
        cbn [international pricing].
        apply truthy_true_iff. now apply estimate_nonzero. }
      unfold SearchService.calculateTotalCost at 1. now rewrite Hnow.
Qed.

(* ------------------------------------------------------------------ *)
(** *** The search service on the index path *)
(* ------------------------------------------------------------------ *)

Lemma calculateTotalCost_has_breakdown (product : Product) (c : Country) (fees : bool) :
  international (pricing (SearchService.calculateTotalCost product c fees)) <> None.
Proof.
  unfold SearchService.calculateTotalCost.
  destruct (SearchService.hasLandedCost product) eqn:H.
  - unfold SearchService.hasLandedCost in H.
    destruct (international (pricing product)); [discriminate | discriminate].
  - discriminate.
Qed.

Lemma sortByTotalCost_perm (l : list Product) (descending : bool) :
  Permutation l (SearchService.sortByTotalCost l descending).
Proof. apply sortBy_perm. Qed.

Lemma sortByTotalCost_ascending (l : list Product) :
  Sorted (fun a b => MockDataService.landedOrBase a <= MockDataService.landedOrBase b)
         (SearchService.sortByTotalCost l false).
Proof.
  unfold SearchService.sortByTotalCost.
  eapply Sorted_impl; [|apply sortBy_sorted].
  - intros a b H. cbv beta in H. lra.
  - intros x y H. cbv beta in *. lra.
Qed.

Lemma sortByTotalCost_descending (l : list Product) :
  Sorted (fun a b => MockDataService.landedOrBase b <= MockDataService.landedOrBase a)
         (SearchService.sortByTotalCost l true).
Proof.
  unfold SearchService.sortByTotalCost.
  eapply Sorted_impl; [|apply sortBy_sorted].
  - intros a b H. cbv beta in H. lra.
  - intros x y H. cbv beta in *. lra.
Qed.

(** X18.  When the index answers a global search, the service returns the
    hits of that one page, each with a landed cost attached if shipping or
    fees were requested: the same listings in the index's order for the
    sort keys relevance, rating and newest, and re-sorted by landed cost
    (ascending by default) for the price sort keys.  The total is the
    index's estimate, 0 when it gives none. *)
Theorem searchGlobal_index_page :
  forall (numberToString : Q -> string) (this : SearchService.Service)
         (request : GlobalSearchRequest) (took : Z)
         (res : SearchService.IndexResponse),
    SearchService.useMockData this = false ->
    SearchService.queryIndexGlobal numberToString this request = Some res ->
    let result := SearchService.searchGlobal numberToString this request took in
    let costed :=
      if g_include_shipping request || g_include_all_fees request
      then map (fun p => SearchService.calculateTotalCost
                           p (g_user_country request) (g_include_all_fees request))
               (SearchService.hits res)
      else SearchService.hits res in
    Permutation costed (SearchService.products result)
    /\ match SearchService.orDefault (g_sort_by request) PRICE_ASC with
       | PRICE_ASC =>
           Sorted (fun a b => MockDataService.landedOrBase a
                              <= MockDataService.landedOrBase b)
                  (SearchService.products result)
       | PRICE_DESC =>
           Sorted (fun a b => MockDataService.landedOrBase b
                              <= MockDataService.landedOrBase a)
                  (SearchService.products result)
       | _ => SearchService.products result = costed
       end
    /\ (g_include_shipping request || g_include_all_fees request = true ->
        forall p, In p (SearchService.products result) ->
                  international (pricing p) <> None)
    /\ total_results (SearchService.pagination result)
       = JS.or_elseZ (SearchService.estimatedTotalHits res) 0
    /\ SearchService.smartDeal result = None.
Proof.
  intros nts this request took res Hmock Hres result costed.
  unfold result, SearchService.searchGlobal. rewrite Hmock, Hres.
  cbn [SearchService.products SearchService.pagination SearchService.smartDeal].
  fold costed.
  assert (Permutation costed
            match SearchService.orDefault (g_sort_by request) PRICE_ASC with
            | PRICE_ASC => SearchService.sortByTotalCost costed false
            | PRICE_DESC => SearchService.sortByTotalCost costed true
            | _ => costed
            end) as Hperm.
  { destruct (SearchService.orDefault (g_sort_by request) PRICE_ASC);
      try reflexivity; apply sortByTotalCost_perm. }
  split; [exact Hperm|]. split; [|split; [|split; reflexivity]].
  - destruct (SearchService.orDefault (g_sort_by request) PRICE_ASC);
      try reflexivity;
      [apply sortByTotalCost_ascending | apply sortByTotalCost_descending].
  - intros Hflags p Hp.
    apply (Permutation_in _ (Permutation_sym Hperm)) in Hp.
    unfold costed in Hp. rewrite Hflags in Hp.
    apply in_map_iff in Hp. destruct Hp as (q & <- & _).
    apply calculateTotalCost_has_breakdown.
Qed.

(** X19.  On the index path a local search never reports an available
    smart deal: the result carries either no deal or one that is marked
    unavailable and names no listing. *)
Theorem searchLocal_index_no_available_deal :
  forall (numberToString : Q -> string) (this : SearchService.Service)
         (request : LocalSearchRequest) (took : Z),
    SearchService.useMockData this = false ->
    match SearchService.smartDeal
            (SearchService.searchLocal numberToString this request took) with
    | Some deal => deal_available deal = false /\ deal_product deal = None
    | None => True
    end.
Proof.
  intros nts this request took Hmock.
  unfold SearchService.searchLocal. rewrite Hmock.
  destruct (SearchService.queryIndexLocal nts this request) as [res|];
    cbn [SearchService.smartDeal]; [|exact I].
  destruct (SearchService.orDefault (l_check_international request) false);
    [|exact I].
  destruct (hd_error (SearchService.hits res)); [|exact I].
  split; reflexivity.
Qed.

(* ------------------------------------------------------------------ *)
(** *** The mock provider's searches: filters, order and size *)
(* ------------------------------------------------------------------ *)

Lemma boundAnd_false (bound : option Q) (test : Q -> bool) (m : Q) :
  MockDataService.boundAnd bound test = false ->
  bound = Some m -> ~ m == 0 -> test m = false.
Proof.
  intros H -> Hnz. unfold MockDataService.boundAnd in H.
  apply truthy_true_iff in Hnz. rewrite Hnz in H. exact H.
Qed.

Lemma listExcludes_false (arr : option (list string)) (x y : string)
    (l : list string) :
  MockDataService.listExcludes arr x = false ->
  arr = Some (y :: l) -> In x (y :: l).
Proof.
  intros H ->. unfold MockDataService.listExcludes in H. cbn in H.
  apply negb_false_iff in H. now apply arrayIncludes_In.
Qed.

(** What a listing that passes the filter block satisfies. *)
Lemma passesFilters_sound (f : SearchFilters) (p : Product) :
  MockDataService.passesFilters (Some f) p = true ->
  (forall m, min_price f = Some m -> ~ m == 0 -> m <= amount (base (pricing p)))
  /\ (forall m, max_price f = Some m -> ~ m == 0 -> amount (base (pricing p)) <= m)
  /\ (in_stock f = Some true -> availability p = IN_STOCK)
  /\ (forall b l, brands f = Some (b :: l) ->
                  In (MockDataService.orEmpty (brand p)) (b :: l))
  /\ (forall s l, shops f = Some (s :: l) -> In (shop_name (shop_info p)) (s :: l))
  /\ (forall m, min_rating f = Some m -> ~ m == 0 -> m <= JS.or_else (rating p) 0).
Proof.
  unfold MockDataService.passesFilters.
  destruct (MockDataService.boundAnd (min_price f) _) eqn:E1; [discriminate|].
  destruct (MockDataService.boundAnd (max_price f) _) eqn:E2; [discriminate|].
  destruct (match in_stock f with
            | Some true => negb (AvailabilityStatus_eqb (availability p) IN_STOCK)
            | _ => false
            end) eqn:E3; [discriminate|].
  destruct (MockDataService.listExcludes (brands f) _) eqn:E4; [discriminate|].
  destruct (MockDataService.listExcludes (shops f) _) eqn:E5; [discriminate|].
  destruct (MockDataService.boundAnd (min_rating f) _) eqn:E6; [discriminate|].
  intros _. repeat split.
  - intros m Hm Hnz. pose proof (boundAnd_false _ _ m E1 Hm Hnz) as H.
    now apply Qltb_false_iff in H.
  - intros m Hm Hnz. pose proof (boundAnd_false _ _ m E2 Hm Hnz) as H.
    now apply Qltb_false_iff in H.
  - intros Hs. rewrite Hs in E3. apply negb_false_iff in E3.
    destruct (availability p); try discriminate; reflexivity.
  - intros b l Hb. exact (listExcludes_false _ _ b l E4 Hb).
  - intros s l Hs. exact (listExcludes_false _ _ s l E5 Hs).
  - intros m Hm Hnz. pose proof (boundAnd_false _ _ m E6 Hm Hnz) as H.
    now apply Qltb_false_iff in H.
Qed.

Lemma prefix_app (sub s : string) :
  String.prefix sub s = true <-> exists post, s = (sub ++ post)%string.
Proof.
  revert s. induction sub as [|c sub IH]; intros s.
  - split; [intros _; exists s; reflexivity|].
    intros _. now destruct s.
  - destruct s as [|d s]; simpl;
      [split; [discriminate | intros (post & H); discriminate]|].
    destruct (Ascii.ascii_dec c d) as [->|Hne].
    + rewrite IH. split; intros (post & H); exists post.
      * now rewrite H.
      * now injection H.
    + split; [discriminate|]. intros (post & H). injection H as H1 _. congruence.
Qed.

(** [s.includes(sub)] holds exactly when [sub] occurs in [s]. *)
Lemma includes_occursIn (s sub : string) :
  JS.includes s sub = true <-> occursIn sub s.
Proof.
  unfold occursIn. induction s as [|c s IH]; cbn [JS.includes].
  - destruct (String.prefix sub "") eqn:E.
    + split; [|reflexivity]. intros _.
      apply prefix_app in E. destruct E as (post & E).
      exists ""%string, post. exact E.
    + split; [discriminate|]. intros (pre & post & H).
      assert (String.prefix sub "" = true) as E'.
      { apply prefix_app. destruct pre; [|discriminate].
        exists post. exact H. }
      congruence.
  - destruct (String.prefix sub (String c s)) eqn:E.
    + split; [|reflexivity]. intros _.
      apply prefix_app in E. destruct E as (post & E).
      exists ""%string, post. exact E.
    + rewrite IH. split.
      * intros (pre & post & H). exists (String c pre), post.
        simpl. now rewrite H.
      * intros (pre & post & H). destruct pre as [|d pre].
        -- assert (String.prefix sub (String c s) = true) as E'
             by (apply prefix_app; exists post; exact H).
           congruence.
        -- injection H as _ H. exists pre, post. exact H.
Qed.

Lemma matchesQuery_mentions (query : string) (p : Product) :
  MockDataService.matchesQuery (JS.toLowerCase query) p = true <-> mentions p query.
Proof.
  unfold MockDataService.matchesQuery, mentions, MockDataService.optIncludes.
  rewrite !orb_true_iff, includes_occursIn.
  assert (forall x : option string,
            match x with
            | Some v => JS.includes (JS.toLowerCase v) (JS.toLowerCase query)
            | None => false
            end = true
            <-> exists v, x = Some v
                          /\ occursIn (JS.toLowerCase query) (JS.toLowerCase v))
    as Hopt.
  { intros [v|].
    - rewrite includes_occursIn. split.
      + intros H. exists v. split; [reflexivity | exact H].
      + intros (v' & [= <-] & H). exact H.
    - split; [discriminate | intros (v & H & _); discriminate]. }
  rewrite !Hopt. tauto.
Qed.

(** X20.  Every listing returned by the mock provider's local search is a
    stored listing of a local shop of the requested country that mentions
    the query (its name, brand, category or description contains it, letter
    case apart) and passes the filter set: its base price is within the
    non-zero price bounds, it is in stock if that was asked, its brand and
    its shop are in the non-empty allow-lists, and its rating (0 when it
    has none) reaches the non-zero minimum. *)
Theorem searchLocal_mock_results :
  forall (numberToString : Q -> string) (products : list Product)
         (query country : string) (f : SearchFilters) (page perPage took : Z)
         (p : Product),
    In p (lr_results (MockDataService.searchLocal numberToString products
                        query country (Some f) page perPage took)) ->
    In p products
    /\ shop_type (shop_info p) = LOCAL
    /\ shop_country (shop_info p) = country
    /\ mentions p query
    /\ (forall m, min_price f = Some m -> ~ m == 0 -> m <= amount (base (pricing p)))
    /\ (forall m, max_price f = Some m -> ~ m == 0 -> amount (base (pricing p)) <= m)
    /\ (in_stock f = Some true -> availability p = IN_STOCK)
    /\ (forall b l, brands f = Some (b :: l) ->
                    In (match brand p with Some v => v | None => ""%string end)
                       (b :: l))
    /\ (forall s l, shops f = Some (s :: l) -> In (shop_name (shop_info p)) (s :: l))
    /\ (forall m, min_rating f = Some m -> ~ m == 0 ->
                  m <= match rating p with Some r => r | None => 0 end).
Proof.
  intros nts products query country f page perPage took p H.
  unfold MockDataService.searchLocal in H. cbn [lr_results] in H.
  apply In_slice, In_sortBy, filter_In in H.
  destruct H as [Hin Hkeep].
  destruct (ShopType_eqb (shop_type (shop_info p)) LOCAL) eqn:Htype;
    [|discriminate].
  destruct (String.eqb (shop_country (shop_info p)) country) eqn:Hc;
    [|discriminate].
  destruct (MockDataService.matchesQuery (JS.toLowerCase query) p) eqn:Hq;
    [|discriminate].
  cbn in Hkeep.
  destruct (passesFilters_sound f p Hkeep) as (F1 & F2 & F3 & F4 & F5 & F6).
  split; [exact Hin|].
  split; [destruct (shop_type (shop_info p)); [reflexivity | discriminate]|].
  split; [now apply String.eqb_eq|].
  split; [now apply matchesQuery_mentions|].
  split; [exact F1|]. split; [exact F2|]. split; [exact F3|].
  split; [exact F4|]. split; [exact F5|].
  intros m Hm Hnz. pose proof (F6 m Hm Hnz) as Hr.
  unfold JS.or_else, JS.truthy in Hr.
  destruct (rating p) as [r|]; [|exact Hr].
  destruct (Qeq_bool r 0) eqn:E; cbn in Hr; [|exact Hr].
  apply Qeq_bool_iff in E. lra.
Qed.

Lemma searchLocal_mock_results_witness :
  In Sample.localPhone
     (lr_results (MockDataService.searchLocal Sample.decimalToString
                    Sample.catalogue "PHONE" "IL" (Some Sample4.acmeAtKsp) 1 10 0))
  /\ mentions Sample.localPhone "PHONE"
  /\ 50 <= amount (base (pricing Sample.localPhone))
  /\ In "Acme"%string ["Other"; "Acme"]%string.
Proof.
  assert (In Sample.localPhone
            (lr_results (MockDataService.searchLocal Sample.decimalToString
                           Sample.catalogue "PHONE" "IL" (Some Sample4.acmeAtKsp)
                           1 10 0))) as Hin.
  { vm_compute. left. reflexivity. }
  split; [exact Hin|].
  destruct (searchLocal_mock_results Sample.decimalToString Sample.catalogue
              "PHONE" "IL" Sample4.acmeAtKsp 1 10 0 Sample.localPhone Hin)
    as (_ & _ & _ & Hq & Hmin & _ & _ & Hb & _).
  split; [exact Hq|].
  split; [apply (Hmin 50); [reflexivity | discriminate]|].
  exact (Hb "Other"%string ["Acme"%string] eq_refl).
Defined.

Lemma Sorted_skipn {A : Type} (R : A -> A -> Prop) (n : nat) (l : list A) :
  Sorted R l -> Sorted R (skipn n l).
Proof.
  revert l. induction n as [|n IH]; intros l Hs; simpl; [exact Hs|].
  destruct l as [|x l]; [constructor|].
  apply IH. now inversion Hs.
Qed.

Lemma Sorted_firstn {A : Type} (R : A -> A -> Prop) (n : nat) (l : list A) :
  Sorted R l -> Sorted R (firstn n l).
Proof.
  revert l. induction n as [|n IH]; intros l Hs; simpl; [constructor|].
  destruct l as [|x l]; [constructor|].
  inversion Hs as [|? ? Hs' Hhd]; subst.
  constructor; [now apply IH|].
  destruct n; simpl; [constructor|].
  destruct Hhd; constructor. assumption.
Qed.

Lemma Sorted_slice {A : Type} (R : A -> A -> Prop) (l : list A) (s e : Z) :
  Sorted R l -> Sorted R (JS.slice l s e).
Proof.
  intros H. unfold JS.slice. now apply Sorted_firstn, Sorted_skipn.
Qed.

(** X21.  A page of the mock provider's global search is in non-decreasing
    order of landed cost, a page of its local search in non-increasing
    order of recommendation score; with a non-negative page size neither
    holds more than [perPage] listings, and the reported total does not
    depend on the page. *)
Theorem mock_search_pages :
  forall (numberToString : Q -> string) (products : list Product)
         (query country : string) (filters : option SearchFilters)
         (page page' perPage took : Z),
    let localPage :=
      MockDataService.searchLocal numberToString products query country
        filters page perPage took in
    let globalPage :=
      MockDataService.searchGlobal products query country filters page perPage took in
    Sorted (fun a b => MockDataService.scoreOrZero b <= MockDataService.scoreOrZero a)
           (lr_results localPage)
    /\ Sorted (fun a b => MockDataService.landedOrBase a
                          <= MockDataService.landedOrBase b)
              (gr_results globalPage)
    /\ ((0 <= perPage)%Z ->
        (Z.of_nat (List.length (lr_results localPage)) <= perPage)%Z
        /\ (Z.of_nat (List.length (gr_results globalPage)) <= perPage)%Z)
    /\ total_results (lr_pagination localPage)
       = total_results
           (lr_pagination
              (MockDataService.searchLocal numberToString products query country
                 filters page' perPage took))
    /\ total_results (gr_pagination globalPage)
       = total_results
           (gr_pagination
              (MockDataService.searchGlobal products query country filters
                 page' perPage took)).
Proof.
  intros nts products query country filters page page' perPage took
         localPage globalPage.
  split; [|split; [|split; [|split; reflexivity]]].
  - unfold localPage, MockDataService.searchLocal. cbn [lr_results].
    apply Sorted_slice.
    eapply Sorted_impl; [|apply sortBy_sorted].
    + intros a b H. cbv beta in H. lra.
    + intros x y H. cbv beta in *. lra.
  - unfold globalPage, MockDataService.searchGlobal. cbn [gr_results].
    apply Sorted_slice.
    eapply Sorted_impl; [|apply sortBy_sorted].
    + intros a b H. cbv beta in H. lra.
    + intros x y H. cbv beta in *. lra.
  - intros Hp. split.
    + unfold localPage, MockDataService.searchLocal. cbn [lr_results].
      now apply slice_length_le.
    + unfold globalPage, MockDataService.searchGlobal. cbn [gr_results].
      now apply slice_length_le.
Qed.

(* ------------------------------------------------------------------ *)
(** *** What a reported smart deal guarantees *)
(* ------------------------------------------------------------------ *)

Lemma findSmartDeal_inv (numberToString : Q -> string) (products : list Product)
    (query : string) (bestLocal : option Product) (deal : SmartDeal) :
  MockDataService.findSmartDeal numberToString products query bestLocal = Some deal ->
  exists (local first : Product) (rest : list Product),
    bestLocal = Some local
    /\ MockDataService.globalAlternativesOf products local = first :: rest
    /\ JS.ltb (F64.mulN
                 (F64.div
                    (F64.sub (MockDataService.localPriceOf local)
                       (MockDataService.landedOrBase
                          (JS.reduce1 MockDataService.cheaper first rest)))
                    (MockDataService.localPriceOf local)) 100) 10 = false.
Proof.
  unfold MockDataService.findSmartDeal.
  destruct bestLocal as [local|]; [|discriminate].
  destruct (MockDataService.globalAlternativesOf products local)
    as [|first rest] eqn:Halt; [discriminate|].
  destruct (JS.ltb _ 10) eqn:Hlt; [discriminate|].
  intros _. exists local, first, rest. repeat split; assumption.
Qed.

Lemma round_upToRounding (q : Q) : upToRounding (F64.round q) q.
Proof.
  unfold upToRounding. pose proof (round_error q) as H.
  pose proof (Qabs_nonneg q) as Hq.
  unfold F64.u in H. unfold tolerance.
  set (a := Qabs q) in *. set (e := Qabs (F64.round q - q)) in *. lra.
Qed.

(** X22.  When the mock provider's local search reports a smart deal, the
    page is not empty and the deal names a stored in-stock listing of a
    global shop in the product group of the first listing, one of least
    landed total among them; the summary compares the local price of the
    first listing with that landed total, its savings are their difference
    up to rounding, and if the local price is positive the landed total is
    at most 90% of it, up to the rounding tolerance. *)
Theorem searchLocal_mock_deal :
  forall (numberToString : Q -> string) (products : list Product)
         (query country : string) (filters : option SearchFilters)
         (page perPage took : Z) (deal : SmartDeal),
    lr_smart_deal (MockDataService.searchLocal numberToString products query
                     country filters page perPage took) = Some deal ->
    exists (first : Product) (rest : list Product) (chosen : Product)
           (summary : SmartDealSummary),
      lr_results (MockDataService.searchLocal numberToString products query
                    country filters page perPage took) = first :: rest
      /\ deal_available deal = true
      /\ deal_product deal = Some chosen
      /\ In chosen products
      /\ alternativeTo first chosen
      /\ (forall a, In a products -> alternativeTo first a ->
                    landedTotal chosen <= landedTotal a)
      /\ deal_summary deal = Some summary
      /\ best_local summary = localPrice first
      /\ best_international summary = landedTotal chosen
      /\ upToRounding (savings summary) (localPrice first - landedTotal chosen)
      /\ (0 < localPrice first ->
          landedTotal chosen <= ((9 # 10) + tolerance) * localPrice first).
Proof.
  intros nts products query country filters page perPage took deal Hdeal.
  unfold MockDataService.searchLocal in *. cbn [lr_smart_deal lr_results] in *.
  set (results := JS.slice _ _ _) in *.
  destruct (findSmartDeal_inv _ _ _ _ _ Hdeal)
    as (local & first & rest & Hhd & Halt & Hge).
  destruct results as [|r0 rs] eqn:Hres; [discriminate|].
  cbn [hd_error] in Hdeal, Hhd.
  injection Hhd as <-.
  destruct (findSmartDeal_steps nts products query r0 first rest Halt)
    as [_ Hsteps].
  destruct (Hsteps Hge)
    as (deal' & summary & Hd & Hav & Hsum & Hpct & Hbl & Hbi & Hsav & _ & Hprod).
  rewrite Hd in Hdeal. injection Hdeal as <-.
  destruct (reduce1_cheaper_min rest first) as [Hin Hleast].
  cbv zeta in Hin, Hleast.
  set (chosen := JS.reduce1 MockDataService.cheaper first rest) in *.
  rewrite <- Halt in Hin, Hleast.
  apply globalAlternativesOf_In in Hin. destruct Hin as [Hstored Halternative].
  rewrite localPriceOf_localPrice in Hbl, Hsav, Hge.
  rewrite landedOrBase_landedTotal in Hbi, Hsav, Hge.
  exists r0, rs, chosen, summary.
  split; [reflexivity|]. split; [exact Hav|]. split; [exact Hprod|].
  split; [exact Hstored|]. split; [exact Halternative|].
  split.
  { intros a Ha Ha'. rewrite <- !landedOrBase_landedTotal.
    apply Hleast. apply globalAlternativesOf_In. split; assumption. }
  split; [exact Hsum|]. split; [exact Hbl|]. split; [exact Hbi|].
  split; [rewrite Hsav; apply round_upToRounding|].
  intros Hpos.
  set (L := localPrice r0) in *. set (G := landedTotal chosen) in *.
  assert (~ L == 0) as Hnz by lra.
  destruct (computed_percent L G Hnz) as (p & Hp & Hclose).
  rewrite Hp in Hge. cbn [JS.ltb] in Hge. apply Qltb_false_iff in Hge.
  unfold savingsPercent in Hclose.
  set (r := (L - G) / L) in *.
  assert (r * L == L - G) as Hr by (unfold r; field; exact Hnz).
  assert ((1 # 10) - tolerance <= r) as Hlow.
  { unfold upToRounding, tolerance in *.
    destruct (Qlt_le_dec (r * 100) 0) as [Hs|Hs];
      [rewrite (Qabs_neg (r * 100)) in Hclose by lra
      |rewrite (Qabs_pos (r * 100)) in Hclose by lra];
      apply Qabs_Qle_condition in Hclose; lra. }
  assert (((1 # 10) - tolerance) * L <= r * L) as Hmul.
  { apply Qmult_le_compat_r; lra. }
  unfold tolerance in *. lra.
Qed.

Lemma searchLocal_mock_deal_witness :
  exists (first : Product) (rest : list Product) (chosen : Product)
         (summary : SmartDealSummary),
    lr_results (MockDataService.searchLocal Sample.decimalToString
                  Sample.catalogue "phone" "IL" None 1 10 0) = first :: rest
    /\ In chosen Sample.catalogue
    /\ alternativeTo first chosen
    /\ best_international summary = landedTotal chosen.
Proof.
  assert (exists deal,
            lr_smart_deal (MockDataService.searchLocal Sample.decimalToString
                             Sample.catalogue "phone" "IL" None 1 10 0)
            = Some deal) as [deal Hdeal].
  { eexists. vm_compute. reflexivity. }
  destruct (searchLocal_mock_deal Sample.decimalToString Sample.catalogue
              "phone" "IL" None 1 10 0 deal Hdeal)
    as (first & rest & chosen & summary & H1 & _ & _ & H4 & H5 & _ & _ & _ & H9 & _).
  exists first, rest, chosen, summary. repeat split; try assumption; apply H5.
Defined.

(** X23.  A local listing priced 0: no deal is reported when the cheapest
    alternative costs more than 0, but when it costs 0 as well the
    percentage is 0 / 0 and a deal is reported whose savings_percent is NaN
    and whose message reads "Save NaN% ...". *)
Theorem findSmartDeal_zero_price :
  forall (numberToString : Q -> string) (products : list Product) (query : string)
         (bestLocal first : Product) (rest : list Product),
    MockDataService.globalAlternativesOf products bestLocal = first :: rest ->
    MockDataService.localPriceOf bestLocal == 0 ->
    let cheapestGlobal := JS.reduce1 MockDataService.cheaper first rest in
    let detect :=
      MockDataService.findSmartDeal numberToString products query (Some bestLocal) in
    (0 < MockDataService.landedOrBase cheapestGlobal -> detect = None)
    /\ (MockDataService.landedOrBase cheapestGlobal == 0 ->
        exists deal summary,
          detect = Some deal
          /\ deal_summary deal = Some summary
          /\ savings_percent summary = JS.NaN
          /\ deal_message deal
             = Some ("Save NaN% by ordering from "
                     ++ shop_name (shop_info cheapestGlobal))).
Proof.
  intros nts products query bestLocal first rest Halt Hzero cheapestGlobal detect.
  assert (Qeq_bool (MockDataService.localPriceOf bestLocal) 0 = true) as E0
    by now apply Qeq_bool_iff.
  destruct (findSmartDeal_steps nts products query bestLocal first rest Halt)
    as [Hbelow Hdeal].
  cbv zeta in Hbelow, Hdeal. fold cheapestGlobal detect in Hbelow, Hdeal.
  set (lp := MockDataService.localPriceOf bestLocal) in *.
  set (gp := MockDataService.landedOrBase cheapestGlobal) in *.
  split.
  - intros Hpos. apply Hbelow.
    unfold F64.div, F64.sub. rewrite E0.
    assert (lp - gp < 0) as Hneg by lra.
    pose proof (round_neg (lp - gp) Hneg) as [_ Hd].
    unfold F64.u in Hd.
    set (d := F64.round (lp - gp)) in *.
    assert (d < 0) as Hd0 by lra.
    assert (Qeq_bool d 0 = false) as E1.
    { destruct (Qeq_bool d 0) eqn:E; [|reflexivity].
      apply Qeq_bool_iff in E. lra. }
    assert (JS.Qltb 0 d = false) as E2 by (apply Qltb_false_iff; lra).
    rewrite E1, E2. reflexivity.
  - intros Hg.
    assert (F64.mulN (F64.div (F64.sub lp gp) lp) 100 = JS.NaN) as Hnan.
    { unfold F64.div, F64.sub. rewrite E0.
      rewrite (round_0 (lp - gp)) by lra. reflexivity. }
    rewrite Hnan in Hdeal.
    destruct Hdeal as (deal & summary & Hd & _ & Hsum & Hpct & _ & _ & _ & Hmsg & _);
      [reflexivity|].
    exists deal, summary. repeat split; assumption.
Qed.

Lemma findSmartDeal_zero_price_witness :
  exists deal summary,
    MockDataService.findSmartDeal Sample.decimalToString
      [Sample2.freeLocal; Sample2.freeGlobal] "sticker" (Some Sample2.freeLocal)
    = Some deal
    /\ deal_summary deal = Some summary
    /\ savings_percent summary = JS.NaN.
Proof.
  assert (MockDataService.localPriceOf Sample2.freeLocal == 0) as Hzero
    by reflexivity.
  destruct (findSmartDeal_zero_price Sample.decimalToString
              [Sample2.freeLocal; Sample2.freeGlobal] "sticker"
              Sample2.freeLocal Sample2.freeGlobal [] eq_refl Hzero)
    as [_ Hnan].
  destruct Hnan as (deal & summary & H1 & H2 & H3 & _); [reflexivity|].
  exists deal, summary. repeat split; assumption.
Defined.


Lemma searchGlobal_index_page_witness :
  Permutation
    (map (fun p => SearchService.calculateTotalCost p IL true)
         [Sample.plain100; Sample.globalPhone85])
    (SearchService.products
       (SearchService.searchGlobal Sample.decimalToString Sample2.indexUp
          Sample.globalPhonesRequest 0)).
Proof.
  exact (proj1 (searchGlobal_index_page Sample.decimalToString Sample2.indexUp
                  Sample.globalPhonesRequest 0 _ eq_refl eq_refl)).
Defined.

Lemma searchLocal_index_no_available_deal_witness :
  match SearchService.smartDeal
          (SearchService.searchLocal Sample.decimalToString Sample2.indexUp
             (Sample.phoneBody (Some true)) 0) with
  | Some deal => deal_available deal = false /\ deal_product deal = None
  | None => True
  end.
Proof.
  exact (searchLocal_index_no_available_deal Sample.decimalToString
           Sample2.indexUp (Sample.phoneBody (Some true)) 0 eq_refl).
Defined.

(* ------------------------------------------------------------------ *)
(** *** Cache keys *)
(* ------------------------------------------------------------------ *)

(** X24.  Search keys start with "search:", product keys with "product:"
    and statistics keys with "stats:", and no key starts with the prefix of
    another family, so each of the patterns "search:*", "product:*" and
    "stats:*" used for invalidation selects its own family only; a local
    and a global search key are never equal. *)
Theorem cache_key_namespaces :
  forall (numberToString : Q -> string) (type : CacheService.CacheType)
         (request request' : AnySearchRequest) (productId : string)
         (options : option CacheKeys.ProductKeyOptions)
         (stats : CacheKeys.StatsType),
    let searchKey := CacheService.buildSearchCacheKey numberToString type request in
    let productKey := CacheKeys.buildProductCacheKey productId options in
    let statsKey := CacheKeys.buildStatsCacheKey stats in
    (String.prefix "search:" searchKey = true
     /\ String.prefix "search:" productKey = false
     /\ String.prefix "search:" statsKey = false)
    /\ (String.prefix "product:" productKey = true
        /\ String.prefix "product:" searchKey = false
        /\ String.prefix "product:" statsKey = false)
    /\ (String.prefix "stats:" statsKey = true
        /\ String.prefix "stats:" searchKey = false
        /\ String.prefix "stats:" productKey = false)
    /\ CacheService.buildSearchCacheKey numberToString CacheService.local request
       <> CacheService.buildSearchCacheKey numberToString CacheService.global request'.
Proof.
  intros nts type request request' productId options stats.
  unfold CacheService.buildSearchCacheKey, CacheKeys.buildProductCacheKey,
    CacheKeys.buildStatsCacheKey.
  repeat split; try (destruct type; reflexivity);
    try (destruct stats; reflexivity).
  - destruct (CacheKeys.isSet options CacheKeys.includeGroup),
             (CacheKeys.isSet options CacheKeys.includeHistory), productId;
      reflexivity.
  - intros H. simpl in H. discriminate H.
Qed.

Lemma lowerChar_idem (c : ascii) : JS.lowerChar (JS.lowerChar c) = JS.lowerChar c.
Proof.
  destruct c as [[] [] [] [] [] [] [] []]; reflexivity.
Qed.

Lemma toLowerCase_idem (s : string) :
  JS.toLowerCase (JS.toLowerCase s) = JS.toLowerCase s.
Proof.
  induction s as [|c s IH]; simpl; [reflexivity|].
  now rewrite lowerChar_idem, IH.
Qed.

Lemma toLowerCase_app (s t : string) :
  JS.toLowerCase (s ++ t) = JS.toLowerCase s ++ JS.toLowerCase t.
Proof.
  induction s as [|c s IH]; simpl; [reflexivity|]. now rewrite IH.
Qed.

Lemma trimEnd_space (s : string) : JS.trimEnd (s ++ " ") = JS.trimEnd s.
Proof.
  induction s as [|c s IH]; simpl; [reflexivity|]. now rewrite IH.
Qed.

Lemma trim_space_end (s : string) : JS.trim (s ++ " ") = JS.trim s.
Proof.
  unfold JS.trim. induction s as [|c s IH]; simpl; [reflexivity|].
  destruct (JS.isSpace c); [exact IH|].
  change (String c (s ++ " ")) with (String c s ++ " ").
  apply trimEnd_space.
Qed.

(** X25.  Queries that differ in letter case or in surrounding blanks only
    share one cache key. *)
Theorem buildSearchCacheKey_query_normalised :
  forall (numberToString : Q -> string) (type : CacheService.CacheType)
         (request : AnySearchRequest) (q : string),
    CacheService.buildSearchCacheKey numberToString type
      (withQuery request (JS.toLowerCase q))
    = CacheService.buildSearchCacheKey numberToString type (withQuery request q)
    /\ CacheService.buildSearchCacheKey numberToString type
         (withQuery request (" " ++ q ++ " "))
       = CacheService.buildSearchCacheKey numberToString type (withQuery request q).
Proof.
  intros nts type request q.
  assert (forall q1 q2,
             JS.trim (JS.toLowerCase q1) = JS.trim (JS.toLowerCase q2) ->
             CacheService.buildSearchCacheKey nts type (withQuery request q1)
             = CacheService.buildSearchCacheKey nts type (withQuery request q2))
    as Hsame.
  { intros q1 q2 Hq. unfold CacheService.buildSearchCacheKey.
    do 3 f_equal. unfold CacheService.keyParts.
    destruct request as [r|r]; unfold withQuery;
      cbn [CacheService.req_query l_query g_query]; rewrite Hq; reflexivity. }
  split; apply Hsame.
  - now rewrite toLowerCase_idem.
  - rewrite !toLowerCase_app. cbn.
    change (JS.trim (String " " (JS.toLowerCase q ++ " ")))
      with (JS.trim (JS.toLowerCase q ++ " ")).
    apply trim_space_end.
Qed.

(* ------------------------------------------------------------------ *)
(** *** The route handlers *)
(* ------------------------------------------------------------------ *)

(** X26.  A cached local response is served whatever [check_international]
    says: if the cache holds an entry under the key of a valid request, the
    same request with any other value of the flag gets that entry (with a
    fresh [took_ms]), after a single cache read, without a search and
    without a cache write. *)
Theorem local_hit_whatever_check :
  forall (numberToString : Q -> string) (searchService : SearchService.Service)
         (env : LocalRoute.Env) (body : LocalSearchRequest)
         (validatedBody : LocalRoute.LocalSearchBody) (check : option bool)
         (cached : LocalSearchResponse),
    LocalRoute.localSearchSchema_parse body = Some validatedBody ->
    LocalRoute.cacheGet env (LocalRoute.cacheKeyOf numberToString validatedBody)
    = Some cached ->
    LocalRoute.handler numberToString searchService env (withCheck body check)
    = (LocalRoute.Send (retimedLocal cached (LocalRoute.elapsed env)),
       [LocalRoute.CacheGet (LocalRoute.cacheKeyOf numberToString validatedBody)]).
Proof.
  intros nts svc env body vb check cached Hparse Hhit.
  unfold LocalRoute.handler.
  unfold LocalRoute.localSearchSchema_parse in *.
  cbn [withCheck l_query l_filters l_page l_per_page l_sort_by l_country
       l_check_international].
  destruct (_ && _) eqn:E; [|discriminate].
  injection Hparse as <-.
  match goal with
  | |- context [LocalRoute.cacheGet env (LocalRoute.cacheKeyOf nts ?v)] =>
      change (LocalRoute.cacheKeyOf nts v)
        with (LocalRoute.cacheKeyOf nts
                {| LocalRoute.query := l_query body;
                   LocalRoute.filters := l_filters body;
                   LocalRoute.sort_by :=
                     SearchService.orDefault (l_sort_by body) RELEVANCE;
                   LocalRoute.page := SearchService.orDefault (l_page body) 1%Z;
                   LocalRoute.per_page :=
                     SearchService.orDefault (l_per_page body) 20%Z;
                   LocalRoute.country := l_country body;
                   LocalRoute.check_international :=
                     SearchService.orDefault (l_check_international body) false |})
  end.
  rewrite Hhit. reflexivity.
Qed.

Lemma local_hit_whatever_check_witness :
  LocalRoute.handler Sample.decimalToString Sample.mockService Sample3.warmCache
    (withCheck (Sample.phoneBody None) (Some true))
  = (LocalRoute.Send (retimedLocal Sample3.cachedPhones 3),
     [LocalRoute.CacheGet "search:local:30003c4"]).
Proof.
  exact (local_hit_whatever_check Sample.decimalToString Sample.mockService
           Sample3.warmCache (Sample.phoneBody None) _ (Some true)
           Sample3.cachedPhones eq_refl eq_refl).
Defined.

(** X27.  A cached global response is served whatever the cost options
    say: if the cache holds an entry under the key of a valid request, the
    same request with any other [include_shipping], [include_all_fees] and
    (valid) [min_seller_rating] gets that entry, after a single cache read,
    without a search and without a cache write. *)
Theorem global_hit_whatever_cost_options :
  forall (numberToString : Q -> string) (searchService : SearchService.Service)
         (env : GlobalRoute.Env) (body : GlobalRoute.RawBody)
         (validatedBody : GlobalRoute.GlobalSearchBody)
         (shipping fees : option bool) (sellerRating : option Q)
         (cached : GlobalSearchResponse),
    GlobalRoute.globalSearchSchema_parse body = Some validatedBody ->
    GlobalRoute.ratingSchema sellerRating = true ->
    GlobalRoute.cacheGet env (GlobalRoute.cacheKeyOf numberToString validatedBody)
    = Some cached ->
    GlobalRoute.handler numberToString searchService env
      (withCostOptions body shipping fees sellerRating)
    = (GlobalRoute.Send (retimedGlobal cached (GlobalRoute.elapsed env)),
       [GlobalRoute.CacheGet (GlobalRoute.cacheKeyOf numberToString validatedBody)]).
Proof.
  intros nts svc env body vb shipping fees rating cached Hparse Hrating Hhit.
  unfold GlobalRoute.handler.
  unfold GlobalRoute.globalSearchSchema_parse in *.
  cbn [withCostOptions GlobalRoute.raw_query GlobalRoute.raw_filters
       GlobalRoute.raw_sort_by GlobalRoute.raw_page GlobalRoute.raw_per_page
       GlobalRoute.raw_user_country GlobalRoute.raw_include_shipping
       GlobalRoute.raw_include_all_fees GlobalRoute.raw_min_seller_rating].
  rewrite Hrating.
  destruct (_ && GlobalRoute.ratingSchema (GlobalRoute.raw_min_seller_rating body))
    eqn:E; [|discriminate].
  apply andb_true_iff in E. destruct E as [E _]. rewrite E. cbn [andb].
  injection Hparse as <-.
  match goal with
  | |- context [GlobalRoute.cacheGet env (GlobalRoute.cacheKeyOf nts ?v)] =>
      change (GlobalRoute.cacheKeyOf nts v)
        with (GlobalRoute.cacheKeyOf nts
                {| GlobalRoute.query := GlobalRoute.raw_query body;
                   GlobalRoute.filters := GlobalRoute.raw_filters body;
                   GlobalRoute.sort_by :=
                     SearchService.orDefault (GlobalRoute.raw_sort_by body) PRICE_ASC;
                   GlobalRoute.page :=
                     SearchService.orDefault (GlobalRoute.raw_page body) 1%Z;
                   GlobalRoute.per_page :=
                     SearchService.orDefault (GlobalRoute.raw_per_page body) 20%Z;
                   GlobalRoute.user_country := GlobalRoute.raw_user_country body;
                   GlobalRoute.include_shipping :=
                     SearchService.orDefault
                       (GlobalRoute.raw_include_shipping body) true;
                   GlobalRoute.include_all_fees :=
                     SearchService.orDefault
                       (GlobalRoute.raw_include_all_fees body) true;
                   GlobalRoute.min_seller_rating :=
                     GlobalRoute.raw_min_seller_rating body |})
  end.
  rewrite Hhit. reflexivity.
Qed.

Lemma global_hit_whatever_cost_options_witness :
  GlobalRoute.handler Sample.decimalToString Sample.mockService
    Sample3.warmGlobalCache
    (withCostOptions Sample2.globalBody (Some false) (Some false) (Some 4))
  = (GlobalRoute.Send (retimedGlobal Sample3.cachedGlobal 4),
     [GlobalRoute.CacheGet
        (GlobalRoute.cacheKeyOf Sample.decimalToString
           {| GlobalRoute.query := "phone"; GlobalRoute.filters := None;
              GlobalRoute.sort_by := PRICE_ASC; GlobalRoute.page := 1;
              GlobalRoute.per_page := 20; GlobalRoute.user_country := IL;
              GlobalRoute.include_shipping := true;
              GlobalRoute.include_all_fees := true;
              GlobalRoute.min_seller_rating := None |})]).
Proof.
  exact (global_hit_whatever_cost_options Sample.decimalToString
           Sample.mockService Sample3.warmGlobalCache Sample2.globalBody _
           (Some false) (Some false) (Some 4) Sample3.cachedGlobal
           eq_refl eq_refl eq_refl).
Defined.

Lemma optPositive_false_iff (x : option Q) :
  LocalRoute.optPositive x = false <-> exists m, x = Some m /\ m <= 0.
Proof.
  destruct x as [q|]; simpl.
  - rewrite Qltb_false_iff. split.
    + intros H. exists q. split; [reflexivity | exact H].
    + intros (m & [= <-] & H). exact H.
  - split; [discriminate | intros (m & H & _); discriminate].
Qed.

(** The filter schema rejects exactly the filter sets with a non-positive
    price bound or a rating bound outside 0..5. *)
Lemma filtersSchema_false_iff (f : SearchFilters) :
  LocalRoute.filtersSchema f = false <-> invalidFilters f.
Proof.
  unfold LocalRoute.filtersSchema, invalidFilters.
  rewrite !andb_false_iff, !optPositive_false_iff.
  assert (match min_rating f with
          | Some r => Qle_bool 0 r && Qle_bool r 5
          | None => true
          end = false
          <-> exists r, min_rating f = Some r /\ (r < 0 \/ 5 < r)) as Hr.
  { destruct (min_rating f) as [r|].
    - rewrite andb_false_iff. split.
      + intros H. exists r. split; [reflexivity|].
        destruct H as [H|H]; [left|right];
          apply Qnot_le_lt; intros Hc; apply Qle_bool_iff in Hc; congruence.
      + intros (r' & [= <-] & [H|H]); [left|right];
          (destruct (Qle_bool _ _) eqn:E; [|reflexivity]);
          apply Qle_bool_iff in E; lra.
    - split; [discriminate | intros (r & H & _); discriminate]. }
  rewrite Hr. tauto.
Qed.

(** X28.  Among the request bodies of the declared type, the local handler
    answers 400, touching neither the cache nor the search service, exactly
    for those that fail the schema: an empty query or one longer than 200
    characters, a filter set with a non-positive price bound or a rating
    bound outside 0..5, a page below 1, or a page size outside 1..100. *)
Theorem local_handler_rejects_invalid :
  forall (numberToString : Q -> string) (searchService : SearchService.Service)
         (env : LocalRoute.Env) (body : LocalSearchRequest),
    LocalRoute.handler numberToString searchService env body
    = (LocalRoute.Status400, [])
    <-> invalidLocalBody body.
Proof.
  intros nts svc env body. unfold LocalRoute.handler, invalidLocalBody.
  unfold LocalRoute.localSearchSchema_parse.
  set (len := String.length (l_query body)).
  destruct (_ && _) eqn:E.
  - split.
    + destruct (LocalRoute.cacheGet env _); discriminate.
    + intros Hbad. exfalso.
      repeat (apply andb_true_iff in E; destruct E as [E ?]).
      destruct Hbad as [Hb|[Hb|[(f & Hf & Hs)|[(p & Hp & Hle)|(n & Hn & Hr)]]]].
      * lia.
      * lia.
      * rewrite Hf in *. apply filtersSchema_false_iff in Hs. congruence.
      * rewrite Hp in *. cbn in *. lia.
      * rewrite Hn in *. cbn in *. lia.
  - split; [|reflexivity]. intros _.
    repeat (apply andb_false_iff in E; destruct E as [E|E]).
    + left. lia.
    + right. left. lia.
    + right. right. left.
      destruct (l_filters body) as [f|]; [|discriminate].
      exists f. split; [reflexivity | now apply filtersSchema_false_iff].
    + right. right. right. left.
      destruct (l_page body) as [p|]; cbn in E; [|discriminate].
      exists p. split; [reflexivity | lia].
    + right. right. right. right.
      destruct (l_per_page body) as [n|]; cbn in E; [|discriminate].
      exists n. split; [reflexivity | lia].
    + right. right. right. right.
      destruct (l_per_page body) as [n|]; cbn in E; [|discriminate].
      exists n. split; [reflexivity | lia].
Qed.

Lemma paginate_finite (page perPage totalResults : Z) :
  (0 < perPage)%Z ->
  LocalRoute.isNaN
    (total_pages (MockDataService.paginate page perPage totalResults))
  = false.
Proof.
  intros Hp. unfold MockDataService.paginate, JS.div.
  cbn [total_pages].
  assert (Qeq_bool (inject_Z perPage) 0 = false) as E.
  { destruct (Qeq_bool (inject_Z perPage) 0) eqn:E; [|reflexivity].
    apply Qeq_bool_iff in E. unfold Qeq in E. simpl in E. lia. }
  rewrite E. reflexivity.
Qed.

(** Whatever path answers, a local search with a positive page size
    reports a finite page count. *)
Lemma searchLocal_pages_finite (numberToString : Q -> string)
    (this : SearchService.Service) (request : LocalSearchRequest) (took perPage : Z) :
  l_per_page request = Some perPage ->
  (0 < perPage)%Z ->
  LocalRoute.isNaN
    (total_pages
       (SearchService.pagination
          (SearchService.searchLocal numberToString this request took)))
  = false.
Proof.
  intros Hper Hpos. unfold SearchService.searchLocal. rewrite Hper.
  cbn [SearchService.orDefault].
  destruct (SearchService.useMockData this),
           (SearchService.mockDataService this);
    try (destruct (SearchService.queryIndexLocal _ _ _));
    cbn [SearchService.pagination MockDataService.searchLocal lr_pagination
         SearchService.fallbackSearchLocal];
    try (apply paginate_finite; exact Hpos);
    try (apply buildPagination_finite; exact Hpos);
    rewrite Hper; cbn [JS.or_elseZ];
    (assert ((perPage =? 0)%Z = false) as E by lia); rewrite E;
    apply buildPagination_finite; exact Hpos.
Qed.

(** Off the mock provider no smart deal carries a summary. *)
Lemma searchLocal_index_no_summary (numberToString : Q -> string)
    (this : SearchService.Service) (request : LocalSearchRequest) (took : Z) :
  SearchService.useMockData this = false ->
  match SearchService.smartDeal
          (SearchService.searchLocal numberToString this request took) with
  | Some deal => deal_summary deal = None
  | None => True
  end.
Proof.
  intros Hmock. unfold SearchService.searchLocal. rewrite Hmock.
  destruct (SearchService.queryIndexLocal _ _ _) as [res|]; [|exact I].
  cbn [SearchService.smartDeal].
  destruct (SearchService.orDefault (l_check_international request) false);
    [|exact I].
  destruct (hd_error (SearchService.hits res)); [reflexivity | exact I].
Qed.

(** X29.  On every cache miss of a valid request the local handler reads
    the cache once and writes it once, storing under the request's key the
    response it built, which echoes the query, the page and the page size
    of the validated request.  It then sends that response, unless the
    smart deal of the response carries a NaN savings_percent: the response
    is cached all the same, but the serializer rejects it and the request
    is answered with status 500.  Off the mock provider the response is
    always sent. *)
Theorem local_miss_caches_what_it_sends :
  forall (numberToString : Q -> string) (searchService : SearchService.Service)
         (env : LocalRoute.Env) (body : LocalSearchRequest)
         (validatedBody : LocalRoute.LocalSearchBody),
    LocalRoute.localSearchSchema_parse body = Some validatedBody ->
    LocalRoute.cacheGet env (LocalRoute.cacheKeyOf numberToString validatedBody)
    = None ->
    exists (response : LocalSearchResponse) (reply : LocalRoute.Reply),
      LocalRoute.handler numberToString searchService env body
      = (reply,
         [LocalRoute.CacheGet (LocalRoute.cacheKeyOf numberToString validatedBody);
          LocalRoute.CacheSet (LocalRoute.cacheKeyOf numberToString validatedBody)
            response (LocalRoute.cacheTTL_search env)])
      /\ (reply = LocalRoute.Send response
          \/ reply = LocalRoute.Status500
             /\ exists deal summary,
                  lr_smart_deal response = Some deal
                  /\ deal_summary deal = Some summary
                  /\ savings_percent summary = JS.NaN)
      /\ (SearchService.useMockData searchService = false ->
          reply = LocalRoute.Send response)
      /\ lr_query response = l_query body
      /\ current_page (lr_pagination response) = LocalRoute.page validatedBody
      /\ per_page (lr_pagination response) = LocalRoute.per_page validatedBody
      /\ lr_took_ms response = LocalRoute.elapsed env.
Proof.
  intros nts svc env body vb Hparse Hmiss.
  destruct (localSearchSchema_parse_inv body vb Hparse)
    as (Hpage & Hper & Hq & _).
  set (result := SearchService.searchLocal nts svc
                   (LocalRoute.afterKey (LocalRoute.searchRequestOf vb))
                   (LocalRoute.elapsed env)).
  set (response := LocalRoute.responseOf env vb result).
  assert (LocalRoute.isNaN (total_pages (lr_pagination response)) = false)
    as Hpages.
  { apply (searchLocal_pages_finite nts svc _ _ (LocalRoute.per_page vb));
      [reflexivity | lia]. }
  exists response,
    (if LocalRoute.serializable response then LocalRoute.Send response
     else LocalRoute.Status500).
  split.
  { unfold LocalRoute.handler. rewrite Hparse, Hmiss. reflexivity. }
  split.
  { unfold LocalRoute.serializable. rewrite Hpages. cbn [negb andb].
    destruct (lr_smart_deal response) as [deal|]; [|now left].
    destruct (deal_summary deal) as [summary|] eqn:Hsum; [|now left].
    destruct (savings_percent summary) eqn:Hpct; cbn; try (now left).
    right. split; [reflexivity|]. exists deal, summary. repeat split; assumption. }
  split.
  { intros Hmock. unfold LocalRoute.serializable. rewrite Hpages. cbn [negb andb].
    pose proof (searchLocal_index_no_summary nts svc
                  (LocalRoute.afterKey (LocalRoute.searchRequestOf vb))
                  (LocalRoute.elapsed env) Hmock) as Hno.
    fold result in Hno.
    change (lr_smart_deal response) with (SearchService.smartDeal result).
    destruct (SearchService.smartDeal result) as [deal|]; [|reflexivity].
    now rewrite Hno. }
  unfold response, result.
  cbn [LocalRoute.responseOf lr_query lr_pagination lr_took_ms].
  split; [exact Hq|]. split; [|split; [|reflexivity]].
  + unfold SearchService.searchLocal.
    destruct (SearchService.useMockData svc),
             (SearchService.mockDataService svc);
      try (destruct (SearchService.queryIndexLocal _ _ _));
      cbn; try reflexivity;
      destruct (LocalRoute.page vb); try reflexivity; lia.
  + unfold SearchService.searchLocal.
    destruct (SearchService.useMockData svc),
             (SearchService.mockDataService svc);
      try (destruct (SearchService.queryIndexLocal _ _ _));
      cbn; try reflexivity;
      destruct (LocalRoute.per_page vb); try reflexivity; lia.
Qed.

Lemma local_miss_caches_what_it_sends_witness :
  exists (response : LocalSearchResponse) (reply : LocalRoute.Reply),
    LocalRoute.handler Sample.decimalToString Sample.indexDown
      Sample.emptyCache (Sample.phoneBody None)
    = (reply,
       [LocalRoute.CacheGet "search:local:30003c4";
        LocalRoute.CacheSet "search:local:30003c4" response 300])
    /\ reply = LocalRoute.Send response
    /\ current_page (lr_pagination response) = 1%Z.
Proof.
  destruct (local_miss_caches_what_it_sends Sample.decimalToString
              Sample.indexDown Sample.emptyCache (Sample.phoneBody None)
              _ eq_refl eq_refl) as (response & reply & H1 & _ & H3 & _ & H5 & _).
  exists response, reply. split; [exact H1|]. split; [now apply H3 | exact H5].
Defined.

(** The status 500 is reached: with a free local listing and a free
    alternative in the mock store, the response with the NaN deal is cached
    and the request fails. *)
Lemma local_miss_nan_deal_status500 :
  exists response : LocalSearchResponse,
    LocalRoute.handler Sample.decimalToString Sample2.freeService
      Sample.emptyCache Sample2.stickerBody
    = (LocalRoute.Status500,
       [LocalRoute.CacheGet "search:local:b30a16a9";
        LocalRoute.CacheSet "search:local:b30a16a9" response 300]).
Proof.
  eexists. vm_compute. reflexivity.
Qed.

Lemma globalSearchSchema_parse_inv (body : GlobalRoute.RawBody)
    (vb : GlobalRoute.GlobalSearchBody) :
  GlobalRoute.globalSearchSchema_parse body = Some vb ->
  (0 < GlobalRoute.page vb)%Z
  /\ (0 < GlobalRoute.per_page vb <= 100)%Z
  /\ GlobalRoute.query vb = GlobalRoute.raw_query body.
Proof.
  unfold GlobalRoute.globalSearchSchema_parse.
  destruct (_ && _) eqn:E; [|discriminate].
  intros [= <-]. cbn.
  repeat (apply andb_true_iff in E; destruct E as [E ?]).
  repeat split; try reflexivity; lia.
Qed.

(** X30.  On every cache miss the global handler reads the cache once and
    writes it once, storing under the request's key exactly the response it
    sends, which echoes the query, the page and the page size of the
    validated request.  This includes the fallback: when the index rejects
    the query, the empty result with a total of 0 is sent and cached. *)
Theorem global_miss_caches_what_it_sends :
  forall (numberToString : Q -> string) (searchService : SearchService.Service)
         (env : GlobalRoute.Env) (body : GlobalRoute.RawBody)
         (validatedBody : GlobalRoute.GlobalSearchBody),
    GlobalRoute.globalSearchSchema_parse body = Some validatedBody ->
    GlobalRoute.cacheGet env (GlobalRoute.cacheKeyOf numberToString validatedBody)
    = None ->
    exists response : GlobalSearchResponse,
      GlobalRoute.handler numberToString searchService env body
      = (GlobalRoute.Send response,
         [GlobalRoute.CacheGet (GlobalRoute.cacheKeyOf numberToString validatedBody);
          GlobalRoute.CacheSet (GlobalRoute.cacheKeyOf numberToString validatedBody)
            response (GlobalRoute.cacheTTL_search env)])
      /\ gr_query response = GlobalRoute.raw_query body
      /\ current_page (gr_pagination response) = GlobalRoute.page validatedBody
      /\ per_page (gr_pagination response) = GlobalRoute.per_page validatedBody
      /\ (SearchService.useMockData searchService = false ->
          SearchService.queryIndexGlobal numberToString searchService
            (GlobalRoute.afterKey (GlobalRoute.searchRequestOf validatedBody))
          = None ->
          gr_results response = []
          /\ total_results (gr_pagination response) = 0%Z).
Proof.
  intros nts svc env body vb Hparse Hmiss.
  destruct (globalSearchSchema_parse_inv body vb Hparse) as (Hpage & Hper & Hq).
  eexists. split.
  - unfold GlobalRoute.handler. rewrite Hparse, Hmiss. reflexivity.
  - cbn [GlobalRoute.responseOf gr_query gr_pagination gr_results].
    split; [exact Hq|]. split; [|split; [|]].
    + unfold SearchService.searchGlobal.
      destruct (SearchService.useMockData svc),
               (SearchService.mockDataService svc);
        try (destruct (SearchService.queryIndexGlobal _ _ _));
        cbn; try reflexivity;
        destruct (GlobalRoute.page vb); try reflexivity; lia.
    + unfold SearchService.searchGlobal.
      destruct (SearchService.useMockData svc),
               (SearchService.mockDataService svc);
        try (destruct (SearchService.queryIndexGlobal _ _ _));
        cbn; try reflexivity;
        destruct (GlobalRoute.per_page vb); try reflexivity; lia.
    + intros Hmock Hfail. unfold SearchService.searchGlobal.
      rewrite Hmock, Hfail. split; reflexivity.
Qed.

Lemma global_miss_caches_what_it_sends_witness :
  exists response : GlobalSearchResponse,
    GlobalRoute.handler Sample.decimalToString Sample.indexDown
      Sample2.globalEmptyCache Sample2.globalBody
    = (GlobalRoute.Send response,
       [GlobalRoute.CacheGet
          (GlobalRoute.cacheKeyOf Sample.decimalToString
             {| GlobalRoute.query := "phone"; GlobalRoute.filters := None;
                GlobalRoute.sort_by := PRICE_ASC; GlobalRoute.page := 1;
                GlobalRoute.per_page := 20; GlobalRoute.user_country := IL;
                GlobalRoute.include_shipping := true;
                GlobalRoute.include_all_fees := true;
                GlobalRoute.min_seller_rating := None |});
        GlobalRoute.CacheSet
          (GlobalRoute.cacheKeyOf Sample.decimalToString
             {| GlobalRoute.query := "phone"; GlobalRoute.filters := None;
                GlobalRoute.sort_by := PRICE_ASC; GlobalRoute.page := 1;
                GlobalRoute.per_page := 20; GlobalRoute.user_country := IL;
                GlobalRoute.include_shipping := true;
                GlobalRoute.include_all_fees := true;
                GlobalRoute.min_seller_rating := None |})
          response 300])
    /\ gr_results response = [].
Proof.
  destruct (global_miss_caches_what_it_sends Sample.decimalToString
              Sample.indexDown Sample2.globalEmptyCache Sample2.globalBody
              _ eq_refl eq_refl) as (response & H1 & _ & _ & _ & H5).
  exists response. split; [exact H1|].
  exact (proj1 (H5 eq_refl eq_refl)).
Defined.
